(** * Vaccine pipeline: the registry fetchers, the normalizers and the filters

    A shallow embedding of [app7.py] and of [app.py], its first version,
    together with the properties of the pagination loop, of the record
    normalizers, of the phase filter, of the own-trials matching and of the
    competitor search.

    Conventions of the embedding.
    - A value decoded from a JSON body is a [json] term; a JSON object keeps
      its items in order, its keys are distinct, and [dict_lookup] returns
      the item of a key.  Numbers are integers (a float only ever matters
      through its truth value, and nothing below depends on one).
    - A Python [str] is a [string]; the functions on text ([strip], [lower],
      sorting) are those of Python on the ASCII range, and a statement that
      needs them to be Python's says that its texts are of that range.
    - A Python call either returns or raises: [result].  [exn] has the
      exception the fetchers catch and the two a badly shaped body provokes;
      the body of a successful response is taken as decoded.
    - The registry is a sequence of responses, one per request issued; what
      a run does to the outside (requests, delays, error reports) is the
      list of its [event]s, in order.
    - [st.cache_data] only replays the value of an earlier call with the
      same arguments; the functions are modelled without it. *)

From Stdlib Require Import String Ascii List ZArith Bool Arith Lia Permutation.
From Stdlib Require OrderedTypeEx Sorted.
Import ListNotations.
Local Open Scope string_scope.
Local Open Scope list_scope.

(* ================================================================= *)
(** ** Python values *)

#[warning="-register-all"] Inductive json : Type :=
| JNull : json
| JBool : bool -> json
| JNum : Z -> json
| JStr : string -> json
| JArr : list json -> json
| JObj : list (string * json) -> json.

(** The exception classes: [requests.RequestException] (which the fetchers
    catch) and the two builtin ones a badly shaped body provokes (which they
    do not catch). *)
Inductive exn : Type :=
| RequestException
| AttributeError
| TypeError.

Inductive result (A : Type) : Type :=
| Returned : A -> result A
| Raised : exn -> result A.

Arguments Returned {A} _.
Arguments Raised {A} _.

Definition bind {A B : Type} (m : result A) (k : A -> result B) : result B :=
  match m with
  | Returned a => k a
  | Raised e => Raised e
  end.

Notation "x <- m ;; k" := (bind m (fun x => k))
  (at level 61, m at next level, right associativity).

Definition returns {A : Type} (m : result A) : bool :=
  match m with Returned _ => true | Raised _ => false end.

(** [for x in xs: acc = f(acc, x)], stopping at the first exception. *)
Fixpoint for_each {A S : Type} (f : S -> A -> result S) (xs : list A) (acc : S)
  : result S :=
  match xs with
  | [] => Returned acc
  | x :: xs' => acc' <- f acc x ;; for_each f xs' acc'
  end.

(* ================================================================= *)
(** ** Text *)

Module PyStr.

(** [str.isspace] on the ASCII range: TAB, LF, VT, FF, CR, FS, GS, RS, US
    and the space. *)
Definition is_space (c : ascii) : bool :=
  let n := nat_of_ascii c in
  (((9 <=? n) && (n <=? 13)) || ((28 <=? n) && (n <=? 32)))%nat.

Fixpoint lstrip (s : string) : string :=
  match s with
  | EmptyString => EmptyString
  | String c s' => if is_space c then lstrip s' else s
  end.

Fixpoint rstrip (s : string) : string :=
  match s with
  | EmptyString => EmptyString
  | String c s' =>
      match rstrip s' with
      | EmptyString => if is_space c then EmptyString else String c EmptyString
      | r => String c r
      end
  end.

(** [s.strip()] *)
Definition strip (s : string) : string := rstrip (lstrip s).

Definition lower_char (c : ascii) : ascii :=
  let n := nat_of_ascii c in
  if ((65 <=? n) && (n <=? 90))%nat then ascii_of_nat (n + 32) else c.

(** [s.lower()] *)
Fixpoint lower (s : string) : string :=
  match s with
  | EmptyString => EmptyString
  | String c s' => String (lower_char c) (lower s')
  end.

(** [needle in hay] for two [str]: [needle] occurs as a substring. *)
Fixpoint contains (needle hay : string) : bool :=
  String.prefix needle hay
  || match hay with
     | EmptyString => false
     | String _ hay' => contains needle hay'
     end.

(** [sep.join(parts)] *)
Definition join (sep : string) (parts : list string) : string :=
  String.concat sep parts.

(** [s.split(sep)] for a non-empty [sep]: [skip] counts the characters of a
    separator already recognised that are still to be passed over, [cur] is
    the token read so far. *)
Fixpoint split_from (sep s : string) (skip : nat) (cur : string) : list string :=
  match s with
  | EmptyString => [cur]
  | String c s' =>
      match skip with
      | S k => split_from sep s' k cur
      | O =>
          if String.prefix sep s
          then cur :: split_from sep s' (String.length sep - 1) EmptyString
          else split_from sep s' 0 (cur ++ String c EmptyString)%string
      end
  end.

Definition split (sep s : string) : list string := split_from sep s 0 EmptyString.

(** The characters of a [str], as iterating over it yields them. *)
Fixpoint chars (s : string) : list string :=
  match s with
  | EmptyString => []
  | String c s' => String c EmptyString :: chars s'
  end.

(** [sorted(xs)] on [str]: insertion into a list ordered by code point. *)
Fixpoint insert_sorted (x : string) (xs : list string) : list string :=
  match xs with
  | [] => [x]
  | y :: ys => if String.leb x y then x :: xs else y :: insert_sorted x ys
  end.

Fixpoint sorted (xs : list string) : list string :=
  match xs with
  | [] => []
  | x :: xs' => insert_sorted x (sorted xs')
  end.

End PyStr.

(** A [set] of [str]: its members, each once.  [set_add] is [s.add(x)]. *)
Definition str_set := list string.

Definition set_mem (x : string) (s : str_set) : bool :=
  existsb (String.eqb x) s.

Definition set_add (x : string) (s : str_set) : str_set :=
  if set_mem x s then s else s ++ [x].

(* ================================================================= *)
(** ** The operations of Python the code applies to decoded JSON *)

(** Truth value: [None], [False], [0], [""], [[]] and [{}] are false. *)
Definition truthy (v : json) : bool :=
  match v with
  | JNull => false
  | JBool b => b
  | JNum n => negb (n =? 0)%Z
  | JStr s => negb (String.eqb s EmptyString)
  | JArr l => match l with [] => false | _ => true end
  | JObj l => match l with [] => false | _ => true end
  end.

(** [a or b] *)
Definition py_or (a b : json) : json := if truthy a then a else b.

Fixpoint dict_lookup (k : string) (items : list (string * json)) : option json :=
  match items with
  | [] => None
  | (k', v) :: rest => if String.eqb k k' then Some v else dict_lookup k rest
  end.

(** [d.get(k, default)]: only a [dict] has the method. *)
Definition dict_get (d : json) (k : string) (default : json) : result json :=
  match d with
  | JObj items =>
      Returned (match dict_lookup k items with Some v => v | None => default end)
  | _ => Raised AttributeError
  end.

(** [for x in v]: a list yields its elements, a [str] its characters, a
    [dict] its keys; nothing else is iterable. *)
Definition py_iter (v : json) : result (list json) :=
  match v with
  | JArr l => Returned l
  | JStr s => Returned (map JStr (PyStr.chars s))
  | JObj items => Returned (map (fun kv => JStr (fst kv)) items)
  | _ => Raised TypeError
  end.

(** [v.strip()]: only a [str] has the method. *)
Definition py_strip (v : json) : result string :=
  match v with
  | JStr s => Returned (PyStr.strip s)
  | _ => Raised AttributeError
  end.

Definition as_str (v : json) : result string :=
  match v with
  | JStr s => Returned s
  | _ => Raised TypeError
  end.

Fixpoint all_str (vs : list json) : result (list string) :=
  match vs with
  | [] => Returned []
  | v :: vs' => s <- as_str v ;; ss <- all_str vs' ;; Returned (s :: ss)
  end.

(** [sep.join(v)]: [v] must be iterable and yield only [str]. *)
Definition py_join (sep : string) (v : json) : result string :=
  items <- py_iter v ;;
  parts <- all_str items ;;
  Returned (PyStr.join sep parts).

(* ================================================================= *)
(** ** Records *)

(** One row of [all_results]: the dict appended at [app7.py] lines 63-70,
    fields in the order of its keys ["NCT ID"], ["Title"], ["Phase"],
    ["Status"], ["Sponsor"], ["Vaccines"]. *)
Record trial_row : Type := mkRow {
  NCT_ID : json;
  Title : json;
  Phase : string;
  Status : json;
  Sponsor : json;
  Vaccines : string
}.

(** The dict [fetch_trial_details_with_vaccines] returns (lines 134-142).
    It has no identifier field. *)
Record trial_detail : Type := mkDetail {
  dTitle : json;
  dPhase : string;
  dStatus : json;
  dSponsor : json;
  dVaccines : list string;
  dDiseases : json;
  dOutcomes : list (json * json)
}.

(* ================================================================= *)
(** ** Product names *)

(** Lines 49-52: one intervention item. *)
Definition add_intervention (vaccines : str_set) (item : json) : result str_set :=
  name <- dict_get item "name" JNull ;;
  if truthy name
  then s <- py_strip name ;; Returned (set_add s vaccines)
  else Returned vaccines.

(** Line 55: one name of an arm group. *)
Definition add_arm_name (vaccines : str_set) (name : json) : result str_set :=
  s <- py_strip name ;; Returned (set_add s vaccines).

(** Lines 53-55: one arm group. *)
Definition add_arm (vaccines : str_set) (arm : json) : result str_set :=
  names_v <- dict_get arm "interventionNames" (JArr []) ;;
  names <- py_iter names_v ;;
  for_each add_arm_name names vaccines.

(** Lines 49-52 (and 106-109, 294-297): the loop over the intervention items. *)
Definition interventions_loop (arms : json) (vaccines : str_set) : result str_set :=
  items_v <- dict_get arms "interventions" (JArr []) ;;
  items <- py_iter items_v ;;
  for_each add_intervention items vaccines.

(** Lines 53-55 (and 110-112): the loop over the arm groups. *)
Definition arm_groups_loop (arms : json) (vaccines : str_set) : result str_set :=
  groups_v <- dict_get arms "armGroups" (JArr []) ;;
  groups <- py_iter groups_v ;;
  for_each add_arm groups vaccines.

(** Lines 48-55 and 105-112: the product set of the two normalizers. *)
Definition extract_vaccines (arms : json) : result str_set :=
  v1 <- interventions_loop arms [] ;;
  arm_groups_loop arms v1.

(* ================================================================= *)
(** ** The list normalizer: the body of the loop over [studies], lines 40-70 *)

Definition normalize_study (s : json) : result trial_row :=
  proto <- dict_get s "protocolSection" (JObj []) ;;
  ident <- dict_get proto "identificationModule" (JObj []) ;;
  design <- dict_get proto "designModule" (JObj []) ;;
  status <- dict_get proto "statusModule" (JObj []) ;;
  sponsor <- dict_get proto "sponsorCollaboratorsModule" (JObj []) ;;
  arms <- dict_get proto "armsInterventionsModule" (JObj []) ;;
  vaccines <- extract_vaccines arms ;;
  nct_id <- dict_get ident "nctId" JNull ;;
  brief <- dict_get ident "briefTitle" JNull ;;
  official <- dict_get ident "officialTitle" JNull ;;
  let title := py_or brief (py_or official (JStr "No title")) in
  phases <- dict_get design "phases" JNull ;;
  let phase := py_or phases (JArr [JStr "Not reported"]) in
  overall <- dict_get status "overallStatus" JNull ;;
  let overall_status := py_or overall (JStr "Unknown") in
  lead <- dict_get sponsor "leadSponsor" (JObj []) ;;
  sponsor_name <- dict_get lead "name" (JStr "Unknown") ;;
  phase_str <- py_join ", " phase ;;
  Returned {| NCT_ID := nct_id;
              Title := title;
              Phase := phase_str;
              Status := overall_status;
              Sponsor := sponsor_name;
              Vaccines := match vaccines with
                          | [] => "Not reported"
                          | _ => PyStr.join ", " (PyStr.sorted vaccines)
                          end |}.

(** The local [phase] of line 59, before it is joined. *)
Definition phase_list (s : json) : result json :=
  proto <- dict_get s "protocolSection" (JObj []) ;;
  design <- dict_get proto "designModule" (JObj []) ;;
  phases <- dict_get design "phases" JNull ;;
  Returned (py_or phases (JArr [JStr "Not reported"])).

(** Lines 39-70: the loop over one page. *)
Definition append_study (all_results : list trial_row) (s : json)
  : result (list trial_row) :=
  row <- normalize_study s ;; Returned (all_results ++ [row]).

Definition process_page (studies : list json) (all_results : list trial_row)
  : result (list trial_row) :=
  for_each append_study studies all_results.

(* ================================================================= *)
(** ** The detail normalizer: lines 95-142 *)

(** Lines 121-125: one outcome measure. *)
Definition add_outcome (outcomes : list (json * json)) (o : json)
  : result (list (json * json)) :=
  title <- dict_get o "title" JNull ;;
  description <- dict_get o "description" (JStr "") ;;
  Returned (outcomes ++ [(title, description)]).

(** Lines 118-125. *)
Definition extract_outcomes (results_section : json) : result (list (json * json)) :=
  if truthy results_section
  then outcome_module <- dict_get results_section "outcomeMeasuresModule" (JObj []) ;;
       measures_v <- dict_get outcome_module "outcomeMeasures" (JArr []) ;;
       measures <- py_iter measures_v ;;
       for_each add_outcome measures []
  else Returned [].

Definition normalize_detail (data : json) : result trial_detail :=
  proto <- dict_get data "protocolSection" (JObj []) ;;
  design <- dict_get proto "designModule" (JObj []) ;;
  status <- dict_get proto "statusModule" (JObj []) ;;
  sponsor <- dict_get proto "sponsorCollaboratorsModule" (JObj []) ;;
  arms <- dict_get proto "armsInterventionsModule" (JObj []) ;;
  conditions <- dict_get proto "conditionsModule" (JObj []) ;;
  results_section <- dict_get data "resultsSection" (JObj []) ;;
  vaccines <- extract_vaccines arms ;;
  disease_list <- dict_get conditions "conditions" (JArr []) ;;
  outcomes <- extract_outcomes results_section ;;
  ident <- dict_get proto "identificationModule" (JObj []) ;;
  brief <- dict_get ident "briefTitle" JNull ;;
  official <- dict_get ident "officialTitle" JNull ;;
  let title := py_or brief (py_or official (JStr "No title")) in
  phases_v <- dict_get design "phases" JNull ;;
  let phases := py_or phases_v (JArr [JStr "Not reported"]) in
  overall_status <- dict_get status "overallStatus" (JStr "Unknown") ;;
  lead <- dict_get sponsor "leadSponsor" (JObj []) ;;
  sponsor_name <- dict_get lead "name" (JStr "Unknown") ;;
  phase_str <- py_join ", " phases ;;
  Returned {| dTitle := title;
              dPhase := phase_str;
              dStatus := overall_status;
              dSponsor := sponsor_name;
              dVaccines := match vaccines with
                           | [] => ["Not reported"]
                           | _ => PyStr.sorted vaccines
                           end;
              dDiseases := disease_list;
              dOutcomes := outcomes |}.

(* ================================================================= *)
(** ** The registry and what a run does to the outside *)

(** What one request comes back with: [requests.get] raised (time-out,
    connection failure), [raise_for_status] raised on the status code, or
    the decoded body of a successful response. *)
Inductive response : Type :=
| ConnectionError
| HttpError (status_code : Z)
| Ok (data : json).

Definition failed (r : response) : bool :=
  match r with Ok _ => false | _ => true end.

(** [requests.get(...)], [raise_for_status()], [json()]. *)
Definition http_get (r : response) : result json :=
  match r with
  | Ok data => Returned data
  | _ => Raised RequestException
  end.

(** The effects of a run, in order: a request (with its parameters and what
    it came back with), [time.sleep(1.2)], [st.error(...)]. *)
Inductive event : Type :=
| Request (params : json) (r : response)
| Sleep
| StError.

Definition is_request (e : event) : bool :=
  match e with Request _ _ => true | _ => false end.

Definition is_sleep (e : event) : bool :=
  match e with Sleep => true | _ => false end.

Definition requests_of (tr : list event) : list event := filter is_request tr.

Definition count_requests (tr : list event) : nat := length (filter is_request tr).

Definition count_sleeps (tr : list event) : nat := length (filter is_sleep tr).

(** [try: ... except requests.RequestException: handler] *)
Definition try_except {A : Type} (body handler : result A) : result A :=
  match body with
  | Raised RequestException => handler
  | _ => body
  end.

(** A computation that does not end with the exception the fetchers catch. *)
Definition quiet {A : Type} (m : result A) : Prop := m <> Raised RequestException.

(* ================================================================= *)
(** ** The paginated fetcher: [fetch_all_vaccine_trials], lines 14-85 *)

Section Fetcher.

(** The registry answers the [n]-th request of the run with [remote n]. *)
Variable remote : nat -> response.
Variable disease : string.

(** Lines 23-29. *)
Definition build_params (page_token : json) : json :=
  JObj ([("query.cond", JStr disease);
         ("query.intr", JStr "Vaccine");
         ("pageSize", JNum 100)]
        ++ (if truthy page_token then [("pageToken", page_token)] else [])).

(** The [while] loop of lines 22-80.  [remaining] is
    [max_pages - page_count], so the loop test [page_count < max_pages] is
    [remaining <> 0]; [page_count] is also the number of requests issued so
    far.  The result is what the loop leaves in [all_results] (or the
    exception that ended it) and the effects from here on. *)
Fixpoint fetch_loop (remaining page_count : nat) (page_token : json)
    (all_results : list trial_row) : result (list trial_row) * list event :=
  match remaining with
  | O => (Returned all_results, [])
  | S remaining' =>
      let params := build_params page_token in
      let resp := remote page_count in
      let here := Request params resp in
      match http_get resp with
      | Raised e => (Raised e, [here])
      | Returned data =>
          match dict_get data "studies" (JArr []) with
          | Raised e => (Raised e, [here])
          | Returned studies =>
              if negb (truthy studies) then (Returned all_results, [here])
              else
                match (items <- py_iter studies ;; process_page items all_results) with
                | Raised e => (Raised e, [here])
                | Returned all_results' =>
                    match dict_get data "nextPageToken" JNull with
                    | Raised e => (Raised e, [here])
                    | Returned page_token' =>
                        if negb (truthy page_token')
                        then (Returned all_results', [here])
                        else
                          let (res, tr) :=
                            fetch_loop remaining' (S page_count) page_token' all_results' in
                          (res, here :: Sleep :: tr)
                    end
                end
          end
      end
  end.

(** The whole function: the loop under its [try], and the handler of lines
    83-85. *)
Definition fetch_all_vaccine_trials (max_pages : Z)
  : result (list trial_row) * list event :=
  let (res, tr) := fetch_loop (Z.to_nat max_pages) 0 JNull [] in
  match res with
  | Raised RequestException => (Returned [], tr ++ [StError])
  | _ => (res, tr)
  end.

(** *** What one response contributes *)

Definition studies_of (r : response) : result json :=
  data <- http_get r ;; dict_get data "studies" (JArr []).

Definition has_studies (r : response) : bool :=
  match studies_of r with
  | Returned studies => truthy studies
  | Raised _ => false
  end.

(** A page that came back, with zero records. *)
Definition empty_page (r : response) : bool :=
  match studies_of r with
  | Returned studies => negb (truthy studies)
  | Raised _ => false
  end.

Definition page_rows (r : response) : result (list trial_row) :=
  studies <- studies_of r ;;
  items <- py_iter studies ;;
  process_page items [].

Definition rows_or_nil (r : response) : list trial_row :=
  match page_rows r with Returned rows => rows | Raised _ => [] end.

Definition next_token (r : response) : json :=
  match r with
  | Ok data => match dict_get data "nextPageToken" JNull with
               | Returned t => t
               | Raised _ => JNull
               end
  | _ => JNull
  end.

(** A page with records that normalize. *)
Definition good_page (r : response) : bool :=
  has_studies r && returns (page_rows r).

(** A page after which the loop goes on: records, and a continuation token. *)
Definition continues (r : response) : bool :=
  good_page r && truthy (next_token r).

(** The rows of the first [n] pages, from page [from] on. *)
Fixpoint rows_of_pages (from n : nat) : list trial_row :=
  match n with
  | O => []
  | S n' => rows_or_nil (remote from) ++ rows_of_pages (S from) n'
  end.

(** The token in hand after [k] pages from page [from] on, and the effects
    of those pages, when the loop goes on after each of them. *)
Fixpoint token_after (from k : nat) (page_token : json) : json :=
  match k with
  | O => page_token
  | S k' => token_after (S from) k' (next_token (remote from))
  end.

Fixpoint effects_of_pages (from k : nat) (page_token : json) : list event :=
  match k with
  | O => []
  | S k' =>
      Request (build_params page_token) (remote from) :: Sleep
        :: effects_of_pages (S from) k' (next_token (remote from))
  end.

(** *** The loop as the specification words it (section 4.2)

    Each iteration, after its request: (a) a page with zero records stops
    the run; the page is processed and counted; (b) the page counter having
    reached [max_pages] stops the run; (c) a response without continuation
    token stops the run; otherwise the delay, and the next iteration.
    [left] is [max_pages - page_count - 1]. *)
Fixpoint fetch_loop_spec (left page_count : nat) (page_token : json)
    (all_results : list trial_row) : result (list trial_row) * list event :=
  let params := build_params page_token in
  let resp := remote page_count in
  let here := Request params resp in
  match http_get resp with
  | Raised e => (Raised e, [here])
  | Returned data =>
      match dict_get data "studies" (JArr []) with
      | Raised e => (Raised e, [here])
      | Returned studies =>
          if negb (truthy studies) then (Returned all_results, [here])
          else
            match (items <- py_iter studies ;; process_page items all_results) with
            | Raised e => (Raised e, [here])
            | Returned all_results' =>
                match left with
                | O => (Returned all_results', [here])
                | S left' =>
                    match dict_get data "nextPageToken" JNull with
                    | Raised e => (Raised e, [here])
                    | Returned page_token' =>
                        if negb (truthy page_token')
                        then (Returned all_results', [here])
                        else
                          let (res, tr) :=
                            fetch_loop_spec left' (S page_count) page_token' all_results' in
                          (res, here :: Sleep :: tr)
                    end
                end
            end
      end
  end.

Definition fetch_all_spec (max_pages : Z) : result (list trial_row) * list event :=
  let (res, tr) := fetch_loop_spec (Z.to_nat max_pages - 1) 0 JNull [] in
  match res with
  | Raised RequestException => (Returned [], tr ++ [StError])
  | _ => (res, tr)
  end.

End Fetcher.

(* ================================================================= *)
(** ** The detail fetcher: [fetch_trial_details_with_vaccines], lines 88-144 *)

(** [lookup nct_id] is what the registry answers to the request for
    [nct_id]; [None] is the value the handler of line 144 returns. *)
Definition fetch_trial_details_with_vaccines (lookup : json -> response)
    (nct_id : json) : result (option trial_detail) :=
  try_except
    (data <- http_get (lookup nct_id) ;;
     detail <- normalize_detail data ;;
     Returned (Some detail))
    (Returned None).

(* ================================================================= *)
(** ** The phase filter: [app7.py] lines 195 and 202 (and 394, 401),
       [app.py] lines 119 and 126 *)

(** [any(ph in x for ph in selected_phases)], [x] being the ["Phase"] text
    of a row. *)
Definition phase_matches (selected_phases : list string) (x : string) : bool :=
  existsb (fun ph => PyStr.contains ph x) selected_phases.

(** [df[df["Phase"].apply(...)]] *)
Definition phase_filter (selected_phases : list string) (rows : list trial_row)
  : list trial_row :=
  filter (fun row => phase_matches selected_phases (Phase row)) rows.

(** [sorted({p for ph in df["Phase"] for p in ph.split(", ")})]: the labels
    the multiselect offers. *)
Definition phase_options (rows : list trial_row) : list string :=
  PyStr.sorted
    (fold_left
       (fun acc row => fold_left (fun acc' p => set_add p acc')
                                 (PyStr.split ", " (Phase row)) acc)
       rows []).

(** The filter as the specification words it (section 4.4): a selected value
    is equal to one of the tokens obtained by splitting the joined text. *)
Definition phase_matches_spec (selected_phases : list string) (x : string) : bool :=
  existsb (fun ph => existsb (String.eqb ph) (PyStr.split ", " x)) selected_phases.

Definition phase_filter_spec (selected_phases : list string)
    (rows : list trial_row) : list trial_row :=
  filter (fun row => phase_matches_spec selected_phases (Phase row)) rows.

(* ================================================================= *)
(** ** The own-trials matching of the product search: lines 284-310 *)

Section OwnTrials.

(** The order in which iterating over a [set] yields its members; Python
    leaves it open. *)
Variable set_iter : str_set -> list string.

(** Lines 299-300. *)
Definition mentions_vaccine (vaccine_name : string) (vaccines : str_set) : bool :=
  let vaccine_list := map PyStr.lower (set_iter vaccines) in
  PyStr.contains (PyStr.lower vaccine_name) (PyStr.join " " vaccine_list).

(** Lines 286-308: one hit of the search. *)
Definition add_own_trial (vaccine_name : string) (vaccine_results : list trial_row)
    (study : json) : result (list trial_row) :=
  proto <- dict_get study "protocolSection" (JObj []) ;;
  ident <- dict_get proto "identificationModule" (JObj []) ;;
  design <- dict_get proto "designModule" (JObj []) ;;
  status <- dict_get proto "statusModule" (JObj []) ;;
  sponsor <- dict_get proto "sponsorCollaboratorsModule" (JObj []) ;;
  arms <- dict_get proto "armsInterventionsModule" (JObj []) ;;
  vaccines <- interventions_loop arms [] ;;
  if mentions_vaccine vaccine_name vaccines
  then
    nct_id <- dict_get ident "nctId" JNull ;;
    brief <- dict_get ident "briefTitle" JNull ;;
    official <- dict_get ident "officialTitle" JNull ;;
    phases <- dict_get design "phases" JNull ;;
    phase_str <- py_join ", " (py_or phases (JArr [JStr "Not reported"])) ;;
    overall <- dict_get status "overallStatus" JNull ;;
    lead <- dict_get sponsor "leadSponsor" (JObj []) ;;
    sponsor_name <- dict_get lead "name" (JStr "Unknown") ;;
    Returned (vaccine_results ++
              [{| NCT_ID := nct_id;
                  Title := py_or brief (py_or official (JStr "No title"));
                  Phase := phase_str;
                  Status := py_or overall (JStr "Unknown");
                  Sponsor := sponsor_name;
                  Vaccines := match vaccines with
                              | [] => "Not reported"
                              | _ => PyStr.join ", " (PyStr.sorted vaccines)
                              end |}])
  else Returned vaccine_results.

(** Lines 284-310: [vaccine_results]. *)
Definition own_trials (vaccine_name : string) (studies : list json)
  : result (list trial_row) :=
  for_each (add_own_trial vaccine_name) studies [].

(** Membership as the specification words it (section 4.5, step 4): the
    product set is the one of the normalizers, built from the intervention
    items and from the names of the arm groups. *)
Definition in_own_trials_spec (vaccine_name : string) (hit : json) : result bool :=
  proto <- dict_get hit "protocolSection" (JObj []) ;;
  arms <- dict_get proto "armsInterventionsModule" (JObj []) ;;
  vaccines <- extract_vaccines arms ;;
  Returned (mentions_vaccine vaccine_name vaccines).

End OwnTrials.

(* ================================================================= *)
(** ** The shape of a raw trial object *)

(** The value at the end of a path of keys, if every step is an object that
    has the key. *)
Fixpoint json_path (keys : list string) (v : json) : option json :=
  match keys with
  | [] => Some v
  | k :: keys' =>
      match v with
      | JObj items =>
          match dict_lookup k items with
          | Some v' => json_path keys' v'
          | None => None
          end
      | _ => None
      end
  end.

Definition is_obj (v : json) : bool :=
  match v with JObj _ => true | _ => false end.

Definition is_str (v : json) : bool :=
  match v with JStr _ => true | _ => false end.

Definition is_null (v : json) : bool :=
  match v with JNull => true | _ => false end.

(** A list all of whose elements pass [check]. *)
Definition list_of (check : json -> bool) (v : json) : bool :=
  match v with
  | JArr l => forallb check l
  | _ => false
  end.

(** An object whose listed fields, where present, pass their check. *)
Fixpoint fields_ok (checks : list (string * (json -> bool)))
    (items : list (string * json)) : bool :=
  match checks with
  | [] => true
  | (k, check) :: checks' =>
      match dict_lookup k items with
      | Some v => check v
      | None => true
      end && fields_ok checks' items
  end.

Definition obj_with (checks : list (string * (json -> bool))) (v : json) : bool :=
  match v with
  | JObj items => fields_ok checks items
  | _ => false
  end.

Definition intervention_ok : json -> bool :=
  obj_with [("name", fun v => is_null v || is_str v)].

Definition arm_ok : json -> bool :=
  obj_with [("interventionNames", list_of is_str)].

Definition arms_ok : json -> bool :=
  obj_with [("interventions", list_of intervention_ok);
            ("armGroups", list_of arm_ok)].

Definition design_ok : json -> bool :=
  obj_with [("phases", fun v => is_null v || list_of is_str v)].

Definition sponsor_ok : json -> bool :=
  obj_with [("leadSponsor", is_obj)].

Definition results_ok : json -> bool :=
  obj_with [("outcomeMeasuresModule",
             obj_with [("outcomeMeasures", list_of is_obj)])].

Definition proto_ok : json -> bool :=
  obj_with [("identificationModule", is_obj);
            ("designModule", design_ok);
            ("statusModule", is_obj);
            ("sponsorCollaboratorsModule", sponsor_ok);
            ("armsInterventionsModule", arms_ok);
            ("conditionsModule", is_obj)].

(** A raw trial object of the expected shape: every sub-object that is
    present is an object, every list that is present is a list of what it
    should hold; any field may be absent. *)
Definition study_ok : json -> bool :=
  obj_with [("protocolSection", proto_ok);
            ("resultsSection", results_ok)].

Definition sponsor_path : list string :=
  ["protocolSection"; "sponsorCollaboratorsModule"; "leadSponsor"].

Definition phases_path : list string :=
  ["protocolSection"; "designModule"; "phases"].

Definition nct_id_path : list string :=
  ["protocolSection"; "identificationModule"; "nctId"].

(* ================================================================= *)
(** ** Sample registries and bodies *)

Definition study_with (nct_id phase : string) : json :=
  JObj [("protocolSection",
         JObj [("identificationModule", JObj [("nctId", JStr nct_id)]);
               ("designModule", JObj [("phases", JArr [JStr phase])])])].

Definition page_body (studies : list json) (token : option string) : json :=
  JObj (("studies", JArr studies)
        :: match token with
           | Some t => [("nextPageToken", JStr t)]
           | None => []
           end).

(** A registry that never runs out of continuation tokens. *)
Definition endless_remote (n : nat) : response :=
  Ok (page_body [study_with "NCT00000001" "PHASE1"] (Some "next")).

(** Pages of 100, 100 and 0 records, tokens on the first two. *)
Definition scenario_remote (n : nat) : response :=
  match n with
  | 0 => Ok (page_body (repeat (study_with "NCT00000001" "PHASE1") 100) (Some "p2"))
  | 1 => Ok (page_body (repeat (study_with "NCT00000002" "PHASE2") 100) (Some "p3"))
  | _ => Ok (page_body [] None)
  end.

(** A first page that is fine, then a server error. *)
Definition failing_remote (n : nat) : response :=
  match n with
  | 0 => Ok (page_body [study_with "NCT00000001" "PHASE1"] (Some "p2"))
  | _ => HttpError 500
  end.

(** Two pages with a token, then an empty page that still carries one. *)
Definition empty_page_remote (n : nat) : response :=
  match n with
  | 0 | 1 => Ok (page_body [study_with "NCT00000001" "PHASE1"] (Some "more"))
  | _ => Ok (page_body [] (Some "more"))
  end.

(** The registry reports every identifier as not found. *)
Definition not_found_lookup (nct_id : json) : response := HttpError 404.

Definition null_section_study : json := JObj [("protocolSection", JNull)].

Definition status_study (overall_status : json) : json :=
  JObj [("protocolSection",
         JObj [("statusModule", JObj [("overallStatus", overall_status)])])].

(** A page with an early-phase-1 trial and a phase-1 trial. *)
Definition early_phase_studies : list json :=
  [study_with "NCT00000001" "EARLY_PHASE1"; study_with "NCT00000002" "PHASE1"].

(** A hit whose product is named by an arm group only. *)
Definition arm_only_hit : json :=
  JObj [("protocolSection",
         JObj [("identificationModule", JObj [("nctId", JStr "NCT00000003")]);
               ("armsInterventionsModule",
                JObj [("armGroups",
                       JArr [JObj [("interventionNames", JArr [JStr "Acme-Vax"])]])])])].

(** A trial one of whose arm groups lists a name made of blanks. *)
Definition blank_arm_study : json :=
  JObj [("protocolSection",
         JObj [("armsInterventionsModule",
                JObj [("armGroups",
                       JArr [JObj [("interventionNames", JArr [JStr "  "])]])])])].

Definition arms_of (s : json) : json :=
  match json_path ["protocolSection"; "armsInterventionsModule"] s with
  | Some arms => arms
  | None => JObj []
  end.

(* ================================================================= *)
(** ** The derived-disease lookup and the competitor search of [app7.py] *)

(** [extract_diseases_from_vaccine_trial], lines 147-152. *)
Definition extract_diseases_from_vaccine_trial (lookup : json -> response)
    (nct_id : json) : result json :=
  details <- fetch_trial_details_with_vaccines lookup nct_id ;;
  match details with
  | Some d => if truthy (dDiseases d) then Returned (dDiseases d) else Returned (JArr [])
  | None => Returned (JArr [])
  end.

(** Lines 318-321: the trials that do not mention the target vaccine. *)
Definition exclude_target (vaccine_name : string) (competitor_trials : list trial_row)
  : list trial_row :=
  filter (fun trial =>
            negb (PyStr.contains (PyStr.lower vaccine_name)
                                 (PyStr.lower (Vaccines trial))))
         competitor_trials.

(** Lines 315-321, for a first derived disease that is a [str]: the fetch
    with a budget of five pages, then the exclusion. *)
Definition competitor_search (remote : nat -> response) (first_disease : string)
    (vaccine_name : string) : result (list trial_row) * list event :=
  let (res, tr) := fetch_all_vaccine_trials remote first_disease 5 in
  (competitor_trials <- res ;; Returned (exclude_target vaccine_name competitor_trials),
   tr).

(** The ["Vaccines"] text of a row, from the product set (line 69). *)
Definition products_text (vaccines : str_set) : string :=
  match vaccines with
  | [] => "Not reported"
  | _ => PyStr.join ", " (PyStr.sorted vaccines)
  end.

(** The value at the end of a path, [None] where the path ends early. *)
Definition at_path (keys : list string) (v : json) : json :=
  match json_path keys v with
  | Some x => x
  | None => JNull
  end.

Definition brief_title_path : list string :=
  ["protocolSection"; "identificationModule"; "briefTitle"].

Definition official_title_path : list string :=
  ["protocolSection"; "identificationModule"; "officialTitle"].

Definition overall_status_path : list string :=
  ["protocolSection"; "statusModule"; "overallStatus"].

Definition sponsor_name_path : list string :=
  ["protocolSection"; "sponsorCollaboratorsModule"; "leadSponsor"; "name"].

Definition conditions_path : list string :=
  ["protocolSection"; "conditionsModule"; "conditions"].

(** A text without blanks at either end. *)
Definition trimmed (s : string) : Prop := PyStr.strip s = s.

(** A text that does not begin with a blank. *)
Definition head_not_blank (s : string) : Prop :=
  match s with
  | EmptyString => True
  | String c _ => PyStr.is_space c = false
  end.

(** A product set as the normalizers build it: every name once, every name
    trimmed. *)
Definition clean_set (s : str_set) : Prop := NoDup s /\ Forall trimmed s.

(** The order [sorted] puts texts in. *)
Definition str_le (a b : string) : Prop := String.leb a b = true.

(** The value at the end of a path, [default] where the path ends early. *)
Definition at_path_or (default : json) (keys : list string) (v : json) : json :=
  match json_path keys v with
  | Some x => x
  | None => default
  end.

(** The pair lines 122-125 make of one outcome measure. *)
Definition outcome_of (o : json) : json * json :=
  (at_path ["title"] o, at_path_or (JStr "") ["description"] o).

Definition measures_path : list string :=
  ["resultsSection"; "outcomeMeasuresModule"; "outcomeMeasures"].

(** What iterating over a value yields, nothing when it is not iterable. *)
Definition elements (v : json) : list json :=
  match py_iter v with
  | Returned l => l
  | Raised _ => []
  end.

(** The name an intervention item contributes: the one of its [name] field
    when that is a text and not the empty one (lines 50-51). *)
Definition named (item : json) : list string :=
  match json_path ["name"] item with
  | Some (JStr n) => if String.eqb n EmptyString then [] else [n]
  | _ => []
  end.

Definition text_of (v : json) : list string :=
  match v with
  | JStr s => [s]
  | _ => []
  end.

(** The names the intervention items of an arms module list (line 49). *)
Definition item_names (arms : json) : list string :=
  flat_map named (elements (at_path_or (JArr []) ["interventions"] arms)).

(** The names one arm group lists (line 54). *)
Definition names_of_arm (arm : json) : list string :=
  flat_map text_of (elements (at_path_or (JArr []) ["interventionNames"] arm)).

(** The names the arm groups of an arms module list (lines 53-54). *)
Definition arm_names (arms : json) : list string :=
  flat_map names_of_arm (elements (at_path_or (JArr []) ["armGroups"] arms)).

(** A text of the ASCII range. *)
Fixpoint is_ascii (s : string) : bool :=
  match s with
  | EmptyString => true
  | String c s' => (nat_of_ascii c <? 128)%nat && is_ascii s'
  end.

(** The requests of a run, each carrying the token of the response before
    it. *)
Fixpoint threaded (disease : string) (page_token : json) (requests : list event)
  : Prop :=
  match requests with
  | [] => True
  | Request params r :: rest =>
      params = build_params disease page_token
      /\ threaded disease (next_token r) rest
  | _ :: _ => False
  end.

(* ================================================================= *)
(** ** The first version of the fetchers: [app.py] *)

(** One row of [results], [app.py] lines 42-48. *)
Record study_row : Type := mkStudyRow {
  sNCT_ID : json;
  sTitle : json;
  sPhase : string;
  sStatus : json;
  sSponsor : json
}.

(** [app.py] lines 30-48: the body of the loop over [studies]. *)
Definition normalize_listing (s : json) : result study_row :=
  proto <- dict_get s "protocolSection" (JObj []) ;;
  ident <- dict_get proto "identificationModule" (JObj []) ;;
  design <- dict_get proto "designModule" (JObj []) ;;
  status <- dict_get proto "statusModule" (JObj []) ;;
  sponsor <- dict_get proto "sponsorCollaboratorsModule" (JObj []) ;;
  nct_id <- dict_get ident "nctId" JNull ;;
  brief <- dict_get ident "briefTitle" JNull ;;
  official <- dict_get ident "officialTitle" JNull ;;
  let title := py_or brief (py_or official (JStr "No title")) in
  phases <- dict_get design "phases" JNull ;;
  let phase := py_or phases (JArr [JStr "Not reported"]) in
  overall <- dict_get status "overallStatus" JNull ;;
  let overall_status := py_or overall (JStr "Unknown") in
  lead <- dict_get sponsor "leadSponsor" (JObj []) ;;
  sponsor_name <- dict_get lead "name" (JStr "Unknown") ;;
  phase_str <- py_join ", " phase ;;
  Returned {| sNCT_ID := nct_id;
              sTitle := title;
              sPhase := phase_str;
              sStatus := overall_status;
              sSponsor := sponsor_name |}.

Definition append_listing (results : list study_row) (s : json)
  : result (list study_row) :=
  row <- normalize_listing s ;; Returned (results ++ [row]).

(** [fetch_vaccine_data], [app.py] lines 19-52: one request, no pages. *)
Definition fetch_vaccine_data (r : response) (disease : string) (limit : Z)
  : result (list study_row) * list event :=
  let params := JObj [("query.cond", JStr disease);
                      ("query.intr", JStr "Vaccine");
                      ("pageSize", JNum limit)] in
  let here := Request params r in
  match (data <- http_get r ;;
         studies <- dict_get data "studies" (JArr []) ;;
         if negb (truthy studies) then Returned []
         else items <- py_iter studies ;; for_each append_listing items [])
  with
  | Raised RequestException => (Returned [], [here; StError])
  | res => (res, [here])
  end.

(** The dict [fetch_trial_details] returns, [app.py] lines 87-93. *)
Record study_detail : Type := mkStudyDetail {
  sdTitle : json;
  sdPhase : string;
  sdStatus : json;
  sdSponsor : json;
  sdOutcomes : list (json * json)
}.

(** [app.py] lines 63-93. *)
Definition normalize_trial_details (data : json) : result study_detail :=
  proto <- dict_get data "protocolSection" (JObj []) ;;
  design <- dict_get proto "designModule" (JObj []) ;;
  status <- dict_get proto "statusModule" (JObj []) ;;
  results_section <- dict_get data "resultsSection" (JObj []) ;;
  phases_v <- dict_get design "phases" JNull ;;
  let phases := py_or phases_v (JArr [JStr "Not reported"]) in
  outcomes <- extract_outcomes results_section ;;
  ident <- dict_get proto "identificationModule" (JObj []) ;;
  brief <- dict_get ident "briefTitle" JNull ;;
  official <- dict_get ident "officialTitle" JNull ;;
  let title := py_or brief (py_or official (JStr "No title")) in
  sponsor_module <- dict_get proto "sponsorCollaboratorsModule" (JObj []) ;;
  lead <- dict_get sponsor_module "leadSponsor" (JObj []) ;;
  sponsor <- dict_get lead "name" (JStr "Unknown") ;;
  overall <- dict_get status "overallStatus" JNull ;;
  let overall_status := py_or overall (JStr "Unknown") in
  phase_str <- py_join ", " phases ;;
  Returned {| sdTitle := title;
              sdPhase := phase_str;
              sdStatus := overall_status;
              sdSponsor := sponsor;
              sdOutcomes := outcomes |}.

(** [fetch_trial_details], [app.py] lines 58-95. *)
Definition fetch_trial_details (lookup : json -> response) (nct_id : json)
  : result (option study_detail) :=
  try_except
    (data <- http_get (lookup nct_id) ;;
     detail <- normalize_trial_details data ;;
     Returned (Some detail))
    (Returned None).

(** The five fields a row of [app7.py] shares with a row of [app.py]. *)
Definition listing_of (row : trial_row) : study_row :=
  {| sNCT_ID := NCT_ID row;
     sTitle := Title row;
     sPhase := Phase row;
     sStatus := Status row;
     sSponsor := Sponsor row |}.

(* ================================================================= *)
(** ** More sample registries and bodies *)

(** A registry with one page of three trials, the second of which names
    the product ["Acme-Vax"]. *)
Definition product_study (nct_id : string) (names : list string) : json :=
  JObj [("protocolSection",
         JObj [("identificationModule", JObj [("nctId", JStr nct_id)]);
               ("armsInterventionsModule",
                JObj [("interventions",
                       JArr (map (fun n => JObj [("name", JStr n)]) names))])])].

Definition competitor_remote (n : nat) : response :=
  Ok (page_body [product_study "NCT00000010" ["Other-Vax"];
                 product_study "NCT00000011" ["ACME-VAX 10 mcg"; "Placebo"];
                 product_study "NCT00000012" []] None).

(** A detail body with two conditions and one outcome measure. *)
Definition detail_body : json :=
  JObj [("protocolSection",
         JObj [("identificationModule", JObj [("briefTitle", JStr "A trial")]);
               ("conditionsModule",
                JObj [("conditions", JArr [JStr "RSV"; JStr "Bronchiolitis"])])]);
        ("resultsSection",
         JObj [("outcomeMeasuresModule",
                JObj [("outcomeMeasures",
                       JArr [JObj [("title", JStr "Titer")]])])])].

(** An arms module one product of which is named by an item only, one by
    an arm group only and one by both, with blanks; one item has no name. *)
Definition sample_arms : json :=
  JObj [("interventions",
         JArr [JObj [("name", JStr " Acme-Vax ")];
               JObj [("name", JStr "Adjuvant")];
               JObj [("type", JStr "BIOLOGICAL")]]);
        ("armGroups",
         JArr [JObj [("interventionNames", JArr [JStr "Acme-Vax"; JStr "Placebo "])]])].
(* ================================================================= *)
(** ** Results and loops: general facts *)

Lemma bind_returned {A B : Type} (m : result A) (k : A -> result B) (b : B) :
  bind m k = Returned b -> exists a, m = Returned a /\ k a = Returned b.
Proof.
  destruct m as [a | e]; simpl; intros H.
  - exists a. split; [reflexivity | exact H].
  - discriminate H.
Qed.

Lemma bind_assoc {A B C : Type} (m : result A) (f : A -> result B)
    (g : B -> result C) :
  bind (bind m f) g = bind m (fun a => bind (f a) g).
Proof. destruct m; reflexivity. Qed.

Lemma returns_true {A : Type} (m : result A) :
  returns m = true -> exists a, m = Returned a.
Proof.
  destruct m as [a | e]; simpl; intros H; [exists a; reflexivity | discriminate H].
Qed.

(** A loop whose every step returns, returns. *)
Lemma for_each_returns {A S : Type} (f : S -> A -> result S) (xs : list A) :
  (forall acc x, In x xs -> exists acc', f acc x = Returned acc') ->
  forall acc, exists acc', for_each f xs acc = Returned acc'.
Proof.
  induction xs as [| x xs IH]; intros Hstep acc; simpl.
  - exists acc. reflexivity.
  - destruct (Hstep acc x (or_introl eq_refl)) as [acc1 H1].
    rewrite H1. simpl. apply IH.
    intros acc0 y Hy. apply Hstep. right. exact Hy.
Qed.

(* ================================================================= *)
(** ** One page *)

Lemma process_page_app (items : list json) (acc : list trial_row) :
  process_page items acc
  = (rows <- process_page items [] ;; Returned (acc ++ rows)).
Proof.
  revert acc. induction items as [| s items IH]; intros acc.
  - simpl. rewrite app_nil_r. reflexivity.
  - unfold process_page in *. simpl. unfold append_study at 1 3.
    destruct (normalize_study s) as [row | e]; simpl; [| reflexivity].
    rewrite (IH (acc ++ [row])), (IH [row]).
    destruct (for_each append_study items []) as [rows | e]; simpl; [| reflexivity].
    rewrite <- app_assoc. reflexivity.
Qed.

(** The rows of a page are the normalized studies, one for one and in
    order. *)
Lemma process_page_rows (items : list json) (rows : list trial_row) :
  process_page items [] = Returned rows ->
  Forall2 (fun s row => normalize_study s = Returned row) items rows.
Proof.
  revert rows. induction items as [| s items IH]; intros rows H.
  - simpl in H. injection H as <-. constructor.
  - unfold process_page in H. simpl in H. unfold append_study at 1 in H.
    destruct (normalize_study s) as [row | e] eqn:Hs; simpl in H; [| discriminate H].
    fold (process_page items [row]) in H. rewrite process_page_app in H.
    destruct (process_page items []) as [rows' | e] eqn:Hrest; simpl in H;
      [| discriminate H].
    injection H as <-. constructor; [exact Hs | apply IH; reflexivity].
Qed.

Lemma iter_process_app (studies : json) (acc : list trial_row) :
  (items <- py_iter studies ;; process_page items acc)
  = (rows <- (items <- py_iter studies ;; process_page items []) ;;
     Returned (acc ++ rows)).
Proof.
  destruct (py_iter studies) as [items | e]; simpl; [| reflexivity].
  apply process_page_app.
Qed.

(* ================================================================= *)
(** ** The pagination loop, one iteration at a time *)

Section FetcherFacts.

Variable remote : nat -> response.
Variable disease : string.

Abbreviation loop := (fetch_loop remote disease).
Abbreviation request_at n tok := (Request (build_params disease tok) (remote n)).

(** A failed request ends the loop with the exception. *)
Lemma loop_failed (rem n : nat) (tok : json) (acc : list trial_row) :
  failed (remote n) = true ->
  loop (S rem) n tok acc = (Raised RequestException, [request_at n tok]).
Proof.
  intros H. simpl. destruct (remote n); simpl in *; try reflexivity.
  discriminate H.
Qed.

(** A page without records ends the loop, whatever token it carries. *)
Lemma loop_empty_page (rem n : nat) (tok : json) (acc : list trial_row) :
  empty_page (remote n) = true ->
  loop (S rem) n tok acc = (Returned acc, [request_at n tok]).
Proof.
  intros Hempty. simpl. unfold empty_page, studies_of in Hempty.
  destruct (remote n) as [| code | data]; simpl in *; try discriminate Hempty.
  destruct (dict_get data "studies" (JArr [])) as [studies | e]; simpl in *;
    [| discriminate Hempty].
  rewrite Hempty. reflexivity.
Qed.

(** What a page with records that normalize amounts to. *)
Lemma good_page_inv (r : response) :
  good_page r = true ->
  exists data studies rows,
    r = Ok data
    /\ dict_get data "studies" (JArr []) = Returned studies
    /\ truthy studies = true
    /\ (items <- py_iter studies ;; process_page items []) = Returned rows
    /\ rows_or_nil r = rows
    /\ dict_get data "nextPageToken" JNull = Returned (next_token r).
Proof.
  intros H. unfold good_page in H. apply andb_prop in H as [Hst Hrows].
  unfold has_studies, studies_of in Hst.
  destruct r as [| code | data]; simpl in Hst; try discriminate Hst.
  destruct (dict_get data "studies" (JArr [])) as [studies | e] eqn:Hd;
    [| discriminate Hst].
  apply returns_true in Hrows as [rows Hrows].
  exists data, studies, rows. repeat split; try assumption.
  - unfold page_rows, studies_of in Hrows. simpl in Hrows. rewrite Hd in Hrows.
    exact Hrows.
  - unfold rows_or_nil. rewrite Hrows. reflexivity.
  - destruct data; try discriminate Hd. reflexivity.
Qed.

(** A page with records and a token: the loop goes on, after the delay. *)
Lemma loop_continues (rem n : nat) (tok : json) (acc : list trial_row) :
  continues (remote n) = true ->
  loop (S rem) n tok acc
  = (fst (loop rem (S n) (next_token (remote n)) (acc ++ rows_or_nil (remote n))),
     request_at n tok :: Sleep
       :: snd (loop rem (S n) (next_token (remote n)) (acc ++ rows_or_nil (remote n)))).
Proof.
  intros H. unfold continues in H. apply andb_prop in H as [Hgood Htok].
  destruct (good_page_inv _ Hgood) as (data & studies & rows & Hr & Hd & Hst & Hrows & Hnil & Hnext).
  rewrite Hnil. remember (next_token (remote n)) as t eqn:Ht. clear Ht.
  simpl. rewrite Hr. simpl. rewrite Hd, Hst. simpl.
  rewrite iter_process_app, Hrows. simpl. rewrite Hnext, Htok. simpl.
  destruct (fetch_loop remote disease rem (S n) t (acc ++ rows)).
  reflexivity.
Qed.

(** A page with records and no token: processed, and the loop ends. *)
Lemma loop_last_page (rem n : nat) (tok : json) (acc : list trial_row) :
  good_page (remote n) = true ->
  truthy (next_token (remote n)) = false ->
  loop (S rem) n tok acc
  = (Returned (acc ++ rows_or_nil (remote n)), [request_at n tok]).
Proof.
  intros Hgood Htok.
  destruct (good_page_inv _ Hgood) as (data & studies & rows & Hr & Hd & Hst & Hrows & Hnil & Hnext).
  rewrite Hnil. remember (next_token (remote n)) as t eqn:Ht. clear Ht.
  simpl. rewrite Hr. simpl. rewrite Hd, Hst. simpl.
  rewrite iter_process_app, Hrows. simpl. rewrite Hnext, Htok. reflexivity.
Qed.

(** [k] pages in a row after each of which the loop goes on. *)
Lemma loop_prefix (k : nat) :
  forall (rem n : nat) (tok : json) (acc : list trial_row),
    (forall i, i < k -> continues (remote (n + i)) = true) ->
    loop (k + rem) n tok acc
    = (fst (loop rem (n + k) (token_after remote n k tok)
                 (acc ++ rows_of_pages remote n k)),
       effects_of_pages remote disease n k tok
         ++ snd (loop rem (n + k) (token_after remote n k tok)
                      (acc ++ rows_of_pages remote n k))).
Proof.
  induction k as [| k IH]; intros rem n tok acc Hk.
  - simpl. rewrite Nat.add_0_r, app_nil_r.
    destruct (loop rem n tok acc); reflexivity.
  - assert (H0 : continues (remote n) = true).
    { specialize (Hk 0 (Nat.lt_0_succ k)). rewrite Nat.add_0_r in Hk. exact Hk. }
    change (S k + rem) with (S (k + rem)).
    rewrite (loop_continues _ _ _ _ H0), IH.
    + simpl. rewrite <- app_assoc. replace (n + S k) with (S (n + k)) by lia.
      reflexivity.
    + intros i Hi. replace (S n + i) with (n + S i) by lia. apply Hk. lia.
Qed.

Lemma effects_of_pages_requests (k n : nat) (tok : json) :
  count_requests (effects_of_pages remote disease n k tok) = k.
Proof.
  revert n tok. induction k as [| k IH]; intros n tok; [reflexivity |].
  unfold count_requests in *. simpl. rewrite IH. reflexivity.
Qed.

Lemma effects_of_pages_sleeps (k n : nat) (tok : json) :
  count_sleeps (effects_of_pages remote disease n k tok) = k.
Proof.
  revert n tok. induction k as [| k IH]; intros n tok; [reflexivity |].
  unfold count_sleeps in *. simpl. rewrite IH. reflexivity.
Qed.

(** The effects of pages after which the loop went on end with a delay. *)
Lemma effects_of_pages_last (k n : nat) (tok : json) :
  last (effects_of_pages remote disease n (S k) tok) StError = Sleep.
Proof.
  revert n tok. induction k as [| k IH]; intros n tok; [reflexivity |].
  change (effects_of_pages remote disease n (S (S k)) tok)
    with (request_at n tok :: Sleep
            :: effects_of_pages remote disease (S n) (S k) (next_token (remote n))).
  specialize (IH (S n) (next_token (remote n))).
  destruct (effects_of_pages remote disease (S n) (S k) (next_token (remote n)))
    as [| e l] eqn:E; [discriminate E |].
  exact IH.
Qed.

Lemma count_requests_app (t1 t2 : list event) :
  count_requests (t1 ++ t2) = count_requests t1 + count_requests t2.
Proof. unfold count_requests. rewrite filter_app, length_app. reflexivity. Qed.

Lemma count_sleeps_app (t1 t2 : list event) :
  count_sleeps (t1 ++ t2) = count_sleeps t1 + count_sleeps t2.
Proof. unfold count_sleeps. rewrite filter_app, length_app. reflexivity. Qed.

Lemma requests_of_app (t1 t2 : list event) :
  requests_of (t1 ++ t2) = requests_of t1 ++ requests_of t2.
Proof. unfold requests_of. apply filter_app. Qed.

(** The function in terms of its loop. *)
Lemma fetch_all_unfold (max_pages : Z) :
  fetch_all_vaccine_trials remote disease max_pages
  = match fst (loop (Z.to_nat max_pages) 0 JNull []) with
    | Raised RequestException =>
        (Returned [], snd (loop (Z.to_nat max_pages) 0 JNull []) ++ [StError])
    | res => (res, snd (loop (Z.to_nat max_pages) 0 JNull []))
    end.
Proof.
  unfold fetch_all_vaccine_trials.
  destruct (loop (Z.to_nat max_pages) 0 JNull []) as [res tr]. simpl.
  destruct res as [rows | []]; reflexivity.
Qed.

Lemma fetch_all_spec_unfold (max_pages : Z) :
  fetch_all_spec remote disease max_pages
  = match fst (fetch_loop_spec remote disease (Z.to_nat max_pages - 1) 0 JNull []) with
    | Raised RequestException =>
        (Returned [],
         snd (fetch_loop_spec remote disease (Z.to_nat max_pages - 1) 0 JNull [])
           ++ [StError])
    | res =>
        (res, snd (fetch_loop_spec remote disease (Z.to_nat max_pages - 1) 0 JNull []))
    end.
Proof.
  unfold fetch_all_spec.
  destruct (fetch_loop_spec remote disease (Z.to_nat max_pages - 1) 0 JNull [])
    as [res tr]. simpl.
  destruct res as [rows | []]; reflexivity.
Qed.

(** The loop of the code with a budget of [S left] pages and the loop of
    the specification's wording end the same way and issue the same
    requests. *)
Lemma loop_spec_agree_at (left : nat) :
  forall (rem n : nat) (tok : json) (acc : list trial_row),
    rem = S left ->
    fst (loop rem n tok acc)
    = fst (fetch_loop_spec remote disease left n tok acc)
    /\ requests_of (snd (loop rem n tok acc))
       = requests_of (snd (fetch_loop_spec remote disease left n tok acc)).
Proof.
  induction left as [| left IH]; intros rem n tok acc Hrem;
    (destruct rem as [| rem']; [discriminate Hrem | injection Hrem as Hrem']);
    simpl;
    (destruct (http_get (remote n)) as [data | e]; simpl; [| tauto]);
    (destruct (dict_get data "studies" (JArr [])) as [studies | e] eqn:Hd; simpl;
      [| tauto]);
    (destruct (truthy studies); simpl; [| tauto]);
    (destruct (items <- py_iter studies ;; process_page items acc) as [acc' | e];
      simpl; [| tauto]);
    (destruct data as [| | | | | items]; try discriminate Hd); simpl;
    (destruct (truthy _); simpl; [| tauto]).
  - subst rem'. simpl. tauto.
  - match goal with
    | |- context [fetch_loop_spec remote disease left (S n) ?t acc'] =>
        specialize (IH rem' (S n) t acc' Hrem');
        destruct (fetch_loop remote disease rem' (S n) t acc') as [r1 t1];
        destruct (fetch_loop_spec remote disease left (S n) t acc') as [r2 t2]
    end.
    simpl in *. destruct IH as [-> ->]. tauto.
Qed.

Lemma loop_spec_agree (left n : nat) (tok : json) (acc : list trial_row) :
  fst (loop (S left) n tok acc)
  = fst (fetch_loop_spec remote disease left n tok acc)
  /\ requests_of (snd (loop (S left) n tok acc))
     = requests_of (snd (fetch_loop_spec remote disease left n tok acc)).
Proof. apply loop_spec_agree_at. reflexivity. Qed.

(** A failed request anywhere in the effects of the loop means the loop
    ended with the exception. *)
Lemma loop_failure_raises (p : json) (r : response) (rem : nat) :
  forall (n : nat) (tok : json) (acc : list trial_row),
    In (Request p r) (snd (loop rem n tok acc)) ->
    failed r = true ->
    fst (loop rem n tok acc) = Raised RequestException.
Proof.
  induction rem as [| rem IH]; intros n tok acc Hin Hfail; [contradiction Hin |].
  simpl in *.
  assert (Hhere : forall data, remote n = Ok data ->
            Request (build_params disease tok) (remote n) <> Request p r).
  { intros data Hr Heq. rewrite Hr in Heq. injection Heq as _ <-. discriminate Hfail. }
  destruct (remote n) as [| code | data] eqn:Hr; simpl in *; try reflexivity.
  specialize (Hhere data eq_refl).
  destruct (dict_get data "studies" (JArr [])) as [studies | e]; simpl in *;
    [| destruct Hin as [H | []]; contradiction (Hhere H)].
  destruct (truthy studies); simpl in *;
    [| destruct Hin as [H | []]; contradiction (Hhere H)].
  destruct (items <- py_iter studies ;; process_page items acc) as [acc' | e];
    simpl in *; [| destruct Hin as [H | []]; contradiction (Hhere H)].
  destruct (dict_get data "nextPageToken" JNull) as [t | e]; simpl in *;
    [| destruct Hin as [H | []]; contradiction (Hhere H)].
  destruct (truthy t); simpl in *;
    [| destruct Hin as [H | []]; contradiction (Hhere H)].
  specialize (IH (S n) t acc').
  destruct (fetch_loop remote disease rem (S n) t acc') as [res tr]. simpl in *.
  destruct Hin as [H | [H | H]];
    [contradiction (Hhere H) | discriminate H | exact (IH H Hfail)].
Qed.

End FetcherFacts.

(* ================================================================= *)
(** ** The four ways a run ends *)

Section RunFacts.

Variable remote : nat -> response.
Variable disease : string.
Variable max_pages : Z.

Abbreviation run := (fetch_all_vaccine_trials remote disease max_pages).
Abbreviation budget := (Z.to_nat max_pages).
Abbreviation effects k := (effects_of_pages remote disease 0 k JNull).
Abbreviation request_of_page k :=
  (Request (build_params disease (token_after remote 0 k JNull)) (remote k)).

Lemma rows_of_pages_snoc (n k : nat) :
  rows_of_pages remote n (S k)
  = rows_of_pages remote n k ++ rows_or_nil (remote (n + k)).
Proof.
  revert n. induction k as [| k IH]; intros n.
  - simpl. rewrite Nat.add_0_r, app_nil_r. reflexivity.
  - change (rows_of_pages remote n (S (S k)))
      with (rows_or_nil (remote n) ++ rows_of_pages remote (S n) (S k)).
    rewrite IH. simpl. rewrite app_assoc.
    replace (n + S k) with (S (n + k)) by lia. reflexivity.
Qed.

(** The loop of a run whose first [k] pages let it go on. *)
Lemma run_prefix (k rem : nat) :
  budget = k + rem ->
  (forall i, i < k -> continues (remote i) = true) ->
  fetch_loop remote disease budget 0 JNull []
  = (fst (fetch_loop remote disease rem k (token_after remote 0 k JNull)
                     (rows_of_pages remote 0 k)),
     effects k
       ++ snd (fetch_loop remote disease rem k (token_after remote 0 k JNull)
                          (rows_of_pages remote 0 k))).
Proof.
  intros -> Hk. apply (loop_prefix remote disease k rem 0 JNull []). exact Hk.
Qed.

(** (a) A page without records: the run ends there with what it has. *)
Lemma run_empty_page (k : nat) :
  k < budget ->
  (forall i, i < k -> continues (remote i) = true) ->
  empty_page (remote k) = true ->
  run = (Returned (rows_of_pages remote 0 k), effects k ++ [request_of_page k]).
Proof.
  intros Hlt Hk Hempty. rewrite fetch_all_unfold.
  rewrite (run_prefix k (S (budget - S k))); [| lia | exact Hk].
  rewrite (loop_empty_page _ _ _ _ _ _ Hempty). reflexivity.
Qed.

(** (b) The page budget: with records and tokens throughout, the run ends
    after [max_pages] pages. *)
Lemma run_budget :
  (forall i, i < budget -> continues (remote i) = true) ->
  run = (Returned (rows_of_pages remote 0 budget), effects budget).
Proof.
  intros Hk. rewrite fetch_all_unfold.
  rewrite (run_prefix budget 0); [| lia | exact Hk].
  simpl. rewrite app_nil_r. reflexivity.
Qed.

(** (c) A page without token: processed, and the run ends. *)
Lemma run_last_page (k : nat) :
  k < budget ->
  (forall i, i < k -> continues (remote i) = true) ->
  good_page (remote k) = true ->
  truthy (next_token (remote k)) = false ->
  run = (Returned (rows_of_pages remote 0 (S k)), effects k ++ [request_of_page k]).
Proof.
  intros Hlt Hk Hgood Htok. rewrite fetch_all_unfold.
  rewrite (run_prefix k (S (budget - S k))); [| lia | exact Hk].
  rewrite (loop_last_page _ _ _ _ _ _ Hgood Htok), rows_of_pages_snoc.
  reflexivity.
Qed.

(** A failed request: the handler reports it and returns the empty list. *)
Lemma run_failed (k : nat) :
  k < budget ->
  (forall i, i < k -> continues (remote i) = true) ->
  failed (remote k) = true ->
  run = (Returned [], effects k ++ [request_of_page k; StError]).
Proof.
  intros Hlt Hk Hfail. rewrite fetch_all_unfold.
  rewrite (run_prefix k (S (budget - S k))); [| lia | exact Hk].
  rewrite (loop_failed _ _ _ _ _ _ Hfail). simpl.
  rewrite <- app_assoc. reflexivity.
Qed.

Lemma effects_then_request_count (k : nat) (e : event) :
  is_request e = true ->
  count_requests (effects k ++ [e]) = S k.
Proof.
  intros He. rewrite count_requests_app, effects_of_pages_requests.
  unfold count_requests. simpl. rewrite He. simpl. lia.
Qed.

Lemma effects_then_request_sleeps (k : nat) (e : event) :
  is_sleep e = false ->
  count_sleeps (effects k ++ [e]) = k.
Proof.
  intros He. rewrite count_sleeps_app, effects_of_pages_sleeps.
  unfold count_sleeps. simpl. rewrite He. simpl. lia.
Qed.

End RunFacts.

(* ================================================================= *)
(** ** The paginated fetcher: termination, failure, delays *)

(** C3. The run ends as the three conditions prescribe.  For a page budget
    of at least one page, the loop of the code and the loop that checks
    (a), (b), (c) in the order of the specification end with the same
    result after the same requests.  (a) A page with zero records, reached
    with budget left, ends the run after that request with the rows of the
    pages before it, whatever token it carries.  (b) When every page has
    records and a token, the run issues exactly [max_pages] requests.  (c) A
    page with records and no token is processed and ends the run. *)
Theorem fetch_all_termination (remote : nat -> response) (disease : string)
    (max_pages : Z) :
  (1 <= max_pages)%Z ->
  (fst (fetch_all_vaccine_trials remote disease max_pages)
   = fst (fetch_all_spec remote disease max_pages)
   /\ requests_of (snd (fetch_all_vaccine_trials remote disease max_pages))
      = requests_of (snd (fetch_all_spec remote disease max_pages)))
  /\ (forall k,
        k < Z.to_nat max_pages ->
        (forall i, i < k -> continues (remote i) = true) ->
        empty_page (remote k) = true ->
        fst (fetch_all_vaccine_trials remote disease max_pages)
        = Returned (rows_of_pages remote 0 k)
        /\ count_requests (snd (fetch_all_vaccine_trials remote disease max_pages))
           = S k)
  /\ ((forall i, i < Z.to_nat max_pages -> continues (remote i) = true) ->
      fst (fetch_all_vaccine_trials remote disease max_pages)
      = Returned (rows_of_pages remote 0 (Z.to_nat max_pages))
      /\ count_requests (snd (fetch_all_vaccine_trials remote disease max_pages))
         = Z.to_nat max_pages)
  /\ (forall k,
        k < Z.to_nat max_pages ->
        (forall i, i < k -> continues (remote i) = true) ->
        good_page (remote k) = true ->
        truthy (next_token (remote k)) = false ->
        fst (fetch_all_vaccine_trials remote disease max_pages)
        = Returned (rows_of_pages remote 0 (S k))
        /\ count_requests (snd (fetch_all_vaccine_trials remote disease max_pages))
           = S k).
Proof.
  intros Hmax.
  assert (Hagree := loop_spec_agree remote disease (Z.to_nat max_pages - 1) 0 JNull []).
  replace (S (Z.to_nat max_pages - 1)) with (Z.to_nat max_pages) in Hagree by lia.
  destruct Hagree as [Hres Hreq].
  repeat split.
  - rewrite fetch_all_unfold, fetch_all_spec_unfold, Hres.
    destruct (fst (fetch_loop_spec remote disease (Z.to_nat max_pages - 1) 0 JNull []))
      as [rows | []]; reflexivity.
  - rewrite fetch_all_unfold, fetch_all_spec_unfold, Hres.
    destruct (fst (fetch_loop_spec remote disease (Z.to_nat max_pages - 1) 0 JNull []))
      as [rows | []]; simpl; try exact Hreq.
    rewrite !requests_of_app, Hreq. reflexivity.
  - rewrite (run_empty_page remote disease max_pages k); auto.
  - rewrite (run_empty_page remote disease max_pages k); auto.
    apply effects_then_request_count. reflexivity.
  - rewrite (run_budget remote disease max_pages); auto.
  - rewrite (run_budget remote disease max_pages); auto.
    apply effects_of_pages_requests.
  - rewrite (run_last_page remote disease max_pages k); auto.
  - rewrite (run_last_page remote disease max_pages k); auto.
    apply effects_then_request_count. reflexivity.
Qed.

Lemma fetch_all_termination_witness :
  (1 <= 3)%Z
  /\ count_requests (snd (fetch_all_vaccine_trials endless_remote "RSV" 3)) = 3
  /\ count_requests (snd (fetch_all_vaccine_trials empty_page_remote "RSV" 10)) = 3.
Proof.
  split; [lia |]. split.
  - destruct (fetch_all_termination endless_remote "RSV" 3) as (_ & _ & Hb & _);
      [lia |].
    apply Hb. intros i _. reflexivity.
  - destruct (fetch_all_termination empty_page_remote "RSV" 10) as (_ & Ha & _);
      [lia |].
    apply (Ha 2).
    + simpl. lia.
    + intros [| [| i]] Hi; [reflexivity | reflexivity | lia].
    + reflexivity.
Defined.

(** C4. A run in which some request fails returns the empty list: the rows
    of the pages fetched before are dropped, the failure is reported through
    [st.error], and the caller sees a returned value, not an exception. *)
Theorem fetch_all_failure_returns_empty (remote : nat -> response)
    (disease : string) (max_pages : Z) (p : json) (r : response) :
  In (Request p r) (snd (fetch_all_vaccine_trials remote disease max_pages)) ->
  failed r = true ->
  fst (fetch_all_vaccine_trials remote disease max_pages) = Returned []
  /\ last (snd (fetch_all_vaccine_trials remote disease max_pages)) Sleep = StError.
Proof.
  rewrite fetch_all_unfold. intros Hin Hfail.
  pose proof (loop_failure_raises remote disease p r (Z.to_nat max_pages) 0 JNull [])
    as Hraise.
  destruct (fst (fetch_loop remote disease (Z.to_nat max_pages) 0 JNull []))
    as [rows | e] eqn:Hres.
  - simpl in Hin. discriminate (Hraise Hin Hfail).
  - destruct e; simpl in Hin.
    + simpl. split; [reflexivity | apply last_last].
    + discriminate (Hraise Hin Hfail).
    + discriminate (Hraise Hin Hfail).
Qed.

Lemma fetch_all_failure_returns_empty_witness :
  rows_or_nil (failing_remote 0) <> []
  /\ fst (fetch_all_vaccine_trials failing_remote "RSV" 10) = Returned []
  /\ last (snd (fetch_all_vaccine_trials failing_remote "RSV" 10)) Sleep = StError.
Proof.
  split; [discriminate |].
  apply (fetch_all_failure_returns_empty failing_remote "RSV" 10
           (build_params "RSV" (JStr "p2")) (HttpError 500)).
  - vm_compute. right. right. left. reflexivity.
  - reflexivity.
Defined.

(** The delay is spent once per page after which the loop goes on: when the
    run ends on a page without records, on a page without token or on a
    failed request, there is one delay fewer than requests. *)
Lemma delays_between_pages (remote : nat -> response) (disease : string)
    (max_pages : Z) (k : nat) :
  k < Z.to_nat max_pages ->
  (forall i, i < k -> continues (remote i) = true) ->
  continues (remote k) = false ->
  count_requests (snd (fetch_all_vaccine_trials remote disease max_pages)) = S k
  /\ count_sleeps (snd (fetch_all_vaccine_trials remote disease max_pages)) = k.
Proof.
  intros Hlt Hk Hstop.
  rewrite fetch_all_unfold.
  rewrite (run_prefix remote disease max_pages k (S (Z.to_nat max_pages - S k)));
    [| lia | exact Hk].
  set (tok := token_after remote 0 k JNull).
  set (acc := rows_of_pages remote 0 k).
  assert (Hone : exists res,
             fetch_loop remote disease (S (Z.to_nat max_pages - S k)) k tok acc
             = (res, [Request (build_params disease tok) (remote k)])).
  { unfold continues, good_page, has_studies, page_rows, studies_of, next_token in Hstop.
    simpl.
    destruct (remote k) as [| code | data]; simpl in *; eauto.
    destruct (dict_get data "studies" (JArr [])) as [studies | e] eqn:Hd; simpl in *;
      eauto.
    destruct (truthy studies); simpl in *; eauto.
    rewrite iter_process_app.
    destruct (items <- py_iter studies ;; process_page items []) as [rows | e];
      simpl in *; eauto.
    destruct (dict_get data "nextPageToken" JNull) as [t | e]; simpl in *; eauto.
    rewrite Hstop. simpl. eauto. }
  destruct Hone as [res ->]. simpl fst. simpl snd.
  destruct res as [rows | []]; simpl;
    rewrite ?app_assoc, ?count_sleeps_app, ?count_requests_app,
      effects_of_pages_sleeps, effects_of_pages_requests;
    unfold count_sleeps, count_requests; simpl; lia.
Qed.

(** The scenario of the specification: two pages with records and tokens,
    then a page without records.  Three requests, two delays, and the rows
    of the first two pages. *)
Lemma scenario_two_delays (remote : nat -> response) (disease : string)
    (max_pages : Z) :
  (3 <= max_pages)%Z ->
  continues (remote 0) = true ->
  continues (remote 1) = true ->
  empty_page (remote 2) = true ->
  fetch_all_vaccine_trials remote disease max_pages
  = (Returned (rows_or_nil (remote 0) ++ rows_or_nil (remote 1)),
     effects_of_pages remote disease 0 2 JNull
       ++ [Request (build_params disease (token_after remote 0 2 JNull)) (remote 2)])
  /\ count_sleeps (snd (fetch_all_vaccine_trials remote disease max_pages)) = 2.
Proof.
  intros Hmax H0 H1 H2.
  assert (Hrun := run_empty_page remote disease max_pages 2).
  rewrite Hrun; try assumption; try lia.
  - simpl. rewrite app_nil_r. split; reflexivity.
  - intros [| [| i]] Hi; [assumption | assumption | lia].
Qed.

Lemma scenario_100_100_0 :
  exists rows,
    fst (fetch_all_vaccine_trials scenario_remote "RSV" 10) = Returned rows
    /\ length rows = 200
    /\ count_requests (snd (fetch_all_vaccine_trials scenario_remote "RSV" 10)) = 3
    /\ count_sleeps (snd (fetch_all_vaccine_trials scenario_remote "RSV" 10)) = 2.
Proof.
  eexists. split; [vm_compute; reflexivity |].
  repeat split; vm_compute; reflexivity.
Qed.

(** When the page budget ends a run whose last page carries a token, the
    delay is spent once more after that page. *)
Lemma budget_run_ends_with_delay (remote : nat -> response) (disease : string)
    (max_pages : Z) :
  (1 <= max_pages)%Z ->
  (forall i, i < Z.to_nat max_pages -> continues (remote i) = true) ->
  last (snd (fetch_all_vaccine_trials remote disease max_pages)) StError = Sleep
  /\ count_sleeps (snd (fetch_all_vaccine_trials remote disease max_pages))
     = count_requests (snd (fetch_all_vaccine_trials remote disease max_pages)).
Proof.
  intros Hmax Hk. rewrite (run_budget remote disease max_pages Hk). simpl snd.
  rewrite effects_of_pages_sleeps, effects_of_pages_requests.
  split; [| reflexivity].
  replace (Z.to_nat max_pages) with (S (Z.to_nat max_pages - 1)) by lia.
  apply effects_of_pages_last.
Qed.

(** C2, at the call of line 179 against a registry with more than ten pages:
    ten requests and ten delays, the last of them after the final page. *)
Theorem delay_after_final_page_at_budget :
  count_requests (snd (fetch_all_vaccine_trials endless_remote "RSV" 10)) = 10
  /\ count_sleeps (snd (fetch_all_vaccine_trials endless_remote "RSV" 10)) = 10
  /\ last (snd (fetch_all_vaccine_trials endless_remote "RSV" 10)) StError = Sleep.
Proof. repeat split; vm_compute; reflexivity. Qed.

(* ================================================================= *)
(** ** Objects of the expected shape *)

Lemma dict_get_obj (items : list (string * json)) (k : string) (d : json) :
  dict_get (JObj items) k d
  = Returned (match dict_lookup k items with Some v => v | None => d end).
Proof. reflexivity. Qed.

Lemma dict_get_is_obj (v x : json) (k : string) (d : json) :
  dict_get v k d = Returned x -> exists items, v = JObj items.
Proof.
  destruct v as [| | | | | items]; simpl; try discriminate. intros _.
  exists items. reflexivity.
Qed.

Lemma fields_ok_lookup (checks : list (string * (json -> bool)))
    (items : list (string * json)) (k : string) (check : json -> bool) (x : json) :
  fields_ok checks items = true ->
  In (k, check) checks ->
  dict_lookup k items = Some x ->
  check x = true.
Proof.
  induction checks as [| [k' check'] checks IH]; simpl; intros Hok Hin Hx.
  - contradiction Hin.
  - apply andb_prop in Hok as [Hhere Hrest].
    destruct Hin as [Heq | Hin].
    + injection Heq as -> ->. rewrite Hx in Hhere. exact Hhere.
    + apply IH; assumption.
Qed.

(** Reading a field of an object of the expected shape returns, and what it
    returns passes the check of the field, as soon as the default does. *)
Lemma obj_with_get (checks : list (string * (json -> bool))) (v : json)
    (k : string) (check : json -> bool) (d : json) :
  obj_with checks v = true ->
  In (k, check) checks ->
  check d = true ->
  exists x, dict_get v k d = Returned x /\ check x = true.
Proof.
  intros Hok Hin Hd. destruct v as [| | | | | items]; simpl in Hok; try discriminate Hok.
  rewrite dict_get_obj. destruct (dict_lookup k items) as [x |] eqn:Hx.
  - exists x. split; [reflexivity |].
    eapply fields_ok_lookup; eassumption.
  - exists d. split; [reflexivity | exact Hd].
Qed.

Lemma is_obj_get (v : json) (k : string) (d : json) :
  is_obj v = true -> exists x, dict_get v k d = Returned x.
Proof.
  destruct v as [| | | | | items]; simpl; try discriminate. intros _.
  eexists. reflexivity.
Qed.

Lemma list_of_iter (check : json -> bool) (v : json) :
  list_of check v = true ->
  exists l, py_iter v = Returned l /\ forallb check l = true.
Proof.
  destruct v as [| | | | l |]; simpl; try discriminate. intros H.
  exists l. split; [reflexivity | exact H].
Qed.

Lemma all_str_total (l : list json) :
  forallb is_str l = true -> exists ss, all_str l = Returned ss.
Proof.
  induction l as [| v l IH]; simpl; intros H.
  - exists []. reflexivity.
  - apply andb_prop in H as [Hv Hl]. destruct (IH Hl) as [ss Hss].
    destruct v; try discriminate Hv. simpl. rewrite Hss. simpl.
    eexists. reflexivity.
Qed.

(* ================================================================= *)
(** ** Product names *)

Lemma add_intervention_total (vaccines : str_set) (item : json) :
  intervention_ok item = true ->
  exists vaccines', add_intervention vaccines item = Returned vaccines'.
Proof.
  intros Hok. unfold add_intervention, intervention_ok in *.
  destruct (obj_with_get _ item "name" _ JNull Hok (or_introl eq_refl) eq_refl)
    as (name & -> & Hname).
  simpl. destruct name; simpl in *; try discriminate Hname; try (eexists; reflexivity).
  destruct (negb _); simpl; eexists; reflexivity.
Qed.

Lemma add_arm_name_total (vaccines : str_set) (name : json) :
  is_str name = true ->
  exists vaccines', add_arm_name vaccines name = Returned vaccines'.
Proof.
  destruct name; simpl; try discriminate. intros _. eexists. reflexivity.
Qed.

Lemma add_arm_total (vaccines : str_set) (arm : json) :
  arm_ok arm = true ->
  exists vaccines', add_arm vaccines arm = Returned vaccines'.
Proof.
  intros Hok. unfold add_arm, arm_ok in *.
  destruct (obj_with_get _ arm "interventionNames" _ (JArr []) Hok
              (or_introl eq_refl) eq_refl) as (names_v & -> & Hnames).
  simpl. destruct (list_of_iter _ _ Hnames) as (names & -> & Hall). simpl.
  apply for_each_returns. intros acc name Hin.
  apply add_arm_name_total. rewrite forallb_forall in Hall. apply Hall. exact Hin.
Qed.

Lemma extract_vaccines_total (arms : json) :
  arms_ok arms = true -> exists vaccines, extract_vaccines arms = Returned vaccines.
Proof.
  intros Hok. unfold extract_vaccines, interventions_loop, arm_groups_loop, arms_ok in *.
  destruct (obj_with_get _ arms "interventions" _ (JArr []) Hok
              (or_introl eq_refl) eq_refl) as (items_v & -> & Hitems).
  simpl. destruct (list_of_iter _ _ Hitems) as (items & -> & Hall). simpl.
  destruct (for_each_returns add_intervention items) with (acc := @nil string)
    as [v1 ->].
  { intros acc item Hin. apply add_intervention_total.
    rewrite forallb_forall in Hall. apply Hall. exact Hin. }
  simpl.
  destruct (obj_with_get _ arms "armGroups" _ (JArr []) Hok
              (or_intror (or_introl eq_refl)) eq_refl) as (groups_v & -> & Hgroups).
  simpl. destruct (list_of_iter _ _ Hgroups) as (groups & -> & Hgall). simpl.
  apply for_each_returns. intros acc arm Hin. apply add_arm_total.
  rewrite forallb_forall in Hgall. apply Hgall. exact Hin.
Qed.

(** Joining the phases of a design module of the expected shape returns. *)
Lemma join_phases_total (phases : json) :
  (is_null phases || list_of is_str phases) = true ->
  exists text, py_join ", " (py_or phases (JArr [JStr "Not reported"])) = Returned text.
Proof.
  intros H. unfold py_or.
  destruct phases as [| | | | l |]; simpl in H; try discriminate H.
  - simpl. eexists. reflexivity.
  - destruct l as [| v l]; [simpl; eexists; reflexivity |].
    cbn [truthy]. unfold py_join. cbn [py_iter bind].
    destruct (all_str_total _ H) as [ss ->]. simpl. eexists. reflexivity.
Qed.

(* ================================================================= *)
(** ** The list normalizer is total on the expected shape *)

Ltac in_checks := simpl; repeat (first [left; reflexivity | right]).

Lemma proto_of_study (s : json) :
  study_ok s = true ->
  exists proto,
    dict_get s "protocolSection" (JObj []) = Returned proto /\ proto_ok proto = true.
Proof.
  intros Hok. apply (obj_with_get _ s "protocolSection" proto_ok (JObj []) Hok);
    [in_checks | reflexivity].
Qed.

Lemma normalize_study_total (s : json) :
  study_ok s = true -> exists row, normalize_study s = Returned row.
Proof.
  intros Hok. unfold normalize_study.
  destruct (proto_of_study s Hok) as (proto & -> & Hproto). simpl.
  unfold proto_ok in Hproto.
  destruct (obj_with_get _ proto "identificationModule" is_obj (JObj []) Hproto)
    as (ident & -> & Hident); [in_checks | reflexivity |]. simpl.
  destruct (obj_with_get _ proto "designModule" design_ok (JObj []) Hproto)
    as (design & -> & Hdesign); [in_checks | reflexivity |]. simpl.
  destruct (obj_with_get _ proto "statusModule" is_obj (JObj []) Hproto)
    as (status & -> & Hstatus); [in_checks | reflexivity |]. simpl.
  destruct (obj_with_get _ proto "sponsorCollaboratorsModule" sponsor_ok (JObj []) Hproto)
    as (sponsor & -> & Hsponsor); [in_checks | reflexivity |]. simpl.
  destruct (obj_with_get _ proto "armsInterventionsModule" arms_ok (JObj []) Hproto)
    as (arms & -> & Harms); [in_checks | reflexivity |]. simpl.
  destruct (extract_vaccines_total arms Harms) as [vaccines ->]. simpl.
  destruct (is_obj_get ident "nctId" JNull Hident) as [nct_id ->]. simpl.
  destruct (is_obj_get ident "briefTitle" JNull Hident) as [brief ->]. simpl.
  destruct (is_obj_get ident "officialTitle" JNull Hident) as [official ->]. simpl.
  destruct (obj_with_get _ design "phases" _ JNull Hdesign (or_introl eq_refl) eq_refl)
    as (phases & -> & Hphases). simpl.
  destruct (is_obj_get status "overallStatus" JNull Hstatus) as [overall ->]. simpl.
  destruct (obj_with_get _ sponsor "leadSponsor" is_obj (JObj []) Hsponsor)
    as (lead & -> & Hlead); [in_checks | reflexivity |]. simpl.
  destruct (is_obj_get lead "name" (JStr "Unknown") Hlead) as [name ->]. simpl.
  destruct (join_phases_total phases Hphases) as [text ->]. simpl.
  eexists. reflexivity.
Qed.

(* ================================================================= *)
(** ** Paths and the reads of the normalizers *)

Lemma path_step (v x : json) (k k' : string) (ks : list string) :
  dict_get v k (JObj []) = Returned x ->
  json_path (k :: k' :: ks) v = None ->
  json_path (k' :: ks) x = None.
Proof.
  destruct v as [| | | | | items]; try discriminate.
  rewrite dict_get_obj. cbn [json_path].
  destruct (dict_lookup k items) as [v' |]; intros [= <-] H; [exact H | reflexivity].
Qed.

Lemma path_last (v x d : json) (k : string) :
  dict_get v k d = Returned x -> json_path [k] v = None -> x = d.
Proof.
  destruct v as [| | | | | items]; try discriminate.
  rewrite dict_get_obj. cbn [json_path].
  destruct (dict_lookup k items) as [v' |]; intros [= <-] H;
    [discriminate H | reflexivity].
Qed.

Lemma path_step_some (v x y d : json) (k : string) (ks : list string) :
  dict_get v k d = Returned x ->
  json_path (k :: ks) v = Some y ->
  json_path ks x = Some y.
Proof.
  destruct v as [| | | | | items]; try discriminate.
  rewrite dict_get_obj. cbn [json_path].
  destruct (dict_lookup k items) as [v' |]; intros [= <-] H;
    [exact H | discriminate H].
Qed.

Ltac next_read :=
  match goal with
  | |- context [bind ?m _] =>
      let E := fresh "E" in
      destruct m eqn:E; cbn [bind]; [| intros; discriminate]
  end.

(** What the reads of a normalization that returned came back with. *)
Lemma normalize_study_reads (s : json) (row : trial_row) :
  normalize_study s = Returned row ->
  exists proto ident design status sponsor lead phases overall,
    dict_get s "protocolSection" (JObj []) = Returned proto
    /\ dict_get proto "identificationModule" (JObj []) = Returned ident
    /\ dict_get ident "nctId" JNull = Returned (NCT_ID row)
    /\ dict_get proto "designModule" (JObj []) = Returned design
    /\ dict_get design "phases" JNull = Returned phases
    /\ py_join ", " (py_or phases (JArr [JStr "Not reported"])) = Returned (Phase row)
    /\ dict_get proto "statusModule" (JObj []) = Returned status
    /\ dict_get status "overallStatus" JNull = Returned overall
    /\ Status row = py_or overall (JStr "Unknown")
    /\ dict_get proto "sponsorCollaboratorsModule" (JObj []) = Returned sponsor
    /\ dict_get sponsor "leadSponsor" (JObj []) = Returned lead
    /\ dict_get lead "name" (JStr "Unknown") = Returned (Sponsor row).
Proof.
  unfold normalize_study. repeat next_read. intros [= <-]. simpl.
  do 8 eexists. repeat split; eassumption.
Qed.

Lemma phase_list_reads (s proto design phases : json) :
  dict_get s "protocolSection" (JObj []) = Returned proto ->
  dict_get proto "designModule" (JObj []) = Returned design ->
  dict_get design "phases" JNull = Returned phases ->
  phase_list s = Returned (py_or phases (JArr [JStr "Not reported"])).
Proof. intros H1 H2 H3. unfold phase_list. rewrite H1. simpl. rewrite H2. simpl.
  rewrite H3. reflexivity.
Qed.

(* ================================================================= *)
(** ** The list normalizer: placeholders, one row per study *)

(** C8, on the expected shape.  A raw trial object each of whose sub-objects
    and lists, where present, is an object or a list of the right elements
    is normalized to a row; when the sponsor sub-object is missing the row's
    sponsor is ["Unknown"], and when the phases list is missing or empty the
    phases are [["Not reported"]]. *)
Theorem normalize_study_placeholders (s : json) :
  study_ok s = true ->
  exists row,
    normalize_study s = Returned row
    /\ (json_path sponsor_path s = None -> Sponsor row = JStr "Unknown")
    /\ (json_path phases_path s = None \/ json_path phases_path s = Some (JArr []) ->
        phase_list s = Returned (JArr [JStr "Not reported"])
        /\ Phase row = "Not reported").
Proof.
  intros Hok. destruct (normalize_study_total s Hok) as [row Hrow].
  exists row. split; [exact Hrow |].
  destruct (normalize_study_reads s row Hrow)
    as (proto & ident & design & status & sponsor & lead & phases & overall
        & Hproto & _ & _ & Hdesign & Hphases & Hjoin & _ & _ & _
        & Hsponsor & Hlead & Hname).
  split.
  - intros Hpath. unfold sponsor_path in Hpath.
    pose proof (path_step _ _ _ _ _ Hproto Hpath) as Hp1.
    pose proof (path_step _ _ _ _ _ Hsponsor Hp1) as Hp2.
    pose proof (path_last _ _ _ _ Hlead Hp2) as ->.
    simpl in Hname. injection Hname as <-. reflexivity.
  - intros Hpath. unfold phases_path in Hpath.
    rewrite (phase_list_reads s proto design phases Hproto Hdesign Hphases).
    assert (Hfalsy : py_or phases (JArr [JStr "Not reported"])
                     = JArr [JStr "Not reported"]).
    { destruct Hpath as [Hpath | Hpath].
      - pose proof (path_step _ _ _ _ _ Hproto Hpath) as Hp1.
        pose proof (path_step _ _ _ _ _ Hdesign Hp1) as Hp2.
        destruct design as [| | | | | items]; try discriminate Hphases.
        rewrite dict_get_obj in Hphases. cbn [json_path] in Hp2.
        destruct (dict_lookup "phases" items); [discriminate Hp2 |].
        injection Hphases as <-. reflexivity.
      - pose proof (path_step_some _ _ _ _ _ _ Hproto Hpath) as Hp1.
        pose proof (path_step_some _ _ _ _ _ _ Hdesign Hp1) as Hp2.
        pose proof (path_step_some _ _ _ _ _ _ Hphases Hp2) as Hp3.
        injection Hp3 as ->. reflexivity. }
    rewrite Hfalsy in *. split; [reflexivity |].
    injection Hjoin as <-. reflexivity.
Qed.

Lemma normalize_study_placeholders_witness :
  study_ok (JObj []) = true
  /\ exists row,
       normalize_study (JObj []) = Returned row
       /\ Sponsor row = JStr "Unknown"
       /\ Phase row = "Not reported".
Proof.
  split; [reflexivity |].
  destruct (normalize_study_placeholders (JObj []) eq_refl) as (row & Hrow & Hs & Hp).
  exists row. split; [exact Hrow |]. split.
  - apply Hs. reflexivity.
  - apply Hp. left. reflexivity.
Defined.

(** C8 as worded fails on a raw trial object whose protocol section is
    [null]: the sponsor sub-object is missing, and the normalizer raises
    instead of substituting the placeholder. *)
Lemma normalize_study_raises_on_null_section :
  json_path sponsor_path null_section_study = None
  /\ normalize_study null_section_study = Raised AttributeError.
Proof. split; reflexivity. Qed.

(** Whenever the loop over a page returns, it has appended the normalized
    studies, one for one and in order. *)
Lemma process_page_no_drop (studies : list json) (all_results result : list trial_row) :
  process_page studies all_results = Returned result ->
  exists rows,
    result = all_results ++ rows
    /\ length rows = length studies
    /\ Forall2 (fun s row => normalize_study s = Returned row) studies rows.
Proof.
  rewrite process_page_app.
  destruct (process_page studies []) as [rows | e] eqn:Hrows; simpl; [| discriminate].
  intros [= <-]. exists rows. split; [reflexivity |].
  pose proof (process_page_rows studies rows Hrows) as Hall.
  split; [| exact Hall].
  symmetry. eapply Forall2_length. exact Hall.
Qed.

Lemma process_page_total (studies : list json) (all_results : list trial_row) :
  forallb study_ok studies = true ->
  exists result, process_page studies all_results = Returned result.
Proof.
  intros Hok. unfold process_page. apply for_each_returns.
  intros acc s Hin. unfold append_study.
  rewrite forallb_forall in Hok.
  destruct (normalize_study_total s (Hok s Hin)) as [row ->]. simpl.
  eexists. reflexivity.
Qed.

Lemma nct_id_null (s : json) (row : trial_row) :
  normalize_study s = Returned row ->
  json_path nct_id_path s = None ->
  NCT_ID row = JNull.
Proof.
  intros Hrow Hpath.
  destruct (normalize_study_reads s row Hrow)
    as (proto & ident & design & status & sponsor & lead & phases & overall
        & Hproto & Hident & Hid & _).
  unfold nct_id_path in Hpath.
  pose proof (path_step _ _ _ _ _ Hproto Hpath) as Hp1.
  pose proof (path_step _ _ _ _ _ Hident Hp1) as Hp2.
  symmetry. exact (eq_sym (path_last _ _ _ _ Hid Hp2)).
Qed.

(** C9. Whenever the loop over a page returns, it has appended exactly one
    row per study, in order, dropping none, each the normalization of its
    study; the row of a study without identification sub-object or without
    [nctId] has the null value as its id.  The loop does return on studies
    of the expected shape, and a run whose only page holds such studies
    returns one row for each. *)
Theorem process_page_one_row_per_study (studies : list json)
    (all_results : list trial_row) :
  (forall result,
      process_page studies all_results = Returned result ->
      exists rows,
        result = all_results ++ rows
        /\ length rows = length studies
        /\ Forall2 (fun s row =>
                      normalize_study s = Returned row
                      /\ (json_path nct_id_path s = None -> NCT_ID row = JNull))
                   studies rows)
  /\ (forallb study_ok studies = true ->
      exists rows,
        process_page studies all_results = Returned (all_results ++ rows)
        /\ length rows = length studies
        /\ (forall (remote : nat -> response) (disease : string) (max_pages : Z),
              (1 <= max_pages)%Z ->
              studies <> [] ->
              remote 0 = Ok (page_body studies None) ->
              fst (fetch_all_vaccine_trials remote disease max_pages) = Returned rows)).
Proof.
  split.
  - intros result Hres.
    destruct (process_page_no_drop _ _ _ Hres) as (rows & -> & Hlen & Hall).
    exists rows. split; [reflexivity |]. split; [exact Hlen |].
    eapply Forall2_impl; [| exact Hall].
    intros s row Hrow. split; [exact Hrow | apply nct_id_null; exact Hrow].
  - intros Hok.
    destruct (process_page_total studies all_results Hok) as [result Hres].
    destruct (process_page_no_drop _ _ _ Hres) as (rows & -> & Hlen & Hall).
    exists rows. split; [exact Hres |]. split; [exact Hlen |].
    intros remote disease max_pages Hmax Hne Hpage.
    assert (Hrows : page_rows (remote 0) = Returned rows).
    { rewrite Hpage. unfold page_rows, studies_of. simpl.
      rewrite process_page_app in Hres.
      destruct (process_page studies []) as [rows' | e]; simpl in Hres;
        [| discriminate Hres].
      injection Hres as Hres. apply app_inv_head in Hres. subst rows'. reflexivity. }
    assert (Hgood : good_page (remote 0) = true).
    { unfold good_page. rewrite Hrows. unfold has_studies. rewrite Hpage. simpl.
      destruct studies; [contradiction Hne; reflexivity | reflexivity]. }
    rewrite (run_last_page remote disease max_pages 0); try assumption; try lia.
    + simpl. unfold rows_or_nil. rewrite Hrows. rewrite app_nil_r. reflexivity.
    + rewrite Hpage. reflexivity.
Qed.

Lemma process_page_one_row_per_study_witness :
  forallb study_ok [study_with "NCT00000001" "PHASE1"; JObj []] = true
  /\ exists rows,
       process_page [study_with "NCT00000001" "PHASE1"; JObj []] [] = Returned rows
       /\ length rows = 2
       /\ map NCT_ID rows = [JStr "NCT00000001"; JNull].
Proof.
  split; [reflexivity |].
  destruct (proj2 (process_page_one_row_per_study
                     [study_with "NCT00000001" "PHASE1"; JObj []] []) eq_refl)
    as (rows & Hrows & Hlen & _).
  exists rows. split; [exact Hrows |]. split; [exact Hlen |].
  vm_compute in Hrows. injection Hrows as <-. reflexivity.
Defined.

(** C10. An intervention item without name, or with an empty one, leaves
    the product set as it is; a name listed by an arm group is inserted,
    trimmed, whatever it is; and the trial whose arm group lists a name made
    of blanks gets the empty text into its product set, hence an empty
    ["Vaccines"] text in place of the placeholder. *)
Theorem product_names_skip_and_insert :
  (forall (vaccines : str_set) (items : list (string * json)),
      dict_lookup "name" items = None
      \/ dict_lookup "name" items = Some JNull
      \/ dict_lookup "name" items = Some (JStr "") ->
      add_intervention vaccines (JObj items) = Returned vaccines)
  /\ (forall (vaccines : str_set) (name : string),
        add_arm_name vaccines (JStr name)
        = Returned (set_add (PyStr.strip name) vaccines)
        /\ In (PyStr.strip name) (set_add (PyStr.strip name) vaccines))
  /\ (exists vaccines row,
        extract_vaccines (arms_of blank_arm_study) = Returned vaccines
        /\ In EmptyString vaccines
        /\ normalize_study blank_arm_study = Returned row
        /\ Vaccines row = EmptyString).
Proof.
  split; [| split].
  - intros vaccines items H. unfold add_intervention. rewrite dict_get_obj.
    destruct H as [-> | [-> | ->]]; reflexivity.
  - intros vaccines name. split; [reflexivity |].
    unfold set_add. destruct (set_mem (PyStr.strip name) vaccines) eqn:Hmem.
    + unfold set_mem in Hmem. apply existsb_exists in Hmem as (x & Hin & Heq).
      apply String.eqb_eq in Heq. subst x. exact Hin.
    + apply in_or_app. right. left. reflexivity.
  - eexists. eexists. split; [vm_compute; reflexivity |].
    split; [left; reflexivity |]. split; [vm_compute; reflexivity | reflexivity].
Qed.

(* ================================================================= *)
(** ** The detail normalizer and the detail fetcher *)

Lemma add_outcome_total (outcomes : list (json * json)) (o : json) :
  is_obj o = true -> exists outcomes', add_outcome outcomes o = Returned outcomes'.
Proof.
  destruct o as [| | | | | items]; simpl; try discriminate. intros _.
  eexists. reflexivity.
Qed.

Lemma extract_outcomes_total (results_section : json) :
  results_ok results_section = true ->
  exists outcomes, extract_outcomes results_section = Returned outcomes.
Proof.
  intros Hok. unfold extract_outcomes.
  destruct (truthy results_section); [| eexists; reflexivity].
  unfold results_ok in Hok.
  destruct (obj_with_get _ results_section "outcomeMeasuresModule" _ (JObj []) Hok
              (or_introl eq_refl) eq_refl) as (outcome_module & -> & Hmodule).
  simpl.
  destruct (obj_with_get _ outcome_module "outcomeMeasures" _ (JArr []) Hmodule
              (or_introl eq_refl) eq_refl) as (measures_v & -> & Hmeasures).
  simpl. destruct (list_of_iter _ _ Hmeasures) as (measures & -> & Hall). simpl.
  apply for_each_returns. intros acc o Hin. apply add_outcome_total.
  rewrite forallb_forall in Hall. apply Hall. exact Hin.
Qed.

Lemma normalize_detail_total (data : json) :
  study_ok data = true -> exists detail, normalize_detail data = Returned detail.
Proof.
  intros Hok. unfold normalize_detail.
  destruct (proto_of_study data Hok) as (proto & -> & Hproto). simpl.
  unfold proto_ok in Hproto.
  destruct (obj_with_get _ proto "designModule" design_ok (JObj []) Hproto)
    as (design & -> & Hdesign); [in_checks | reflexivity |]. simpl.
  destruct (obj_with_get _ proto "statusModule" is_obj (JObj []) Hproto)
    as (status & -> & Hstatus); [in_checks | reflexivity |]. simpl.
  destruct (obj_with_get _ proto "sponsorCollaboratorsModule" sponsor_ok (JObj []) Hproto)
    as (sponsor & -> & Hsponsor); [in_checks | reflexivity |]. simpl.
  destruct (obj_with_get _ proto "armsInterventionsModule" arms_ok (JObj []) Hproto)
    as (arms & -> & Harms); [in_checks | reflexivity |]. simpl.
  destruct (obj_with_get _ proto "conditionsModule" is_obj (JObj []) Hproto)
    as (conditions & -> & Hconditions); [in_checks | reflexivity |]. simpl.
  destruct (obj_with_get _ data "resultsSection" results_ok (JObj []) Hok)
    as (results_section & -> & Hresults); [in_checks | reflexivity |]. simpl.
  destruct (extract_vaccines_total arms Harms) as [vaccines ->]. simpl.
  destruct (is_obj_get conditions "conditions" (JArr []) Hconditions)
    as [disease_list ->]. simpl.
  destruct (extract_outcomes_total results_section Hresults) as [outcomes ->]. simpl.
  destruct (obj_with_get _ proto "identificationModule" is_obj (JObj []) Hproto)
    as (ident & -> & Hident); [in_checks | reflexivity |]. simpl.
  destruct (is_obj_get ident "briefTitle" JNull Hident) as [brief ->]. simpl.
  destruct (is_obj_get ident "officialTitle" JNull Hident) as [official ->]. simpl.
  destruct (obj_with_get _ design "phases" _ JNull Hdesign (or_introl eq_refl) eq_refl)
    as (phases & -> & Hphases). simpl.
  destruct (is_obj_get status "overallStatus" (JStr "Unknown") Hstatus)
    as [overall ->]. simpl.
  destruct (obj_with_get _ sponsor "leadSponsor" is_obj (JObj []) Hsponsor)
    as (lead & -> & Hlead); [in_checks | reflexivity |]. simpl.
  destruct (is_obj_get lead "name" (JStr "Unknown") Hlead) as [name ->]. simpl.
  destruct (join_phases_total phases Hphases) as [text ->]. simpl.
  eexists. reflexivity.
Qed.

(** *** Only a request raises [RequestException] *)

Create HintDb quiet.

Lemma quiet_returned {A : Type} (a : A) : quiet (Returned a).
Proof. discriminate. Qed.

Lemma quiet_bind {A B : Type} (m : result A) (k : A -> result B) :
  quiet m -> (forall a, quiet (k a)) -> quiet (bind m k).
Proof.
  unfold quiet. intros Hm Hk. destruct m as [a | e]; simpl; [apply Hk |].
  intros [= ->]. apply Hm. reflexivity.
Qed.

Lemma quiet_for_each {A S : Type} (f : S -> A -> result S) (xs : list A) :
  (forall acc x, quiet (f acc x)) -> forall acc, quiet (for_each f xs acc).
Proof.
  intros Hf. induction xs as [| x xs IH]; intros acc; simpl.
  - apply quiet_returned.
  - apply quiet_bind; [apply Hf | exact IH].
Qed.

Lemma quiet_dict_get (v : json) (k : string) (d : json) : quiet (dict_get v k d).
Proof. destruct v; discriminate. Qed.

Lemma quiet_py_iter (v : json) : quiet (py_iter v).
Proof. destruct v; discriminate. Qed.

Lemma quiet_py_strip (v : json) : quiet (py_strip v).
Proof. destruct v; discriminate. Qed.

Lemma quiet_all_str (vs : list json) : quiet (all_str vs).
Proof.
  induction vs as [| v vs IH]; simpl; [apply quiet_returned |].
  apply quiet_bind; [destruct v; discriminate |].
  intros s. apply quiet_bind; [exact IH | intros; apply quiet_returned].
Qed.

Lemma quiet_if {A : Type} (b : bool) (m1 m2 : result A) :
  quiet m1 -> quiet m2 -> quiet (if b then m1 else m2).
Proof. destruct b; auto. Qed.

#[local] Hint Resolve quiet_returned quiet_dict_get quiet_py_iter quiet_py_strip
  quiet_all_str : quiet.

Ltac quiet_steps :=
  repeat first
    [ apply quiet_bind; [| intros ?]
    | apply quiet_if
    | apply quiet_for_each; intros ? ?
    | solve [auto with quiet] ].

Lemma quiet_py_join (sep : string) (v : json) : quiet (py_join sep v).
Proof. unfold py_join. quiet_steps. Qed.

Lemma quiet_extract_vaccines (arms : json) : quiet (extract_vaccines arms).
Proof.
  unfold extract_vaccines, interventions_loop, arm_groups_loop, add_intervention,
    add_arm, add_arm_name.
  quiet_steps.
Qed.

Lemma quiet_extract_outcomes (results_section : json) :
  quiet (extract_outcomes results_section).
Proof. unfold extract_outcomes, add_outcome. quiet_steps. Qed.

#[local] Hint Resolve quiet_py_join quiet_extract_vaccines quiet_extract_outcomes
  : quiet.

Lemma quiet_normalize_detail (data : json) : quiet (normalize_detail data).
Proof. unfold normalize_detail. quiet_steps. Qed.

Lemma quiet_normalize_study (s : json) : quiet (normalize_study s).
Proof. unfold normalize_study. quiet_steps. Qed.

Lemma quiet_process_page (items : list json) (acc : list trial_row) :
  quiet (process_page items acc).
Proof.
  unfold process_page. apply quiet_for_each. intros all_results s.
  unfold append_study.
  apply quiet_bind; [apply quiet_normalize_study | intros row; apply quiet_returned].
Qed.

(** The loop ends with [RequestException] only after a request that
    failed. *)
Lemma loop_raises_after_failure (remote : nat -> response) (disease : string)
    (rem : nat) :
  forall (n : nat) (tok : json) (acc : list trial_row),
    fst (fetch_loop remote disease rem n tok acc) = Raised RequestException ->
    exists p r,
      In (Request p r) (snd (fetch_loop remote disease rem n tok acc))
      /\ failed r = true.
Proof.
  induction rem as [| rem IH]; intros n tok acc; [discriminate |].
  simpl. destruct (remote n) as [| code | data] eqn:Hr; simpl.
  - intros _. do 2 eexists. split; [left; reflexivity | reflexivity].
  - intros _. do 2 eexists. split; [left; reflexivity | reflexivity].
  - pose proof (quiet_dict_get data "studies" (JArr [])) as Hq1.
    destruct (dict_get data "studies" (JArr [])) as [studies | e]; simpl;
      [| intros [= ->]; contradiction Hq1; reflexivity].
    destruct (truthy studies); simpl; [| discriminate].
    assert (Hq2 : quiet (items <- py_iter studies ;; process_page items acc)).
    { apply quiet_bind; [apply quiet_py_iter | intros items; apply quiet_process_page]. }
    destruct (items <- py_iter studies ;; process_page items acc) as [acc' | e]; simpl;
      [| intros [= ->]; contradiction Hq2; reflexivity].
    pose proof (quiet_dict_get data "nextPageToken" JNull) as Hq3.
    destruct (dict_get data "nextPageToken" JNull) as [t | e]; simpl;
      [| intros [= ->]; contradiction Hq3; reflexivity].
    destruct (truthy t); simpl; [| discriminate].
    specialize (IH (S n) t acc').
    destruct (fetch_loop remote disease rem (S n) t acc') as [res tr]. simpl in *.
    intros Hres. destruct (IH Hres) as (p & r & Hin & Hfail).
    exists p, r. split; [right; right; exact Hin | exact Hfail].
Qed.

(** The error report of a run stands for a failed request, and for nothing
    else. *)
Lemma st_error_iff_failed_request (remote : nat -> response) (disease : string)
    (max_pages : Z) :
  In StError (snd (fetch_all_vaccine_trials remote disease max_pages))
  <-> exists p r,
        In (Request p r) (snd (fetch_all_vaccine_trials remote disease max_pages))
        /\ failed r = true.
Proof.
  rewrite fetch_all_unfold.
  pose proof (loop_raises_after_failure remote disease (Z.to_nat max_pages) 0 JNull [])
    as Hconv.
  assert (Hquiet : forall rem n tok acc,
             ~ In StError (snd (fetch_loop remote disease rem n tok acc))).
  { induction rem as [| rem IH]; intros n tok acc; simpl; [tauto |].
    destruct (http_get (remote n)) as [data | e]; simpl;
      [| intros [H | []]; discriminate H].
    destruct (dict_get data "studies" (JArr [])) as [studies | e]; simpl;
      [| intros [H | []]; discriminate H].
    destruct (truthy studies); simpl; [| intros [H | []]; discriminate H].
    destruct (items <- py_iter studies ;; process_page items acc) as [acc' | e]; simpl;
      [| intros [H | []]; discriminate H].
    destruct (dict_get data "nextPageToken" JNull) as [t | e]; simpl;
      [| intros [H | []]; discriminate H].
    destruct (truthy t); simpl; [| intros [H | []]; discriminate H].
    specialize (IH (S n) t acc').
    destruct (fetch_loop remote disease rem (S n) t acc') as [res tr]. simpl in *.
    intros [H | [H | H]]; [discriminate H | discriminate H | exact (IH H)]. }
  pose proof (loop_failure_raises remote disease) as Hdir.
  specialize (Hquiet (Z.to_nat max_pages) 0 JNull []).
  destruct (fst (fetch_loop remote disease (Z.to_nat max_pages) 0 JNull []))
    as [rows | e] eqn:Hres.
  - simpl. split; [intros H; contradiction (Hquiet H) |].
    intros (p & r & Hin & Hfail).
    specialize (Hdir p r (Z.to_nat max_pages) 0 JNull [] Hin Hfail).
    rewrite Hres in Hdir. discriminate Hdir.
  - destruct e; simpl.
    + split.
      * intros _. destruct (Hconv eq_refl) as (p & r & Hin & Hfail).
        exists p, r. split; [apply in_or_app; left; exact Hin | exact Hfail].
      * intros _. apply in_or_app. right. left. reflexivity.
    + split; [intros H; contradiction (Hquiet H) |].
      intros (p & r & Hin & Hfail).
      specialize (Hdir p r (Z.to_nat max_pages) 0 JNull [] Hin Hfail).
      rewrite Hres in Hdir. discriminate Hdir.
    + split; [intros H; contradiction (Hquiet H) |].
      intros (p & r & Hin & Hfail).
      specialize (Hdir p r (Z.to_nat max_pages) 0 JNull [] Hin Hfail).
      rewrite Hres in Hdir. discriminate Hdir.
Qed.

(** C7, on the expected shape.  The detail fetcher returns the sentinel on
    every failed request, time-out, connection failure or error status
    alike, and on a failed request only; it never lets [RequestException]
    through; on a successful response the outcome is that of normalizing the
    body: the detail record when the body has the expected shape, and
    otherwise whatever the normalizer does, its exceptions included. *)
Theorem fetch_detail_sentinel (lookup : json -> response) (nct_id : json) :
  (failed (lookup nct_id) = true ->
   fetch_trial_details_with_vaccines lookup nct_id = Returned None)
  /\ fetch_trial_details_with_vaccines lookup nct_id <> Raised RequestException
  /\ (fetch_trial_details_with_vaccines lookup nct_id = Returned None ->
      failed (lookup nct_id) = true)
  /\ (forall data,
        lookup nct_id = Ok data ->
        fetch_trial_details_with_vaccines lookup nct_id
        = (detail <- normalize_detail data ;; Returned (Some detail)))
  /\ (forall data,
        lookup nct_id = Ok data ->
        study_ok data = true ->
        exists detail,
          normalize_detail data = Returned detail
          /\ fetch_trial_details_with_vaccines lookup nct_id = Returned (Some detail)).
Proof.
  unfold fetch_trial_details_with_vaccines. repeat split.
  - intros Hfail. destruct (lookup nct_id); [reflexivity | reflexivity | discriminate Hfail].
  - unfold try_except.
    destruct (data <- http_get (lookup nct_id) ;; _) as [d | []]; discriminate.
  - destruct (lookup nct_id) as [| code | data]; try reflexivity. simpl.
    pose proof (quiet_normalize_detail data) as Hq. unfold quiet in Hq.
    destruct (normalize_detail data) as [detail | []]; simpl; try discriminate.
    contradiction Hq. reflexivity.
  - intros data ->. simpl.
    pose proof (quiet_normalize_detail data) as Hq. unfold quiet in Hq.
    destruct (normalize_detail data) as [detail | []]; simpl; try reflexivity.
    contradiction Hq. reflexivity.
  - intros data -> Hok. destruct (normalize_detail_total data Hok) as [detail Hd].
    exists detail. split; [exact Hd |]. simpl. rewrite Hd. reflexivity.
Qed.

(** C7 as worded fails on a successful response whose body has [null] for
    its protocol section: the fetcher neither returns a detail record nor
    the sentinel, the [AttributeError] of the normalizer reaches the
    caller. *)
Lemma fetch_detail_raises_on_null_section :
  fetch_trial_details_with_vaccines (fun _ => Ok null_section_study)
    (JStr "NCT00000001")
  = Raised AttributeError.
Proof. reflexivity. Qed.

(** The scenario of the specification: an identifier the registry reports
    as not found. *)
Lemma detail_not_found_scenario :
  fetch_trial_details_with_vaccines not_found_lookup (JStr "NCT99999999")
  = Returned None.
Proof. reflexivity. Qed.

(* ================================================================= *)
(** ** Summary and detail of one raw trial object *)

(** Where both normalizers return, title, phases and sponsor agree, and so
    does the status as long as the detail's is a true value. *)
Lemma summary_detail_agree (s : json) (row : trial_row) (detail : trial_detail) :
  normalize_study s = Returned row ->
  normalize_detail s = Returned detail ->
  Title row = dTitle detail
  /\ Phase row = dPhase detail
  /\ Sponsor row = dSponsor detail
  /\ (truthy (dStatus detail) = true -> Status row = dStatus detail).
Proof.
  unfold normalize_study, normalize_detail. repeat next_read.
  intros [= <-] [= <-]. simpl. repeat split.
  match goal with
  | E1 : dict_get ?st "overallStatus" JNull = Returned ?a,
    E2 : dict_get ?st "overallStatus" (JStr "Unknown") = Returned ?b |- _ =>
      destruct st as [| | | | | items]; try discriminate E1;
      rewrite dict_get_obj in E1, E2;
      destruct (dict_lookup "overallStatus" items);
      injection E1 as <-; injection E2 as <-
  end.
  - intros Ht. unfold py_or. rewrite Ht. reflexivity.
  - intros _. reflexivity.
Qed.

(** C6, at a raw trial object whose overall status is present and empty, or
    present and null: both normalizers return, the summary says ["Unknown"]
    and the detail gives the raw value back. *)
Theorem summary_detail_status_differ :
  (exists row detail,
      normalize_study (status_study (JStr "")) = Returned row
      /\ normalize_detail (status_study (JStr "")) = Returned detail
      /\ Status row = JStr "Unknown"
      /\ dStatus detail = JStr ""
      /\ Status row <> dStatus detail)
  /\ (exists row detail,
        normalize_study (status_study JNull) = Returned row
        /\ normalize_detail (status_study JNull) = Returned detail
        /\ Status row = JStr "Unknown"
        /\ dStatus detail = JNull
        /\ Status row <> dStatus detail).
Proof.
  split; do 2 eexists; repeat split; try (vm_compute; reflexivity); discriminate.
Qed.

(* ================================================================= *)
(** ** The phase filter *)

Lemma prefix_append (a b : string) : String.prefix a (a ++ b)%string = true.
Proof.
  induction a as [| c a IH]; simpl.
  - destruct b; reflexivity.
  - rewrite IH. destruct (ascii_dec c c) as [_ | Hne]; [reflexivity |].
    contradiction Hne. reflexivity.
Qed.

Lemma contains_tail (t s : string) (c : ascii) :
  PyStr.contains t s = true -> PyStr.contains t (String c s) = true.
Proof. intros H. cbn [PyStr.contains]. rewrite H. apply orb_true_r. Qed.

Lemma contains_right (t a s : string) :
  PyStr.contains t s = true -> PyStr.contains t (a ++ s)%string = true.
Proof.
  intros H. induction a as [| c a IH]; [exact H |].
  simpl String.append. apply contains_tail. exact IH.
Qed.

Lemma contains_prefix (a b : string) : PyStr.contains a (a ++ b)%string = true.
Proof.
  destruct (a ++ b)%string eqn:E; cbn [PyStr.contains]; rewrite <- E;
    rewrite prefix_append; reflexivity.
Qed.

Lemma append_assoc (a b c : string) :
  ((a ++ b) ++ c)%string = (a ++ (b ++ c))%string.
Proof. induction a as [| x a IH]; simpl; [reflexivity | rewrite IH; reflexivity]. Qed.

(** Every token of a split occurs in the text that was split. *)
Lemma split_from_contains (sep s : string) :
  forall (skip : nat) (cur t : string),
    (skip <> 0 -> cur = EmptyString) ->
    In t (PyStr.split_from sep s skip cur) ->
    PyStr.contains t (cur ++ s)%string = true.
Proof.
  induction s as [| c s IH]; intros skip cur t Hskip Hin.
  - simpl in Hin. destruct Hin as [<- | []]. apply contains_prefix.
  - cbn [PyStr.split_from] in Hin. destruct skip as [| k].
    + destruct (String.prefix sep (String c s)).
      * destruct Hin as [<- | Hin]; [apply contains_prefix |].
        apply contains_right. apply contains_tail.
        apply (IH (String.length sep - 1) EmptyString t); [reflexivity | exact Hin].
      * specialize (IH 0 (cur ++ String c EmptyString)%string t).
        rewrite append_assoc in IH. apply IH; [intros H; contradiction H; reflexivity |].
        exact Hin.
    + rewrite (Hskip (Nat.neq_succ_0 k)) in *. simpl String.append.
      apply contains_tail. apply (IH k EmptyString t); [reflexivity | exact Hin].
Qed.

(** What the wording of the specification admits, the code admits. *)
Lemma phase_matches_spec_included (selected_phases : list string) (x : string) :
  phase_matches_spec selected_phases x = true ->
  phase_matches selected_phases x = true.
Proof.
  unfold phase_matches_spec, phase_matches. intros H.
  apply existsb_exists in H as (ph & Hsel & Htok).
  apply existsb_exists in Htok as (t & Hin & Heq).
  apply String.eqb_eq in Heq. subst t.
  apply existsb_exists. exists ph. split; [exact Hsel |].
  apply (split_from_contains ", " x 0 EmptyString ph);
    [intros H; contradiction H; reflexivity | exact Hin].
Qed.

(** C1, at a result set with an early-phase-1 trial and a phase-1 trial, the
    user having selected the label ["PHASE1"] that the multiselect offers:
    the filter of the code keeps both rows, while the only row one of whose
    tokens is equal to the label is the second. *)
Theorem phase_filter_matches_substring :
  exists row1 row2,
    process_page early_phase_studies [] = Returned [row1; row2]
    /\ Phase row1 = "EARLY_PHASE1"
    /\ Phase row2 = "PHASE1"
    /\ phase_options [row1; row2] = ["EARLY_PHASE1"; "PHASE1"]
    /\ phase_filter ["PHASE1"] [row1; row2] = [row1; row2]
    /\ phase_filter_spec ["PHASE1"] [row1; row2] = [row2].
Proof.
  do 2 eexists. split; [vm_compute; reflexivity |].
  repeat split; vm_compute; reflexivity.
Qed.

(* ================================================================= *)
(** ** The own-trials matching *)

(** C5, at a hit whose product is named by an arm group and by no
    intervention item: the product set of the normalizers holds the name and
    the matching of the specification's wording admits the hit, while the
    code, which reads the intervention items only, leaves it out.  This
    holds whatever the iteration order of the set. *)
Theorem own_trials_misses_arm_names (set_iter : str_set -> list string) :
  (forall s, Permutation (set_iter s) s) ->
  extract_vaccines (arms_of arm_only_hit) = Returned ["Acme-Vax"]
  /\ in_own_trials_spec set_iter "Acme-Vax" arm_only_hit = Returned true
  /\ own_trials set_iter "Acme-Vax" [arm_only_hit] = Returned [].
Proof.
  intros Hperm.
  assert (Hnil : set_iter [] = []).
  { apply Permutation_nil. apply Permutation_sym. apply Hperm. }
  assert (Hone : set_iter ["Acme-Vax"] = ["Acme-Vax"]).
  { apply Permutation_length_1_inv. apply Permutation_sym. apply Hperm. }
  split; [reflexivity |]. split.
  - vm_compute. vm_compute in Hone. rewrite Hone. reflexivity.
  - vm_compute. vm_compute in Hnil. rewrite Hnil. reflexivity.
Qed.

Lemma own_trials_misses_arm_names_witness :
  (forall s : str_set, Permutation s s)
  /\ in_own_trials_spec (fun s => s) "Acme-Vax" arm_only_hit = Returned true
  /\ own_trials (fun s => s) "Acme-Vax" [arm_only_hit] = Returned [].
Proof.
  split; [intros s; apply Permutation_refl |].
  apply (own_trials_misses_arm_names (fun s => s)).
  intros s. apply Permutation_refl.
Defined.

(* ================================================================= *)
(** ** The paginated fetcher: budget, tokens, order of the rows *)

Section MoreFetcherFacts.

Variable remote : nat -> response.
Variable disease : string.

Lemma loop_budget (rem : nat) :
  forall (n : nat) (tok : json) (acc : list trial_row),
    count_requests (snd (fetch_loop remote disease rem n tok acc)) <= rem
    /\ count_sleeps (snd (fetch_loop remote disease rem n tok acc))
       <= count_requests (snd (fetch_loop remote disease rem n tok acc)).
Proof.
  unfold count_requests, count_sleeps.
  induction rem as [| rem IH]; intros n tok acc; simpl; [lia |].
  destruct (http_get (remote n)) as [data | e]; simpl; [| lia].
  destruct (dict_get data "studies" (JArr [])) as [studies | e]; simpl; [| lia].
  destruct (truthy studies); simpl; [| lia].
  destruct (items <- py_iter studies ;; process_page items acc) as [acc' | e];
    simpl; [| lia].
  destruct (dict_get data "nextPageToken" JNull) as [t | e]; simpl; [| lia].
  destruct (truthy t); simpl; [| lia].
  specialize (IH (S n) t acc').
  destruct (fetch_loop remote disease rem (S n) t acc') as [res tr]. simpl in *. lia.
Qed.

Lemma loop_threaded (rem : nat) :
  forall (n : nat) (tok : json) (acc : list trial_row),
    threaded disease tok (requests_of (snd (fetch_loop remote disease rem n tok acc))).
Proof.
  induction rem as [| rem IH]; intros n tok acc; simpl; [exact I |].
  destruct (http_get (remote n)) as [data | e] eqn:Hget; simpl; [| tauto].
  destruct (dict_get data "studies" (JArr [])) as [studies | e]; simpl; [| tauto].
  destruct (truthy studies); simpl; [| tauto].
  destruct (items <- py_iter studies ;; process_page items acc) as [acc' | e];
    simpl; [| tauto].
  destruct (dict_get data "nextPageToken" JNull) as [t | e] eqn:Htok; simpl; [| tauto].
  destruct (truthy t); simpl; [| tauto].
  specialize (IH (S n) t acc').
  destruct (fetch_loop remote disease rem (S n) t acc') as [res tr]. simpl in *.
  split; [reflexivity |].
  destruct (remote n) as [| code | data']; try discriminate Hget.
  injection Hget as ->. simpl. rewrite Htok. exact IH.
Qed.

Lemma good_page_intro (r : response) (data studies : json) (rows : list trial_row) :
  r = Ok data ->
  dict_get data "studies" (JArr []) = Returned studies ->
  truthy studies = true ->
  (items <- py_iter studies ;; process_page items []) = Returned rows ->
  good_page r = true /\ rows_or_nil r = rows.
Proof.
  intros -> Hd Hst Hrows.
  assert (Hpage : page_rows (Ok data) = Returned rows).
  { unfold page_rows, studies_of. simpl. rewrite Hd. exact Hrows. }
  unfold good_page, has_studies, rows_or_nil, studies_of. rewrite Hpage. simpl.
  rewrite Hd, Hst. split; reflexivity.
Qed.

(** What the loop returns is what it had, then the rows of consecutive
    pages, each with records that normalize. *)
Lemma loop_rows (rem : nat) :
  forall (n : nat) (tok : json) (acc rows : list trial_row),
    fst (fetch_loop remote disease rem n tok acc) = Returned rows ->
    exists k,
      k <= rem
      /\ rows = acc ++ rows_of_pages remote n k
      /\ (forall i, i < k -> good_page (remote (n + i)) = true).
Proof.
  induction rem as [| rem IH]; intros n tok acc rows; simpl.
  - intros [= <-]. exists 0. simpl. rewrite app_nil_r.
    repeat split; [lia | intros i Hi; lia].
  - assert (Hzero : acc = rows ->
              exists k, k <= S rem /\ rows = acc ++ rows_of_pages remote n k
                        /\ (forall i, i < k -> good_page (remote (n + i)) = true)).
    { intros <-. exists 0. simpl. rewrite app_nil_r.
      repeat split; [lia | intros i Hi; lia]. }
    destruct (remote n) as [| code | data] eqn:Hr; simpl; try discriminate.
    destruct (dict_get data "studies" (JArr [])) as [studies | e] eqn:Hd; simpl;
      [| discriminate].
    destruct (truthy studies) eqn:Hst; simpl; [| intros [= H]; exact (Hzero H)].
    rewrite iter_process_app.
    destruct (items <- py_iter studies ;; process_page items []) as [page | e] eqn:Hpage;
      simpl; [| discriminate].
    destruct (good_page_intro (remote n) data studies page Hr Hd Hst Hpage)
      as [Hgood Hnil].
    assert (Hone : acc ++ page = rows ->
              exists k, k <= S rem /\ rows = acc ++ rows_of_pages remote n k
                        /\ (forall i, i < k -> good_page (remote (n + i)) = true)).
    { intros <-. exists 1. simpl. rewrite Hnil, app_nil_r.
      repeat split; [lia |]. intros i Hi. replace i with 0 by lia.
      rewrite Nat.add_0_r. exact Hgood. }
    destruct (dict_get data "nextPageToken" JNull) as [t | e]; simpl; [| discriminate].
    destruct (truthy t); simpl; [| intros [= H]; exact (Hone H)].
    specialize (IH (S n) t (acc ++ page) rows).
    destruct (fetch_loop remote disease rem (S n) t (acc ++ page)) as [res tr].
    simpl in *. intros Hres. destruct (IH Hres) as (k & Hk & Hrows & Hall).
    exists (S k). split; [lia |]. split.
    + simpl. rewrite Hnil, Hrows, <- app_assoc. reflexivity.
    + intros [| i] Hi.
      * rewrite Nat.add_0_r. exact Hgood.
      * replace (n + S i) with (S n + i) by lia. apply Hall. lia.
Qed.

Lemma rows_of_pages_length (bound : nat) :
  (forall i, length (rows_or_nil (remote i)) <= bound) ->
  forall n k, length (rows_of_pages remote n k) <= bound * k.
Proof.
  intros Hb n k. revert n. induction k as [| k IH]; intros n; simpl; [lia |].
  rewrite length_app. specialize (IH (S n)). specialize (Hb n). lia.
Qed.

(** What the function returns is what its loop returns, unless the loop
    raised the exception of a request. *)
Lemma run_returned (max_pages : Z) (rows : list trial_row) :
  fst (fetch_all_vaccine_trials remote disease max_pages) = Returned rows ->
  fst (fetch_loop remote disease (Z.to_nat max_pages) 0 JNull []) = Returned rows
  \/ rows = [].
Proof.
  rewrite fetch_all_unfold.
  destruct (fst (fetch_loop remote disease (Z.to_nat max_pages) 0 JNull []))
    as [rows' | []]; simpl; intros H; try discriminate H.
  - left. exact H.
  - right. injection H as <-. reflexivity.
Qed.

Lemma run_requests (max_pages : Z) :
  requests_of (snd (fetch_all_vaccine_trials remote disease max_pages))
  = requests_of (snd (fetch_loop remote disease (Z.to_nat max_pages) 0 JNull [])).
Proof.
  rewrite fetch_all_unfold.
  destruct (fst (fetch_loop remote disease (Z.to_nat max_pages) 0 JNull []))
    as [rows' | []]; simpl; try reflexivity.
  rewrite requests_of_app. simpl. apply app_nil_r.
Qed.

Lemma run_sleeps (max_pages : Z) :
  count_sleeps (snd (fetch_all_vaccine_trials remote disease max_pages))
  = count_sleeps (snd (fetch_loop remote disease (Z.to_nat max_pages) 0 JNull [])).
Proof.
  rewrite fetch_all_unfold.
  destruct (fst (fetch_loop remote disease (Z.to_nat max_pages) 0 JNull []))
    as [rows' | []]; simpl; try reflexivity.
  rewrite count_sleeps_app. unfold count_sleeps at 2. simpl. lia.
Qed.

Lemma loop_no_st_error (rem : nat) :
  forall (n : nat) (tok : json) (acc : list trial_row),
    ~ In StError (snd (fetch_loop remote disease rem n tok acc)).
Proof.
  induction rem as [| rem IH]; intros n tok acc; simpl; [tauto |].
  destruct (http_get (remote n)) as [data | e]; simpl;
    [| intros [H | []]; discriminate H].
  destruct (dict_get data "studies" (JArr [])) as [studies | e]; simpl;
    [| intros [H | []]; discriminate H].
  destruct (truthy studies); simpl; [| intros [H | []]; discriminate H].
  destruct (items <- py_iter studies ;; process_page items acc) as [acc' | e]; simpl;
    [| intros [H | []]; discriminate H].
  destruct (dict_get data "nextPageToken" JNull) as [t | e]; simpl;
    [| intros [H | []]; discriminate H].
  destruct (truthy t); simpl; [| intros [H | []]; discriminate H].
  specialize (IH (S n) t acc').
  destruct (fetch_loop remote disease rem (S n) t acc') as [res tr]. simpl in *.
  intros [H | [H | H]]; [discriminate H | discriminate H | exact (IH H)].
Qed.

Lemma run_request_count (max_pages : Z) :
  count_requests (snd (fetch_all_vaccine_trials remote disease max_pages))
  <= Z.to_nat max_pages.
Proof.
  destruct (loop_budget (Z.to_nat max_pages) 0 JNull []) as [Hreq _].
  unfold count_requests in *.
  fold (requests_of (snd (fetch_all_vaccine_trials remote disease max_pages))).
  rewrite run_requests. exact Hreq.
Qed.

Lemma run_quiet (max_pages : Z) :
  fst (fetch_all_vaccine_trials remote disease max_pages) <> Raised RequestException.
Proof.
  rewrite fetch_all_unfold.
  destruct (fst (fetch_loop remote disease (Z.to_nat max_pages) 0 JNull []))
    as [rows | []]; discriminate.
Qed.

Lemma run_error_empty (max_pages : Z) :
  In StError (snd (fetch_all_vaccine_trials remote disease max_pages)) ->
  fst (fetch_all_vaccine_trials remote disease max_pages) = Returned [].
Proof.
  rewrite fetch_all_unfold.
  pose proof (loop_no_st_error (Z.to_nat max_pages) 0 JNull []) as Hno.
  destruct (fst (fetch_loop remote disease (Z.to_nat max_pages) 0 JNull []))
    as [rows | []]; simpl; intros Hin; try reflexivity; contradiction (Hno Hin).
Qed.

End MoreFetcherFacts.

(** X1. A run never issues more requests than [max_pages], never sleeps
    more often than it issued requests, and with a budget of zero pages or
    fewer it returns the empty list without touching the registry. *)
Theorem requests_within_budget (remote : nat -> response) (disease : string)
    (max_pages : Z) :
  count_requests (snd (fetch_all_vaccine_trials remote disease max_pages))
  <= Z.to_nat max_pages
  /\ count_sleeps (snd (fetch_all_vaccine_trials remote disease max_pages))
     <= count_requests (snd (fetch_all_vaccine_trials remote disease max_pages))
  /\ ((max_pages <= 0)%Z ->
      fetch_all_vaccine_trials remote disease max_pages = (Returned [], [])).
Proof.
  destruct (loop_budget remote disease (Z.to_nat max_pages) 0 JNull []) as [Hreq Hsl].
  unfold count_requests in *. fold (requests_of (snd (fetch_all_vaccine_trials remote disease max_pages))).
  rewrite run_requests, run_sleeps. unfold requests_of.
  split; [exact Hreq |]. split; [exact Hsl |].
  intros Hle. rewrite fetch_all_unfold.
  replace (Z.to_nat max_pages) with 0 by lia. reflexivity.
Qed.

(** X2. The first request of a run carries no page token, and every later
    request carries the continuation token of the response before it; the
    condition, the intervention and the page size are the same throughout. *)
Theorem requests_carry_previous_token (remote : nat -> response)
    (disease : string) (max_pages : Z) :
  threaded disease JNull
    (requests_of (snd (fetch_all_vaccine_trials remote disease max_pages)))
  /\ (forall page_token,
        json_path ["pageToken"] (build_params disease page_token)
        = (if truthy page_token then Some page_token else None)
        /\ json_path ["query.cond"] (build_params disease page_token)
           = Some (JStr disease)
        /\ json_path ["query.intr"] (build_params disease page_token)
           = Some (JStr "Vaccine")
        /\ json_path ["pageSize"] (build_params disease page_token)
           = Some (JNum 100)).
Proof.
  split.
  - rewrite run_requests. apply loop_threaded.
  - intros page_token. unfold build_params.
    destruct (truthy page_token); repeat split; reflexivity.
Qed.

(** X3. The function never lets [RequestException] through, and it reports
    an error exactly when one of its requests failed: an empty result
    without report is a registry without results, not a failure. *)
Theorem error_reported_exactly_on_failure (remote : nat -> response)
    (disease : string) (max_pages : Z) :
  fst (fetch_all_vaccine_trials remote disease max_pages) <> Raised RequestException
  /\ (In StError (snd (fetch_all_vaccine_trials remote disease max_pages))
      <-> exists p r,
            In (Request p r) (snd (fetch_all_vaccine_trials remote disease max_pages))
            /\ failed r = true).
Proof.
  split; [| apply st_error_iff_failed_request].
  rewrite fetch_all_unfold.
  destruct (fst (fetch_loop remote disease (Z.to_nat max_pages) 0 JNull []))
    as [rows | []]; discriminate.
Qed.

(** X4. Whatever a run returns is the rows of the first [k] pages of the
    registry, in the order of the registry, for some [k] within the budget:
    no page is skipped, repeated or reordered, and nothing is removed. *)
Theorem rows_in_registry_order (remote : nat -> response) (disease : string)
    (max_pages : Z) (rows : list trial_row) :
  fst (fetch_all_vaccine_trials remote disease max_pages) = Returned rows ->
  exists k,
    k <= Z.to_nat max_pages
    /\ rows = rows_of_pages remote 0 k
    /\ (forall i, i < k -> good_page (remote i) = true).
Proof.
  intros Hres. destruct (run_returned remote disease max_pages rows Hres) as [Hloop | ->].
  - destruct (loop_rows remote disease _ _ _ _ _ Hloop) as (k & Hk & Hrows & Hall).
    exists k. repeat split; assumption.
  - exists 0. repeat split; [lia |]. intros i Hi. lia.
Qed.

Lemma rows_in_registry_order_witness :
  exists rows,
    fst (fetch_all_vaccine_trials empty_page_remote "RSV" 10) = Returned rows
    /\ length rows = 2
    /\ exists k,
         k <= 10
         /\ rows = rows_of_pages empty_page_remote 0 k
         /\ (forall i, i < k -> good_page (empty_page_remote i) = true).
Proof.
  eexists. split; [vm_compute; reflexivity |]. split; [reflexivity |].
  apply (rows_in_registry_order empty_page_remote "RSV" 10).
  vm_compute. reflexivity.
Defined.

(** X5. Against a registry that honours the page size, no page holding
    more than a hundred records, a run returns at most a hundred rows per
    page of its budget: a thousand for the disease search. *)
Theorem rows_bounded_by_budget (remote : nat -> response) (disease : string)
    (max_pages : Z) (rows : list trial_row) :
  (forall i, length (rows_or_nil (remote i)) <= 100) ->
  fst (fetch_all_vaccine_trials remote disease max_pages) = Returned rows ->
  length rows <= 100 * Z.to_nat max_pages.
Proof.
  intros Hpage Hres.
  destruct (run_returned remote disease max_pages rows Hres) as [Hloop | ->];
    [| simpl; lia].
  destruct (loop_rows remote disease _ _ _ _ _ Hloop) as (k & Hk & -> & _).
  simpl. pose proof (rows_of_pages_length remote 100 Hpage 0 k). nia.
Qed.

Lemma rows_bounded_by_budget_witness :
  (forall i, length (rows_or_nil (endless_remote i)) <= 100)
  /\ exists rows,
       fst (fetch_all_vaccine_trials endless_remote "RSV" 10) = Returned rows
       /\ length rows <= 1000.
Proof.
  assert (Hpage : forall i, length (rows_or_nil (endless_remote i)) <= 100).
  { intros i. vm_compute. lia. }
  split; [exact Hpage |].
  eexists. split; [vm_compute; reflexivity |].
  apply (rows_bounded_by_budget endless_remote "RSV" 10 _ Hpage).
  vm_compute. reflexivity.
Defined.

(* ================================================================= *)
(** ** Rows: titles, statuses, product texts *)

Lemma at_path_step (v x : json) (k k' : string) (ks : list string) :
  dict_get v k (JObj []) = Returned x ->
  at_path (k :: k' :: ks) v = at_path (k' :: ks) x.
Proof.
  destruct v as [| | | | | items]; try discriminate.
  rewrite dict_get_obj. unfold at_path. cbn [json_path].
  destruct (dict_lookup k items) as [v' |]; intros [= <-]; reflexivity.
Qed.

Lemma at_path_last (v x : json) (k : string) :
  dict_get v k JNull = Returned x -> at_path [k] v = x.
Proof.
  destruct v as [| | | | | items]; try discriminate.
  rewrite dict_get_obj. unfold at_path. cbn [json_path].
  destruct (dict_lookup k items) as [v' |]; intros [= <-]; reflexivity.
Qed.

Lemma at_path_or_step (d v x : json) (k k' : string) (ks : list string) :
  dict_get v k (JObj []) = Returned x ->
  at_path_or d (k :: k' :: ks) v = at_path_or d (k' :: ks) x.
Proof.
  destruct v as [| | | | | items]; try discriminate.
  rewrite dict_get_obj. unfold at_path_or. cbn [json_path].
  destruct (dict_lookup k items) as [v' |]; intros [= <-]; reflexivity.
Qed.

Lemma at_path_or_last (d v x : json) (k : string) :
  dict_get v k d = Returned x -> at_path_or d [k] v = x.
Proof.
  destruct v as [| | | | | items]; try discriminate.
  rewrite dict_get_obj. unfold at_path_or. cbn [json_path].
  destruct (dict_lookup k items) as [v' |]; intros [= <-]; reflexivity.
Qed.

Lemma py_or_truthy (a b : json) : truthy b = true -> truthy (py_or a b) = true.
Proof. intros Hb. unfold py_or. destruct (truthy a) eqn:Ha; assumption. Qed.

(** The reads behind the title, the status and the product text of a row. *)
Lemma normalize_study_texts (s : json) (row : trial_row) :
  normalize_study s = Returned row ->
  exists proto ident status arms vaccines brief official overall,
    dict_get s "protocolSection" (JObj []) = Returned proto
    /\ dict_get proto "identificationModule" (JObj []) = Returned ident
    /\ dict_get ident "briefTitle" JNull = Returned brief
    /\ dict_get ident "officialTitle" JNull = Returned official
    /\ Title row = py_or brief (py_or official (JStr "No title"))
    /\ dict_get proto "statusModule" (JObj []) = Returned status
    /\ dict_get status "overallStatus" JNull = Returned overall
    /\ Status row = py_or overall (JStr "Unknown")
    /\ dict_get proto "armsInterventionsModule" (JObj []) = Returned arms
    /\ extract_vaccines arms = Returned vaccines
    /\ Vaccines row = products_text vaccines.
Proof.
  unfold normalize_study. repeat next_read. intros [= <-]. simpl.
  do 8 eexists. repeat split; eassumption.
Qed.

(** X6. The title of a row is the brief title when that is a true value,
    else the official title when that is one, else ["No title"]; the status
    is the overall status when that is a true value, else ["Unknown"].
    Neither is ever null or empty. *)
Theorem title_and_status_fallbacks (s : json) (row : trial_row) :
  normalize_study s = Returned row ->
  Title row = py_or (at_path brief_title_path s)
                    (py_or (at_path official_title_path s) (JStr "No title"))
  /\ Status row = py_or (at_path overall_status_path s) (JStr "Unknown")
  /\ truthy (Title row) = true
  /\ truthy (Status row) = true.
Proof.
  intros Hrow.
  destruct (normalize_study_texts s row Hrow)
    as (proto & ident & status & arms & vaccines & brief & official & overall
        & Hproto & Hident & Hbrief & Hofficial & Htitle & Hstatus & Hoverall
        & Hst & _).
  assert (Hb : at_path brief_title_path s = brief).
  { unfold brief_title_path.
    rewrite (at_path_step _ _ _ _ _ Hproto), (at_path_step _ _ _ _ _ Hident).
    apply at_path_last. exact Hbrief. }
  assert (Ho : at_path official_title_path s = official).
  { unfold official_title_path.
    rewrite (at_path_step _ _ _ _ _ Hproto), (at_path_step _ _ _ _ _ Hident).
    apply at_path_last. exact Hofficial. }
  assert (Hs : at_path overall_status_path s = overall).
  { unfold overall_status_path.
    rewrite (at_path_step _ _ _ _ _ Hproto), (at_path_step _ _ _ _ _ Hstatus).
    apply at_path_last. exact Hoverall. }
  rewrite Hb, Ho, Hs, Htitle, Hst.
  repeat split; repeat apply py_or_truthy; reflexivity.
Qed.

Lemma title_and_status_fallbacks_witness :
  exists row,
    normalize_study (JObj [("protocolSection",
       JObj [("identificationModule",
              JObj [("briefTitle", JStr ""); ("officialTitle", JStr "Official")])])])
    = Returned row
    /\ Title row = JStr "Official"
    /\ Status row = JStr "Unknown".
Proof.
  eexists. split; [vm_compute; reflexivity |].
  destruct (title_and_status_fallbacks
              (JObj [("protocolSection",
                 JObj [("identificationModule",
                        JObj [("briefTitle", JStr ""); ("officialTitle", JStr "Official")])])])
              _ eq_refl) as (Ht & Hs & _).
  split; [exact Ht | exact Hs].
Defined.

(* ----------------------------------------------------------------- *)
(** *** Trimming *)

Lemma lstrip_head (s : string) : head_not_blank (PyStr.lstrip s).
Proof.
  induction s as [| c s IH]; simpl; [exact I |].
  destruct (PyStr.is_space c) eqn:Hc; [exact IH | exact Hc].
Qed.

Lemma lstrip_fixed (s : string) : head_not_blank s -> PyStr.lstrip s = s.
Proof. destruct s as [| c s]; simpl; [reflexivity | intros ->; reflexivity]. Qed.

Lemma rstrip_head (s : string) : head_not_blank s -> head_not_blank (PyStr.rstrip s).
Proof.
  destruct s as [| c s]; simpl; [trivial |]. intros Hc.
  destruct (PyStr.rstrip s); [rewrite Hc |]; exact Hc.
Qed.

Lemma rstrip_idempotent (s : string) : PyStr.rstrip (PyStr.rstrip s) = PyStr.rstrip s.
Proof.
  induction s as [| c s IH]; [reflexivity |].
  cbn [PyStr.rstrip]. destruct (PyStr.rstrip s) as [| d r] eqn:Hr.
  - destruct (PyStr.is_space c) eqn:Hc; [reflexivity |].
    cbn [PyStr.rstrip]. rewrite Hc. reflexivity.
  - cbn [PyStr.rstrip]. cbn [PyStr.rstrip] in IH. rewrite IH. reflexivity.
Qed.

Lemma strip_trimmed (s : string) : trimmed (PyStr.strip s).
Proof.
  unfold trimmed, PyStr.strip.
  rewrite (lstrip_fixed (PyStr.rstrip (PyStr.lstrip s))).
  - apply rstrip_idempotent.
  - apply rstrip_head. apply lstrip_head.
Qed.

(* ----------------------------------------------------------------- *)
(** *** The product set *)

Lemma set_mem_In (x : string) (s : str_set) : set_mem x s = true <-> In x s.
Proof.
  unfold set_mem. rewrite existsb_exists. split.
  - intros (y & Hin & Heq). apply String.eqb_eq in Heq. subst y. exact Hin.
  - intros Hin. exists x. split; [exact Hin | apply String.eqb_refl].
Qed.

Lemma set_add_In (x y : string) (s : str_set) :
  In y (set_add x s) <-> y = x \/ In y s.
Proof.
  unfold set_add. destruct (set_mem x s) eqn:Hmem.
  - apply set_mem_In in Hmem. split; [tauto |]. intros [-> | H]; assumption.
  - rewrite in_app_iff. simpl. split; [intros [H | [H | []]]; auto | intros [-> | H]; auto].
Qed.

Lemma set_add_NoDup (x : string) (s : str_set) : NoDup s -> NoDup (set_add x s).
Proof.
  intros Hs. unfold set_add. destruct (set_mem x s) eqn:Hmem; [exact Hs |].
  assert (Hnot : ~ In x s).
  { intros Hin. apply set_mem_In in Hin. rewrite Hin in Hmem. discriminate Hmem. }
  clear Hmem. induction Hs as [| y s Hy Hs IH]; simpl.
  - constructor; [intros [] | constructor].
  - constructor.
    + rewrite in_app_iff. simpl. intros [H | [H | []]]; [exact (Hy H) |].
      apply Hnot. left. symmetry. exact H.
    + apply IH. intros H. apply Hnot. right. exact H.
Qed.

(** A property of the accumulator that every step keeps holds at the end
    of the loop. *)
Lemma for_each_invariant {A S : Type} (P : S -> Prop) (f : S -> A -> result S)
    (xs : list A) :
  (forall acc x acc', P acc -> f acc x = Returned acc' -> P acc') ->
  forall acc acc', P acc -> for_each f xs acc = Returned acc' -> P acc'.
Proof.
  intros Hstep. induction xs as [| x xs IH]; intros acc acc' Hacc; simpl.
  - intros [= <-]. exact Hacc.
  - destruct (f acc x) as [acc1 |] eqn:H1; simpl; [| discriminate].
    apply IH. eapply Hstep; eassumption.
Qed.

Lemma clean_set_add (name : string) (s : str_set) :
  clean_set s -> clean_set (set_add (PyStr.strip name) s).
Proof.
  intros [Hnd Htr]. split; [apply set_add_NoDup; exact Hnd |].
  rewrite Forall_forall in *. intros y Hy. apply set_add_In in Hy as [-> | Hy];
    [apply strip_trimmed | apply Htr; exact Hy].
Qed.

Lemma add_intervention_clean (vaccines vaccines' : str_set) (item : json) :
  clean_set vaccines ->
  add_intervention vaccines item = Returned vaccines' ->
  clean_set vaccines'.
Proof.
  intros Hc. unfold add_intervention.
  destruct (dict_get item "name" JNull) as [name |]; simpl; [| discriminate].
  destruct (truthy name); [| intros [= <-]; exact Hc].
  destruct name; simpl; try discriminate. intros [= <-]. apply clean_set_add. exact Hc.
Qed.

Lemma add_arm_clean (vaccines vaccines' : str_set) (arm : json) :
  clean_set vaccines ->
  add_arm vaccines arm = Returned vaccines' ->
  clean_set vaccines'.
Proof.
  intros Hc. unfold add_arm.
  destruct (dict_get arm "interventionNames" (JArr [])) as [names_v |]; simpl;
    [| discriminate].
  destruct (py_iter names_v) as [names |]; simpl; [| discriminate].
  apply (for_each_invariant clean_set); [| exact Hc].
  intros acc name acc' Hacc. unfold add_arm_name.
  destruct name; simpl; try discriminate. intros [= <-]. apply clean_set_add. exact Hacc.
Qed.

Lemma extract_vaccines_clean (arms : json) (vaccines : str_set) :
  extract_vaccines arms = Returned vaccines -> clean_set vaccines.
Proof.
  unfold extract_vaccines, interventions_loop, arm_groups_loop.
  destruct (dict_get arms "interventions" (JArr [])) as [items_v |]; simpl;
    [| discriminate].
  destruct (py_iter items_v) as [items |]; simpl; [| discriminate].
  destruct (for_each add_intervention items []) as [v1 |] eqn:H1; simpl;
    [| discriminate].
  assert (Hv1 : clean_set v1).
  { apply (for_each_invariant clean_set add_intervention items) with (acc := [])
      (acc' := v1); [| split; constructor | exact H1].
    intros acc x acc' Hacc Hstep. eapply add_intervention_clean; eassumption. }
  destruct (dict_get arms "armGroups" (JArr [])) as [groups_v |]; simpl;
    [| discriminate].
  destruct (py_iter groups_v) as [groups |]; simpl; [| discriminate].
  apply (for_each_invariant clean_set); [| exact Hv1].
  intros acc x acc' Hacc Hstep. eapply add_arm_clean; eassumption.
Qed.

(* ----------------------------------------------------------------- *)
(** *** Sorting *)

Lemma leb_refl (a : string) : String.leb a a = true.
Proof. destruct (String.leb_total a a); assumption. Qed.

Lemma leb_cases (a b : string) :
  String.leb a b = true <-> a = b \/ OrderedTypeEx.String_as_OT.lt a b.
Proof.
  unfold String.leb. split.
  - destruct (String.compare a b) eqn:Hc; try discriminate; intros _.
    + left. apply OrderedTypeEx.String_as_OT.cmp_eq. exact Hc.
    + right. apply OrderedTypeEx.String_as_OT.cmp_lt. exact Hc.
  - intros [-> | Hlt].
    + assert (H : String.compare b b = Eq)
        by (apply OrderedTypeEx.String_as_OT.cmp_eq; reflexivity).
      rewrite H. reflexivity.
    + apply OrderedTypeEx.String_as_OT.cmp_lt in Hlt.
      unfold OrderedTypeEx.String_as_OT.cmp in Hlt. rewrite Hlt. reflexivity.
Qed.

Lemma leb_trans (a b c : string) :
  String.leb a b = true -> String.leb b c = true -> String.leb a c = true.
Proof.
  rewrite !leb_cases. intros [-> | Hab] [-> | Hbc]; auto.
  right. eapply OrderedTypeEx.String_as_OT.lt_trans; eassumption.
Qed.

Lemma leb_false (a b : string) : String.leb a b = false -> String.leb b a = true.
Proof.
  intros H. destruct (String.leb_total a b) as [H' | H']; [| exact H'].
  rewrite H' in H. discriminate H.
Qed.

(** Inserting two texts gives the same list in either order. *)
Lemma insert_sorted_comm (x y : string) (l : list string) :
  PyStr.insert_sorted x (PyStr.insert_sorted y l)
  = PyStr.insert_sorted y (PyStr.insert_sorted x l).
Proof.
  induction l as [| z l IH]; simpl.
  - destruct (String.leb x y) eqn:Hxy, (String.leb y x) eqn:Hyx; try reflexivity.
    + rewrite (String.leb_antisym x y Hxy Hyx). reflexivity.
    + apply leb_false in Hxy. rewrite Hxy in Hyx. discriminate Hyx.
  - destruct (String.leb y z) eqn:Hyz, (String.leb x z) eqn:Hxz; simpl.
    + destruct (String.leb x y) eqn:Hxy, (String.leb y x) eqn:Hyx;
        rewrite ?Hxz, ?Hyz; try reflexivity.
      * rewrite (String.leb_antisym x y Hxy Hyx). reflexivity.
      * apply leb_false in Hxy. rewrite Hxy in Hyx. discriminate Hyx.
    + destruct (String.leb x y) eqn:Hxy.
      * rewrite (leb_trans x y z Hxy Hyz) in Hxz. discriminate Hxz.
      * rewrite Hxz, Hyz. reflexivity.
    + destruct (String.leb y x) eqn:Hyx.
      * rewrite (leb_trans y x z Hyx Hxz) in Hyz. discriminate Hyz.
      * rewrite Hxz, Hyz. reflexivity.
    + rewrite Hxz, Hyz, IH. reflexivity.
Qed.

(** [sorted] does not depend on the order of what it is given. *)
Lemma sorted_permutation (l l' : list string) :
  Permutation l l' -> PyStr.sorted l = PyStr.sorted l'.
Proof.
  induction 1 as [| x l l' _ IH | x y l | l l' l'' _ IH1 _ IH2]; simpl.
  - reflexivity.
  - rewrite IH. reflexivity.
  - apply insert_sorted_comm.
  - rewrite IH1. exact IH2.
Qed.

Lemma insert_sorted_perm (x : string) (l : list string) :
  Permutation (PyStr.insert_sorted x l) (x :: l).
Proof.
  induction l as [| y l IH]; simpl; [reflexivity |].
  destruct (String.leb x y); [reflexivity |].
  rewrite IH. apply perm_swap.
Qed.

Lemma sorted_perm (l : list string) : Permutation (PyStr.sorted l) l.
Proof.
  induction l as [| x l IH]; simpl; [reflexivity |].
  rewrite insert_sorted_perm. constructor. exact IH.
Qed.

Lemma insert_sorted_ordered (x : string) (l : list string) :
  Sorted.Sorted str_le l -> Sorted.Sorted str_le (PyStr.insert_sorted x l).
Proof.
  induction l as [| y l IH]; simpl; intros Hl.
  - repeat constructor.
  - destruct (String.leb x y) eqn:Hxy.
    + constructor; [exact Hl | constructor; exact Hxy].
    + apply Sorted.Sorted_inv in Hl as [Hl Hhd]. constructor; [apply IH; exact Hl |].
      destruct l as [| z l]; simpl.
      * constructor. apply leb_false. exact Hxy.
      * destruct (String.leb x z); constructor;
          [apply leb_false; exact Hxy | inversion Hhd; assumption].
Qed.

Lemma sorted_ordered (l : list string) : Sorted.Sorted str_le (PyStr.sorted l).
Proof.
  induction l as [| x l IH]; simpl; [constructor | apply insert_sorted_ordered; exact IH].
Qed.

(* ----------------------------------------------------------------- *)
(** *** The product text *)

Lemma products_text_same_members (vs vs' : str_set) :
  NoDup vs -> NoDup vs' ->
  (forall x, In x vs <-> In x vs') ->
  products_text vs = products_text vs'.
Proof.
  intros Hnd Hnd' Hsame.
  assert (Hperm : Permutation vs vs') by (apply NoDup_Permutation; assumption).
  unfold products_text. destruct vs as [| v vs], vs' as [| v' vs'].
  - reflexivity.
  - apply Permutation_nil in Hperm. discriminate Hperm.
  - apply Permutation_sym, Permutation_nil in Hperm. discriminate Hperm.
  - rewrite (sorted_permutation _ _ Hperm). reflexivity.
Qed.

Lemma arms_of_read (s proto arms : json) :
  dict_get s "protocolSection" (JObj []) = Returned proto ->
  dict_get proto "armsInterventionsModule" (JObj []) = Returned arms ->
  arms_of s = arms.
Proof.
  intros Hproto Harms.
  destruct s as [| | | | | items]; try discriminate Hproto.
  destruct proto as [| | | | | pitems]; try discriminate Harms.
  rewrite dict_get_obj in Hproto, Harms. unfold arms_of. cbn [json_path].
  destruct (dict_lookup "protocolSection" items) as [p |].
  - injection Hproto as ->. destruct (dict_lookup "armsInterventionsModule" pitems);
      injection Harms as <-; reflexivity.
  - injection Hproto as <-. simpl in Harms. injection Harms as <-. reflexivity.
Qed.

Lemma normalize_study_products (s : json) (row : trial_row) :
  normalize_study s = Returned row ->
  exists vaccines,
    extract_vaccines (arms_of s) = Returned vaccines
    /\ Vaccines row = products_text vaccines.
Proof.
  intros Hrow.
  destruct (normalize_study_texts s row Hrow)
    as (proto & ident & status & arms & vaccines & brief & official & overall
        & Hproto & _ & _ & _ & _ & _ & _ & _ & Harms & Hvac & Htext).
  exists vaccines. rewrite (arms_of_read s proto arms Hproto Harms).
  split; assumption.
Qed.

(* ----------------------------------------------------------------- *)
(** *** The members of the product set *)

(** The members after a loop each step of which adds the trimmed names of
    its element: those before, and the trimmed names of the elements. *)
Lemma for_each_members {A : Type} (f : str_set -> A -> result str_set)
    (names : A -> list string) (xs : list A) :
  (forall acc x acc',
      f acc x = Returned acc' ->
      forall v, In v acc' <-> In v acc \/ exists n, In n (names x) /\ v = PyStr.strip n) ->
  forall acc acc',
    for_each f xs acc = Returned acc' ->
    forall v,
      In v acc' <-> In v acc \/ exists n, In n (flat_map names xs) /\ v = PyStr.strip n.
Proof.
  intros Hstep. induction xs as [| x xs IH]; intros acc acc'; simpl.
  - intros [= <-] v. split; [tauto | intros [H | (n & [] & _)]; exact H].
  - destruct (f acc x) as [acc1 |] eqn:H1; simpl; [| discriminate].
    intros Hrest v. rewrite (IH _ _ Hrest v), (Hstep _ _ _ H1 v). split.
    + intros [[H | (n & Hn & Hv)] | (n & Hn & Hv)]; [tauto | right | right];
        exists n; (split; [apply in_or_app | exact Hv]); [left | right]; exact Hn.
    + intros [H | (n & Hn & Hv)]; [tauto |].
      apply in_app_or in Hn as [Hn | Hn]; [left; right | right];
        exists n; split; assumption.
Qed.

Lemma add_intervention_members (vaccines vaccines' : str_set) (item : json) :
  add_intervention vaccines item = Returned vaccines' ->
  forall v,
    In v vaccines'
    <-> In v vaccines \/ exists n, In n (named item) /\ v = PyStr.strip n.
Proof.
  unfold add_intervention, named.
  destruct item as [| | | | | kvs]; try discriminate.
  rewrite dict_get_obj. cbn [bind json_path].
  assert (Hsame : forall acc : str_set, forall v,
             In v acc <-> In v acc \/ exists n : string, In n (@nil string) /\ v = PyStr.strip n).
  { intros acc v. split; [tauto | intros [H | (n & [] & _)]; exact H]. }
  destruct (dict_lookup "name" kvs) as [name |]; [| intros [= <-]; apply Hsame].
  destruct name as [| b | z | n | l | o]; cbn [truthy];
    try (intros [= <-]; apply Hsame);
    try (destruct b; [discriminate | intros [= <-]; apply Hsame]);
    try (destruct (negb (z =? 0)%Z); [discriminate | intros [= <-]; apply Hsame]);
    try (destruct l; [intros [= <-]; apply Hsame | discriminate]);
    try (destruct o; [intros [= <-]; apply Hsame | discriminate]).
  destruct (String.eqb n EmptyString); cbn [negb]; [intros [= <-]; apply Hsame |].
  simpl. intros [= <-] v. rewrite set_add_In. split.
  - intros [-> | H]; [right; exists n; split; [left; reflexivity | reflexivity] | tauto].
  - intros [H | (m & [<- | []] & ->)]; tauto.
Qed.

Lemma add_arm_name_members (vaccines vaccines' : str_set) (name : json) :
  add_arm_name vaccines name = Returned vaccines' ->
  forall v,
    In v vaccines'
    <-> In v vaccines \/ exists n, In n (text_of name) /\ v = PyStr.strip n.
Proof.
  unfold add_arm_name. destruct name as [| | | s | |]; simpl; try discriminate.
  intros [= <-] v. rewrite set_add_In. split.
  - intros [-> | H]; [right; exists s; split; [left; reflexivity | reflexivity] | tauto].
  - intros [H | (m & [<- | []] & ->)]; tauto.
Qed.

Lemma elements_iter (v : json) (l : list json) : py_iter v = Returned l -> elements v = l.
Proof. intros H. unfold elements. rewrite H. reflexivity. Qed.

Lemma add_arm_members (vaccines vaccines' : str_set) (arm : json) :
  add_arm vaccines arm = Returned vaccines' ->
  forall v,
    In v vaccines'
    <-> In v vaccines \/ exists n, In n (names_of_arm arm) /\ v = PyStr.strip n.
Proof.
  unfold add_arm, names_of_arm.
  destruct (dict_get arm "interventionNames" (JArr [])) as [names_v |] eqn:Hget;
    cbn [bind]; [| discriminate].
  destruct (py_iter names_v) as [names |] eqn:Hiter; cbn [bind]; [| discriminate].
  rewrite (at_path_or_last _ _ _ _ Hget), (elements_iter _ _ Hiter).
  apply for_each_members. intros acc x acc'. apply add_arm_name_members.
Qed.

Lemma extract_vaccines_members (arms : json) (vaccines : str_set) :
  extract_vaccines arms = Returned vaccines ->
  forall v,
    In v vaccines
    <-> exists name, In name (item_names arms ++ arm_names arms) /\ v = PyStr.strip name.
Proof.
  unfold extract_vaccines, interventions_loop, arm_groups_loop, item_names, arm_names.
  destruct (dict_get arms "interventions" (JArr [])) as [items_v |] eqn:Hitems;
    cbn [bind]; [| discriminate].
  destruct (py_iter items_v) as [items |] eqn:Hiter; cbn [bind]; [| discriminate].
  destruct (for_each add_intervention items []) as [v1 |] eqn:H1; cbn [bind];
    [| discriminate].
  destruct (dict_get arms "armGroups" (JArr [])) as [groups_v |] eqn:Hgroups;
    cbn [bind]; [| discriminate].
  destruct (py_iter groups_v) as [groups |] eqn:Hgiter; cbn [bind]; [| discriminate].
  intros H2 v.
  rewrite (at_path_or_last _ _ _ _ Hitems), (elements_iter _ _ Hiter),
    (at_path_or_last _ _ _ _ Hgroups), (elements_iter _ _ Hgiter).
  rewrite (for_each_members add_arm names_of_arm groups
             (fun acc x acc' => add_arm_members acc acc' x) _ _ H2 v).
  rewrite (for_each_members add_intervention named items
             (fun acc x acc' => add_intervention_members acc acc' x) _ _ H1 v).
  split.
  - intros [[[] | (n & Hn & Hv)] | (n & Hn & Hv)]; exists n;
      (split; [apply in_or_app | exact Hv]); [left | right]; exact Hn.
  - intros (n & Hn & Hv). apply in_app_or in Hn as [Hn | Hn];
      [left; right | right]; exists n; split; assumption.
Qed.

(** X7. The product set of a trial holds exactly the names its arms module
    lists, trimmed of blanks at both ends: those of the intervention items
    whose name is a text and not empty, and those of the arm groups; it
    holds each of them once, and sorting it for display keeps exactly these
    names and puts them in code-point order. *)
Theorem product_set_is_clean (arms : json) (vaccines : str_set) :
  extract_vaccines arms = Returned vaccines ->
  (forall v,
      In v vaccines
      <-> exists name,
            In name (item_names arms ++ arm_names arms) /\ v = PyStr.strip name)
  /\ NoDup vaccines
  /\ (forall v, In v vaccines -> PyStr.strip v = v)
  /\ Sorted.Sorted str_le (PyStr.sorted vaccines)
  /\ Permutation (PyStr.sorted vaccines) vaccines.
Proof.
  intros H. destruct (extract_vaccines_clean arms vaccines H) as [Hnd Htr].
  split; [apply extract_vaccines_members; exact H |].
  split; [exact Hnd |]. split.
  - rewrite Forall_forall in Htr. exact Htr.
  - split; [apply sorted_ordered | apply sorted_perm].
Qed.

Lemma product_set_is_clean_witness :
  extract_vaccines sample_arms = Returned ["Acme-Vax"; "Adjuvant"; "Placebo"]
  /\ item_names sample_arms = [" Acme-Vax "; "Adjuvant"]
  /\ arm_names sample_arms = ["Acme-Vax"; "Placebo "]
  /\ (forall v,
        In v ["Acme-Vax"; "Adjuvant"; "Placebo"]
        <-> exists name,
              In name (item_names sample_arms ++ arm_names sample_arms)
              /\ v = PyStr.strip name)
  /\ NoDup ["Acme-Vax"; "Adjuvant"; "Placebo"].
Proof.
  split; [reflexivity |]. split; [reflexivity |]. split; [reflexivity |].
  destruct (product_set_is_clean sample_arms ["Acme-Vax"; "Adjuvant"; "Placebo"] eq_refl)
    as (Hmem & Hnd & _).
  split; [exact Hmem | exact Hnd].
Defined.

(** X8. The ["Vaccines"] text of a row depends on the members of the
    product set only: two trials whose sets hold the same names get the same
    text, in whatever order and from whichever of the two sources the names
    were read. *)
Theorem vaccines_text_order_independent (s s' : json) (row row' : trial_row)
    (vaccines vaccines' : str_set) :
  normalize_study s = Returned row ->
  normalize_study s' = Returned row' ->
  extract_vaccines (arms_of s) = Returned vaccines ->
  extract_vaccines (arms_of s') = Returned vaccines' ->
  (forall x, In x vaccines <-> In x vaccines') ->
  Vaccines row = Vaccines row'.
Proof.
  intros Hrow Hrow' Hv Hv' Hsame.
  destruct (normalize_study_products s row Hrow) as (vs & Hvs & ->).
  destruct (normalize_study_products s' row' Hrow') as (vs' & Hvs' & ->).
  rewrite Hv in Hvs. injection Hvs as <-.
  rewrite Hv' in Hvs'. injection Hvs' as <-.
  apply products_text_same_members; try assumption.
  - apply (extract_vaccines_clean _ _ Hv).
  - apply (extract_vaccines_clean _ _ Hv').
Qed.

Lemma vaccines_text_order_independent_witness :
  exists row row',
    normalize_study (product_study "NCT00000020" ["Placebo"; "Acme-Vax"]) = Returned row
    /\ normalize_study (product_study "NCT00000021" ["Acme-Vax "; "Placebo"; "Acme-Vax"])
       = Returned row'
    /\ Vaccines row = Vaccines row'.
Proof.
  do 2 eexists. split; [vm_compute; reflexivity |]. split; [vm_compute; reflexivity |].
  apply (vaccines_text_order_independent
           (product_study "NCT00000020" ["Placebo"; "Acme-Vax"])
           (product_study "NCT00000021" ["Acme-Vax "; "Placebo"; "Acme-Vax"])
           _ _ ["Placebo"; "Acme-Vax"] ["Acme-Vax"; "Placebo"]);
    try (vm_compute; reflexivity).
  intros x. simpl. tauto.
Defined.

(* ================================================================= *)
(** ** The detail record *)

(** The reads behind the products, the conditions and the outcomes of a
    detail record. *)
Lemma normalize_detail_reads (data : json) (detail : trial_detail) :
  normalize_detail data = Returned detail ->
  exists proto arms vaccines conditions results_section,
    dict_get data "protocolSection" (JObj []) = Returned proto
    /\ dict_get proto "armsInterventionsModule" (JObj []) = Returned arms
    /\ extract_vaccines arms = Returned vaccines
    /\ dVaccines detail = match vaccines with
                          | [] => ["Not reported"]
                          | _ => PyStr.sorted vaccines
                          end
    /\ dict_get proto "conditionsModule" (JObj []) = Returned conditions
    /\ dict_get conditions "conditions" (JArr []) = Returned (dDiseases detail)
    /\ dict_get data "resultsSection" (JObj []) = Returned results_section
    /\ extract_outcomes results_section = Returned (dOutcomes detail).
Proof.
  unfold normalize_detail. repeat next_read. intros [= <-]. simpl.
  do 5 eexists. repeat split; eassumption.
Qed.

(** X9. Where both normalizers return, the ["Vaccines"] text of the summary
    is the product list of the detail joined with [", "], and that list is
    never empty: without products it is the one-element placeholder. *)
Theorem summary_vaccines_join_detail (s : json) (row : trial_row)
    (detail : trial_detail) :
  normalize_study s = Returned row ->
  normalize_detail s = Returned detail ->
  Vaccines row = PyStr.join ", " (dVaccines detail)
  /\ dVaccines detail <> [].
Proof.
  intros Hrow Hdet.
  destruct (normalize_study_texts s row Hrow)
    as (proto & ident & status & arms & vaccines & brief & official & overall
        & Hproto & _ & _ & _ & _ & _ & _ & _ & Harms & Hvac & Htext).
  destruct (normalize_detail_reads s detail Hdet)
    as (proto' & arms' & vaccines' & conditions & results_section
        & Hproto' & Harms' & Hvac' & Hlist & _).
  rewrite Hproto in Hproto'. injection Hproto' as <-.
  rewrite Harms in Harms'. injection Harms' as <-.
  rewrite Hvac in Hvac'. injection Hvac' as <-.
  rewrite Htext, Hlist. unfold products_text.
  destruct vaccines as [| v vs]; [split; [reflexivity | discriminate] |].
  split; [reflexivity |].
  intros Hnil.
  pose proof (sorted_perm (v :: vs)) as Hperm. rewrite Hnil in Hperm.
  apply Permutation_nil in Hperm. discriminate Hperm.
Qed.

Lemma summary_vaccines_join_detail_witness :
  exists row detail,
    normalize_study (product_study "NCT00000011" ["Placebo"; "ACME-VAX 10 mcg"])
    = Returned row
    /\ normalize_detail (product_study "NCT00000011" ["Placebo"; "ACME-VAX 10 mcg"])
       = Returned detail
    /\ dVaccines detail = ["ACME-VAX 10 mcg"; "Placebo"]
    /\ Vaccines row = PyStr.join ", " (dVaccines detail).
Proof.
  do 2 eexists. split; [vm_compute; reflexivity |]. split; [vm_compute; reflexivity |].
  split; [reflexivity |].
  apply (summary_vaccines_join_detail
           (product_study "NCT00000011" ["Placebo"; "ACME-VAX 10 mcg"]));
    vm_compute; reflexivity.
Defined.

Lemma for_each_add_outcome (measures : list json) :
  forall (acc outs : list (json * json)),
    for_each add_outcome measures acc = Returned outs ->
    outs = acc ++ map outcome_of measures.
Proof.
  induction measures as [| o measures IH]; intros acc outs; simpl.
  - intros [= <-]. rewrite app_nil_r. reflexivity.
  - unfold add_outcome at 1.
    destruct (dict_get o "title" JNull) as [title |] eqn:Ht; simpl; [| discriminate].
    destruct (dict_get o "description" (JStr "")) as [description |] eqn:Hd; simpl;
      [| discriminate].
    intros H. rewrite (IH _ _ H), <- app_assoc. simpl. unfold outcome_of.
    rewrite (at_path_last _ _ _ Ht), (at_path_or_last _ _ _ _ Hd). reflexivity.
Qed.

Lemma detail_conditions (data : json) (detail : trial_detail) :
  normalize_detail data = Returned detail ->
  dDiseases detail = at_path_or (JArr []) conditions_path data.
Proof.
  intros Hdet.
  destruct (normalize_detail_reads data detail Hdet)
    as (proto & arms & vaccines & conditions & results_section
        & Hproto & _ & _ & _ & Hcond & Hdis & _).
  unfold conditions_path.
  rewrite (at_path_or_step _ _ _ _ _ _ Hproto), (at_path_or_step _ _ _ _ _ _ Hcond).
  symmetry. apply at_path_or_last. exact Hdis.
Qed.

(** The detail fetcher on a response that came back. *)
Lemma fetch_detail_ok (lookup : json -> response) (nct_id data : json) :
  lookup nct_id = Ok data ->
  fetch_trial_details_with_vaccines lookup nct_id
  = (detail <- normalize_detail data ;; Returned (Some detail)).
Proof.
  intros H. unfold fetch_trial_details_with_vaccines. rewrite H. simpl.
  pose proof (quiet_normalize_detail data) as Hq. unfold quiet in Hq.
  destruct (normalize_detail data) as [detail | []]; simpl; try reflexivity.
  contradiction Hq. reflexivity.
Qed.

Lemma fetch_detail_failed (lookup : json -> response) (nct_id : json) :
  failed (lookup nct_id) = true ->
  fetch_trial_details_with_vaccines lookup nct_id = Returned None.
Proof.
  intros H. unfold fetch_trial_details_with_vaccines.
  destruct (lookup nct_id); [reflexivity | reflexivity | discriminate H].
Qed.

(** X10. A detail record gives the conditions back as the body has them,
    in order and with their repetitions, and the empty list when the body
    has none.  Without results section its outcomes are empty; with one, it
    has one outcome per measure, in order, a measure without description
    getting the empty text and one without title the null value. *)
Theorem detail_conditions_and_outcomes (data : json) (detail : trial_detail) :
  normalize_detail data = Returned detail ->
  dDiseases detail = at_path_or (JArr []) conditions_path data
  /\ (json_path ["resultsSection"] data = None -> dOutcomes detail = [])
  /\ (forall measures,
        json_path measures_path data = Some (JArr measures) ->
        dOutcomes detail = map outcome_of measures).
Proof.
  intros Hdet.
  destruct (normalize_detail_reads data detail Hdet)
    as (proto & arms & vaccines & conditions & results_section
        & Hproto & _ & _ & _ & Hcond & Hdis & Hres & Hout).
  split; [| split].
  - apply detail_conditions. exact Hdet.
  - intros Hnone. rewrite (path_last _ _ _ _ Hres Hnone) in Hout.
    simpl in Hout. injection Hout as <-. reflexivity.
  - intros measures Hpath. unfold measures_path in Hpath.
    pose proof (path_step_some _ _ _ _ _ _ Hres Hpath) as Hp1.
    unfold extract_outcomes in Hout.
    destruct results_section as [| | | | | ritems]; try discriminate Hp1.
    cbn [json_path] in Hp1.
    destruct (dict_lookup "outcomeMeasuresModule" ritems) as [om |] eqn:Hom;
      [| discriminate Hp1].
    assert (Htruthy : truthy (JObj ritems) = true).
    { destruct ritems; [discriminate Hom | reflexivity]. }
    rewrite Htruthy, dict_get_obj, Hom in Hout. simpl in Hout.
    destruct om as [| | | | | oitems]; try discriminate Hp1.
    cbn [json_path] in Hp1.
    destruct (dict_lookup "outcomeMeasures" oitems) as [ms |] eqn:Hms;
      [| discriminate Hp1].
    injection Hp1 as ->. rewrite dict_get_obj, Hms in Hout. simpl in Hout.
    apply (for_each_add_outcome measures [] _ Hout).
Qed.

Lemma detail_conditions_and_outcomes_witness :
  exists detail,
    normalize_detail detail_body = Returned detail
    /\ dDiseases detail = JArr [JStr "RSV"; JStr "Bronchiolitis"]
    /\ dOutcomes detail = [(JStr "Titer", JStr "")].
Proof.
  eexists. split; [vm_compute; reflexivity |].
  destruct (detail_conditions_and_outcomes detail_body _ eq_refl) as (Hd & _ & Ho).
  split; [exact Hd |].
  exact (Ho [JObj [("title", JStr "Titer")]] eq_refl).
Defined.

(** X11. The derived-disease lookup gives the conditions of the trial when
    the detail fetch returned a record whose conditions are a true value,
    and the empty list otherwise: on a failed request, and on a trial
    without conditions.  It never lets [RequestException] through. *)
Theorem derived_diseases (lookup : json -> response) (nct_id : json) :
  (failed (lookup nct_id) = true ->
   extract_diseases_from_vaccine_trial lookup nct_id = Returned (JArr []))
  /\ extract_diseases_from_vaccine_trial lookup nct_id <> Raised RequestException
  /\ (forall data detail,
        lookup nct_id = Ok data ->
        normalize_detail data = Returned detail ->
        extract_diseases_from_vaccine_trial lookup nct_id
        = Returned (py_or (at_path_or (JArr []) conditions_path data) (JArr [])))
  /\ (forall data,
        lookup nct_id = Ok data ->
        study_ok data = true ->
        exists diseases,
          extract_diseases_from_vaccine_trial lookup nct_id = Returned diseases).
Proof.
  unfold extract_diseases_from_vaccine_trial.
  split; [| split; [| split]].
  - intros H. rewrite (fetch_detail_failed lookup nct_id H). reflexivity.
  - destruct (lookup nct_id) as [| code | data] eqn:Hr.
    + rewrite fetch_detail_failed; [discriminate | rewrite Hr; reflexivity].
    + rewrite fetch_detail_failed; [discriminate | rewrite Hr; reflexivity].
    + rewrite (fetch_detail_ok lookup nct_id data Hr).
      pose proof (quiet_normalize_detail data) as Hq. unfold quiet in Hq.
      destruct (normalize_detail data) as [detail | []]; simpl;
        try discriminate; try (destruct (truthy (dDiseases detail)); discriminate).
      contradiction Hq. reflexivity.
  - intros data detail Hdata Hdet.
    rewrite (fetch_detail_ok lookup nct_id data Hdata), Hdet. simpl.
    rewrite <- (detail_conditions data detail Hdet).
    unfold py_or. destruct (truthy (dDiseases detail)); reflexivity.
  - intros data Hdata Hs.
    rewrite (fetch_detail_ok lookup nct_id data Hdata).
    destruct (normalize_detail_total data Hs) as [detail ->]. simpl.
    destruct (truthy (dDiseases detail)); eexists; reflexivity.
Qed.

(* ================================================================= *)
(** ** The competitor search and the own-trials matching *)

Lemma prefix_lower (a b : string) :
  String.prefix a b = true -> String.prefix (PyStr.lower a) (PyStr.lower b) = true.
Proof.
  revert b. induction a as [| c a IH]; intros b;
    [destruct b; reflexivity |].
  destruct b as [| d b]; simpl; [discriminate |].
  destruct (ascii_dec c d) as [-> | Hne]; [| discriminate].
  intros H. destruct (ascii_dec (PyStr.lower_char d) (PyStr.lower_char d)) as [_ | Hne];
    [apply IH; exact H | contradiction Hne; reflexivity].
Qed.

(** An occurrence stays one when both texts are lowered. *)
Lemma contains_lower (a b : string) :
  PyStr.contains a b = true -> PyStr.contains (PyStr.lower a) (PyStr.lower b) = true.
Proof.
  induction b as [| d b IH]; intros H.
  - cbn [PyStr.contains] in H. apply orb_true_iff in H as [H | H]; [| discriminate H].
    apply prefix_lower in H. cbn [PyStr.lower PyStr.contains]. cbn [PyStr.lower] in H.
    rewrite H. reflexivity.
  - cbn [PyStr.contains] in H. apply orb_true_iff in H as [H | H].
    + apply prefix_lower in H. cbn [PyStr.lower PyStr.contains]. cbn [PyStr.lower] in H.
      rewrite H. reflexivity.
    + cbn [PyStr.lower PyStr.contains]. rewrite (IH H). apply orb_true_r.
Qed.

Lemma contains_empty (a : string) : PyStr.contains a EmptyString = true -> a = EmptyString.
Proof. destruct a; simpl; [reflexivity | discriminate]. Qed.

Lemma lower_empty (a : string) : PyStr.lower a = EmptyString -> a = EmptyString.
Proof. destruct a; simpl; [reflexivity | discriminate]. Qed.

(** X12. For a target name and product texts of the ASCII range, where
    [lower] is that of Python: no row kept as a competitor holds the target
    name in its ["Vaccines"] text, in whatever capitalization the name is
    looked for; the rows kept are rows of the input; and two spellings of
    the target name that differ in case only keep the same rows. *)
Theorem competitors_never_mention_target (vaccine_name : string)
    (competitor_trials : list trial_row) :
  is_ascii vaccine_name = true ->
  (forall row, In row competitor_trials -> is_ascii (Vaccines row) = true) ->
  (forall row spelling,
      In row (exclude_target vaccine_name competitor_trials) ->
      is_ascii spelling = true ->
      PyStr.lower spelling = PyStr.lower vaccine_name ->
      In row competitor_trials
      /\ PyStr.contains spelling (Vaccines row) = false)
  /\ (forall spelling,
        is_ascii spelling = true ->
        PyStr.lower spelling = PyStr.lower vaccine_name ->
        exclude_target spelling competitor_trials
        = exclude_target vaccine_name competitor_trials).
Proof.
  intros _ _. split.
  - intros row spelling Hin _ Hsp. unfold exclude_target in Hin.
    apply filter_In in Hin as [Hin Hkeep]. split; [exact Hin |].
    destruct (PyStr.contains spelling (Vaccines row)) eqn:Hc; [| reflexivity].
    apply contains_lower in Hc. rewrite Hsp in Hc. rewrite Hc in Hkeep.
    discriminate Hkeep.
  - intros spelling _ Hsp. unfold exclude_target. rewrite Hsp. reflexivity.
Qed.

Lemma competitors_never_mention_target_witness :
  is_ascii "acme-vax" = true
  /\ (forall row,
        In row (rows_or_nil (competitor_remote 0)) -> is_ascii (Vaccines row) = true)
  /\ map NCT_ID (exclude_target "acme-vax" (rows_or_nil (competitor_remote 0)))
     = [JStr "NCT00000010"; JStr "NCT00000012"]
  /\ (forall row,
        In row (exclude_target "acme-vax" (rows_or_nil (competitor_remote 0))) ->
        PyStr.contains "ACME-VAX" (Vaccines row) = false).
Proof.
  assert (Hrows : forall row,
             In row (rows_or_nil (competitor_remote 0)) ->
             is_ascii (Vaccines row) = true).
  { intros row Hin. vm_compute in Hin.
    destruct Hin as [<- | [<- | [<- | []]]]; reflexivity. }
  split; [reflexivity |]. split; [exact Hrows |]. split; [reflexivity |].
  intros row Hin.
  apply (competitors_never_mention_target "acme-vax" (rows_or_nil (competitor_remote 0))
           eq_refl Hrows);
    [exact Hin | reflexivity | reflexivity].
Defined.

(** X13. A trial without product names carries the placeholder as its
    ["Vaccines"] text, and the exclusion reads the placeholder as it reads a
    product: such a trial is kept as a competitor exactly when the lowered
    target name does not occur in ["not reported"]. *)
Theorem placeholder_read_as_product (vaccine_name : string) (s : json)
    (row : trial_row) :
  normalize_study s = Returned row ->
  extract_vaccines (arms_of s) = Returned [] ->
  Vaccines row = "Not reported"
  /\ (exclude_target vaccine_name [row] = [row]
      <-> PyStr.contains (PyStr.lower vaccine_name) "not reported" = false)
  /\ (exclude_target vaccine_name [row] = []
      <-> PyStr.contains (PyStr.lower vaccine_name) "not reported" = true).
Proof.
  intros Hrow Hnone.
  destruct (normalize_study_products s row Hrow) as (vs & Hvs & Htext).
  rewrite Hnone in Hvs. injection Hvs as <-. simpl in Htext.
  split; [exact Htext |].
  unfold exclude_target. cbn [filter]. rewrite Htext.
  change (PyStr.lower "Not reported") with "not reported".
  destruct (PyStr.contains (PyStr.lower vaccine_name) "not reported");
    cbn [negb]; split; split; intros H; try reflexivity; discriminate H.
Qed.

Lemma placeholder_read_as_product_witness :
  exists row,
    normalize_study (product_study "NCT00000012" []) = Returned row
    /\ Vaccines row = "Not reported"
    /\ exclude_target "EPO" [row] = []
    /\ exclude_target "Acme-Vax" [row] = [row].
Proof.
  eexists. split; [vm_compute; reflexivity |].
  destruct (placeholder_read_as_product "EPO" (product_study "NCT00000012" []) _
              eq_refl eq_refl) as (Ht & _ & Hout).
  destruct (placeholder_read_as_product "Acme-Vax" (product_study "NCT00000012" []) _
              eq_refl eq_refl) as (_ & Hin & _).
  split; [exact Ht |]. split; [apply Hout; reflexivity | apply Hin; reflexivity].
Defined.

(** X14. A hit of the product search is made an own trial only through the
    names of its intervention items: whatever the iteration order of the
    set, a hit none of whose items is named is never one, for a target name
    that is not empty; and the row of an own trial has the id, title,
    phases, status and sponsor that the list normalizer of [app.py] gives
    the hit. *)
Theorem own_trial_rows (set_iter : str_set -> list string) (vaccine_name : string)
    (vaccine_results vaccine_results' : list trial_row) (study : json) :
  (forall s, Permutation (set_iter s) s) ->
  add_own_trial set_iter vaccine_name vaccine_results study = Returned vaccine_results' ->
  (vaccine_results' = vaccine_results
   \/ exists row,
        vaccine_results' = vaccine_results ++ [row]
        /\ normalize_listing study = Returned (listing_of row))
  /\ (vaccine_name <> EmptyString ->
      interventions_loop (arms_of study) [] = Returned [] ->
      vaccine_results' = vaccine_results).
Proof.
  intros Hperm. unfold add_own_trial, normalize_listing.
  destruct (dict_get study "protocolSection" (JObj [])) as [proto |] eqn:Hproto;
    cbn [bind]; [| discriminate].
  destruct (dict_get proto "identificationModule" (JObj [])) as [ident |];
    cbn [bind]; [| discriminate].
  destruct (dict_get proto "designModule" (JObj [])) as [design |];
    cbn [bind]; [| discriminate].
  destruct (dict_get proto "statusModule" (JObj [])) as [status |];
    cbn [bind]; [| discriminate].
  destruct (dict_get proto "sponsorCollaboratorsModule" (JObj [])) as [sponsor |];
    cbn [bind]; [| discriminate].
  destruct (dict_get proto "armsInterventionsModule" (JObj [])) as [arms |] eqn:Harms;
    cbn [bind]; [| discriminate].
  rewrite (arms_of_read study proto arms Hproto Harms).
  destruct (interventions_loop arms []) as [vaccines |] eqn:Hvac;
    cbn [bind]; [| discriminate].
  destruct (mentions_vaccine set_iter vaccine_name vaccines) eqn:Hm.
  - destruct (dict_get ident "nctId" JNull) as [nct_id |]; cbn [bind]; [| discriminate].
    destruct (dict_get ident "briefTitle" JNull) as [brief |]; cbn [bind];
      [| discriminate].
    destruct (dict_get ident "officialTitle" JNull) as [official |]; cbn [bind];
      [| discriminate].
    destruct (dict_get design "phases" JNull) as [phases |]; cbn [bind];
      [| discriminate].
    destruct (py_join ", " (py_or phases (JArr [JStr "Not reported"])))
      as [phase_str |]; cbn [bind]; [| discriminate].
    destruct (dict_get status "overallStatus" JNull) as [overall |]; cbn [bind];
      [| discriminate].
    destruct (dict_get sponsor "leadSponsor" (JObj [])) as [lead |]; cbn [bind];
      [| discriminate].
    destruct (dict_get lead "name" (JStr "Unknown")) as [sponsor_name |]; cbn [bind];
      [| discriminate].
    intros [= <-]. split.
    + right. eexists. split; reflexivity.
    + intros Hname [= ->]. exfalso. apply Hname.
      unfold mentions_vaccine in Hm.
      assert (Hnil : set_iter [] = [])
        by (apply Permutation_nil, Permutation_sym, Hperm).
      rewrite Hnil in Hm. simpl in Hm.
      apply lower_empty. apply contains_empty. exact Hm.
  - intros [= <-]. split; [left; reflexivity | intros _ _; reflexivity].
Qed.

Lemma own_trial_rows_witness :
  (forall s : str_set, Permutation s s)
  /\ add_own_trial (fun s => s) "acme-vax" []
       (product_study "NCT00000011" ["ACME-VAX 10 mcg"; "Placebo"])
     = Returned [ {| NCT_ID := JStr "NCT00000011"; Title := JStr "No title";
                     Phase := "Not reported"; Status := JStr "Unknown";
                     Sponsor := JStr "Unknown";
                     Vaccines := "ACME-VAX 10 mcg, Placebo" |} ]
  /\ normalize_listing (product_study "NCT00000011" ["ACME-VAX 10 mcg"; "Placebo"])
     = Returned {| sNCT_ID := JStr "NCT00000011"; sTitle := JStr "No title";
                   sPhase := "Not reported"; sStatus := JStr "Unknown";
                   sSponsor := JStr "Unknown" |}.
Proof.
  split; [intros s; apply Permutation_refl |]. split; [reflexivity |].
  destruct (own_trial_rows (fun s => s) "acme-vax" [] _
              (product_study "NCT00000011" ["ACME-VAX 10 mcg"; "Placebo"])
              (fun s => Permutation_refl s) eq_refl) as [[H | (row & Heq & Hrow)] _].
  - discriminate H.
  - simpl in Heq. injection Heq as <-. exact Hrow.
Defined.

(** X15. The competitor search issues at most five requests, never lets
    [RequestException] through, gives the empty list when one of its
    requests failed, and returns no row whose ["Vaccines"] text holds the
    target name in any capitalization. *)
Theorem competitor_search_bounds (remote : nat -> response) (first_disease : string)
    (vaccine_name : string) :
  count_requests (snd (competitor_search remote first_disease vaccine_name)) <= 5
  /\ fst (competitor_search remote first_disease vaccine_name)
     <> Raised RequestException
  /\ (In StError (snd (competitor_search remote first_disease vaccine_name)) ->
      fst (competitor_search remote first_disease vaccine_name) = Returned [])
  /\ (forall rows row,
        fst (competitor_search remote first_disease vaccine_name) = Returned rows ->
        In row rows ->
        PyStr.contains (PyStr.lower vaccine_name) (PyStr.lower (Vaccines row)) = false).
Proof.
  unfold competitor_search.
  pose proof (run_request_count remote first_disease 5) as Hreq.
  pose proof (run_quiet remote first_disease 5) as Hquiet.
  pose proof (run_error_empty remote first_disease 5) as Herr.
  destruct (fetch_all_vaccine_trials remote first_disease 5) as [res tr].
  simpl in *. split; [exact Hreq |]. split; [| split].
  - destruct res as [rows | e]; simpl; [discriminate | exact Hquiet].
  - intros Hin. rewrite (Herr Hin). reflexivity.
  - intros rows row Hres Hin.
    destruct res as [all_rows |]; simpl in Hres; [| discriminate Hres].
    injection Hres as <-. unfold exclude_target in Hin.
    apply filter_In in Hin as [_ Hkeep]. apply negb_true_iff in Hkeep. exact Hkeep.
Qed.

(* ================================================================= *)
(** ** Phase labels: joining, splitting, the default selection *)

Lemma append_nil_r (s : string) : (s ++ EmptyString)%string = s.
Proof. induction s as [| c s IH]; simpl; [reflexivity | rewrite IH; reflexivity]. Qed.

Lemma prefix_cons (a b : ascii) (s1 s2 : string) :
  String.prefix (String a s1) (String b s2)
  = if ascii_dec a b then String.prefix s1 s2 else false.
Proof. reflexivity. Qed.

Lemma prefix_nil (s : string) : String.prefix EmptyString s = true.
Proof. destruct s; reflexivity. Qed.

(** A text without separator in front of the end or of a separator is read
    through to its end. *)
Lemma split_from_element (t : string) :
  forall (cur rest : string),
    PyStr.contains ", " t = false ->
    (rest = EmptyString \/ exists rest', rest = String ","%char rest') ->
    PyStr.split_from ", " (t ++ rest) 0 cur
    = PyStr.split_from ", " rest 0 (cur ++ t).
Proof.
  induction t as [| c t IH]; intros cur rest Hc Hrest.
  - simpl. rewrite append_nil_r. reflexivity.
  - cbn [PyStr.contains] in Hc. apply orb_false_iff in Hc as [Hpre Hc].
    assert (Hhere : String.prefix ", " (String c (t ++ rest)) = false).
    { change ", " with (String ","%char (String " "%char EmptyString)) in *.
      rewrite prefix_cons in *.
      destruct (ascii_dec ","%char c) as [_ | _]; [| reflexivity].
      destruct t as [| d t].
      - destruct Hrest as [-> | [rest' ->]]; reflexivity.
      - change (String d t ++ rest)%string with (String d (t ++ rest)).
        rewrite prefix_cons in *.
        destruct (ascii_dec " "%char d) as [_ | _]; [| reflexivity].
        rewrite prefix_nil in Hpre. discriminate Hpre. }
    change (String c t ++ rest)%string with (String c (t ++ rest)).
    cbn [PyStr.split_from]. rewrite Hhere.
    rewrite (IH (cur ++ String c EmptyString)%string rest Hc Hrest).
    rewrite append_assoc. reflexivity.
Qed.

Lemma split_from_separator (cur rest : string) :
  PyStr.split_from ", " (", " ++ rest) 0 cur
  = cur :: PyStr.split_from ", " rest 0 EmptyString.
Proof. destruct rest; reflexivity. Qed.

Lemma split_join (labels : list string) :
  labels <> [] ->
  (forall x, In x labels -> PyStr.contains ", " x = false) ->
  PyStr.split ", " (PyStr.join ", " labels) = labels.
Proof.
  unfold PyStr.split, PyStr.join.
  induction labels as [| x labels IH]; intros Hne Hfree; [contradiction Hne; reflexivity |].
  destruct labels as [| y labels].
  - simpl. rewrite <- (append_nil_r x) at 1.
    rewrite split_from_element; [reflexivity | apply Hfree; left; reflexivity | left; reflexivity].
  - change (String.concat ", " (x :: y :: labels))
      with (x ++ ", " ++ String.concat ", " (y :: labels))%string.
    rewrite split_from_element;
      [| apply Hfree; left; reflexivity | right; eexists; reflexivity].
    change (EmptyString ++ x)%string with x.
    rewrite split_from_separator, IH; [reflexivity | discriminate |].
    intros z Hz. apply Hfree. right. exact Hz.
Qed.

Lemma all_str_map (labels : list string) : all_str (map JStr labels) = Returned labels.
Proof.
  induction labels as [| x labels IH]; simpl; [reflexivity |]. rewrite IH. reflexivity.
Qed.

(** X16. Splitting the ["Phase"] text of a row on [", "] gives back the
    phase labels of the trial, in order, provided no label holds the
    separator itself: the labels the multiselect offers are then the labels
    the registry reported. *)
Theorem phase_text_splits_back (s : json) (row : trial_row) (labels : list string) :
  normalize_study s = Returned row ->
  json_path phases_path s = Some (JArr (map JStr labels)) ->
  labels <> [] ->
  (forall x, In x labels -> PyStr.contains ", " x = false) ->
  Phase row = PyStr.join ", " labels
  /\ PyStr.split ", " (Phase row) = labels.
Proof.
  intros Hrow Hpath Hne Hfree.
  destruct (normalize_study_reads s row Hrow)
    as (proto & ident & design & status & sponsor & lead & phases & overall
        & Hproto & _ & _ & Hdesign & Hphases & Hjoin & _).
  unfold phases_path in Hpath.
  pose proof (path_step_some _ _ _ _ _ _ Hproto Hpath) as Hp1.
  pose proof (path_step_some _ _ _ _ _ _ Hdesign Hp1) as Hp2.
  pose proof (path_step_some _ _ _ _ _ _ Hphases Hp2) as Hp3.
  injection Hp3 as ->.
  assert (Htext : Phase row = PyStr.join ", " labels).
  { unfold py_or, py_join in Hjoin.
    destruct labels as [| x labels]; [contradiction Hne; reflexivity |].
    cbn [map truthy py_iter bind] in Hjoin.
    change (JStr x :: map JStr labels) with (map JStr (x :: labels)) in Hjoin.
    rewrite all_str_map in Hjoin. cbn [bind] in Hjoin.
    injection Hjoin as <-. reflexivity. }
  split; [exact Htext |]. rewrite Htext. apply split_join; assumption.
Qed.

Lemma phase_text_splits_back_witness :
  exists row,
    normalize_study
      (JObj [("protocolSection",
              JObj [("designModule",
                     JObj [("phases", JArr (map JStr ["PHASE1"; "PHASE2"]))])])])
    = Returned row
    /\ Phase row = "PHASE1, PHASE2"
    /\ PyStr.split ", " (Phase row) = ["PHASE1"; "PHASE2"].
Proof.
  eexists. split; [vm_compute; reflexivity |].
  apply (phase_text_splits_back
           (JObj [("protocolSection",
                   JObj [("designModule",
                          JObj [("phases", JArr (map JStr ["PHASE1"; "PHASE2"]))])])])
           _ ["PHASE1"; "PHASE2"]).
  - vm_compute. reflexivity.
  - reflexivity.
  - discriminate.
  - intros x [<- | [<- | []]]; reflexivity.
Defined.

(* ----------------------------------------------------------------- *)
(** *** The labels offered *)

Lemma split_from_nonempty (sep s : string) :
  forall skip cur, PyStr.split_from sep s skip cur <> [].
Proof.
  induction s as [| c s IH]; intros skip cur; cbn [PyStr.split_from]; [discriminate |].
  destruct skip; [| apply IH].
  destruct (String.prefix sep (String c s)); [discriminate | apply IH].
Qed.

Lemma fold_set_add_In (tokens : list string) :
  forall (acc : str_set) (p : string),
    In p (fold_left (fun acc' q => set_add q acc') tokens acc)
    <-> In p acc \/ In p tokens.
Proof.
  induction tokens as [| t tokens IH]; intros acc p; simpl; [tauto |].
  rewrite IH, set_add_In. split; intros H; intuition (subst; auto).
Qed.

Lemma fold_set_add_NoDup (tokens : list string) :
  forall acc : str_set,
    NoDup acc -> NoDup (fold_left (fun acc' q => set_add q acc') tokens acc).
Proof.
  induction tokens as [| t tokens IH]; intros acc Hacc; simpl; [exact Hacc |].
  apply IH. apply set_add_NoDup. exact Hacc.
Qed.

Lemma phase_tokens_In (rows : list trial_row) :
  forall (acc : str_set) (p : string),
    In p (fold_left
            (fun acc row => fold_left (fun acc' q => set_add q acc')
                                      (PyStr.split ", " (Phase row)) acc)
            rows acc)
    <-> In p acc \/ exists row, In row rows /\ In p (PyStr.split ", " (Phase row)).
Proof.
  induction rows as [| r rows IH]; intros acc p; simpl.
  - split; [tauto | intros [H | (row & [] & _)]; exact H].
  - rewrite IH, fold_set_add_In. split.
    + intros [[H | H] | (row & Hin & Hp)]; [tauto | right | right].
      * exists r. split; [left; reflexivity | exact H].
      * exists row. split; [right; exact Hin | exact Hp].
    + intros [H | (row & [<- | Hin] & Hp)]; [tauto | tauto |].
      right. exists row. split; assumption.
Qed.

Lemma phase_tokens_NoDup (rows : list trial_row) :
  forall acc : str_set,
    NoDup acc ->
    NoDup (fold_left
             (fun acc row => fold_left (fun acc' q => set_add q acc')
                                       (PyStr.split ", " (Phase row)) acc)
             rows acc).
Proof.
  induction rows as [| r rows IH]; intros acc Hacc; simpl; [exact Hacc |].
  apply IH. apply fold_set_add_NoDup. exact Hacc.
Qed.

Lemma phase_options_In (rows : list trial_row) (p : string) :
  In p (phase_options rows)
  <-> exists row, In row rows /\ In p (PyStr.split ", " (Phase row)).
Proof.
  unfold phase_options. split.
  - intros H. apply (Permutation_in _ (sorted_perm _)) in H.
    apply phase_tokens_In in H as [[] | H]. exact H.
  - intros H. apply (Permutation_in _ (Permutation_sym (sorted_perm _))).
    apply phase_tokens_In. right. exact H.
Qed.

(** X17. The labels the multiselect offers are the tokens of the ["Phase"]
    texts of the rows, no other, each once and in code-point order. *)
Theorem phase_options_are_the_tokens (rows : list trial_row) :
  (forall p,
      In p (phase_options rows)
      <-> exists row, In row rows /\ In p (PyStr.split ", " (Phase row)))
  /\ NoDup (phase_options rows)
  /\ Sorted.Sorted str_le (phase_options rows).
Proof.
  split; [apply phase_options_In |]. split.
  - unfold phase_options.
    apply (Permutation_NoDup (Permutation_sym (sorted_perm _))).
    apply phase_tokens_NoDup. constructor.
  - apply sorted_ordered.
Qed.

Lemma filter_all (A : Type) (f : A -> bool) (l : list A) :
  (forall x, In x l -> f x = true) -> filter f l = l.
Proof.
  induction l as [| x l IH]; intros H; simpl; [reflexivity |].
  rewrite (H x (or_introl eq_refl)), IH; [reflexivity |].
  intros y Hy. apply H. right. exact Hy.
Qed.

(** X18. With every offered label selected, which is the default of the
    multiselect, the phase filter keeps every row; with no label selected it
    keeps none; whatever the selection, the rows kept are rows of the input
    whose ["Phase"] text holds a selected label. *)
Theorem phase_filter_default_keeps_all (rows : list trial_row) :
  phase_filter (phase_options rows) rows = rows
  /\ phase_filter [] rows = []
  /\ (forall selected row,
        In row (phase_filter selected rows) <->
        In row rows
        /\ exists ph, In ph selected /\ PyStr.contains ph (Phase row) = true).
Proof.
  split; [| split].
  - unfold phase_filter. apply filter_all. intros row Hrow.
    unfold phase_matches. apply existsb_exists.
    destruct (PyStr.split ", " (Phase row)) as [| tok toks] eqn:Hsplit.
    + contradiction (split_from_nonempty ", " (Phase row) 0 EmptyString Hsplit).
    + exists tok. split.
      * apply phase_options_In. exists row. split; [exact Hrow |].
        rewrite Hsplit. left. reflexivity.
      * apply (split_from_contains ", " (Phase row) 0 EmptyString tok);
          [intros H; contradiction H; reflexivity |].
        fold (PyStr.split ", " (Phase row)). rewrite Hsplit. left. reflexivity.
  - unfold phase_filter, phase_matches. simpl.
    induction rows as [| r rows IH]; simpl; [reflexivity | exact IH].
  - intros selected row. unfold phase_filter, phase_matches.
    rewrite filter_In, existsb_exists. reflexivity.
Qed.

(* ================================================================= *)
(** ** The fetchers of [app.py] *)

Lemma quiet_normalize_listing (s : json) : quiet (normalize_listing s).
Proof. unfold normalize_listing. quiet_steps. Qed.

Lemma quiet_normalize_trial_details (data : json) : quiet (normalize_trial_details data).
Proof. unfold normalize_trial_details. quiet_steps. Qed.

Lemma quiet_listing_page (r : response) :
  failed r = false ->
  quiet (data <- http_get r ;;
         studies <- dict_get data "studies" (JArr []) ;;
         if negb (truthy studies) then Returned []
         else items <- py_iter studies ;; for_each append_listing items []).
Proof.
  intros Hr. destruct r as [| code | data]; try discriminate Hr. simpl.
  apply quiet_bind; [apply quiet_dict_get | intros studies].
  apply quiet_if; [apply quiet_returned |].
  apply quiet_bind; [apply quiet_py_iter | intros items].
  apply quiet_for_each. intros acc s. unfold append_listing.
  apply quiet_bind; [apply quiet_normalize_listing | intros row; apply quiet_returned].
Qed.

(** X19. The listing fetcher of [app.py] issues exactly one request and
    never sleeps.  It never lets [RequestException] through: a failed
    request gives the empty list after an error report, and an error is
    reported on a failed request only. *)
Theorem fetch_vaccine_data_single_request (r : response) (disease : string)
    (limit : Z) :
  count_requests (snd (fetch_vaccine_data r disease limit)) = 1
  /\ count_sleeps (snd (fetch_vaccine_data r disease limit)) = 0
  /\ fst (fetch_vaccine_data r disease limit) <> Raised RequestException
  /\ (failed r = true ->
      fst (fetch_vaccine_data r disease limit) = Returned []
      /\ In StError (snd (fetch_vaccine_data r disease limit)))
  /\ (In StError (snd (fetch_vaccine_data r disease limit)) -> failed r = true).
Proof.
  unfold fetch_vaccine_data.
  destruct (failed r) eqn:Hr.
  - destruct r as [| code | data]; try discriminate Hr; simpl;
      repeat split; try reflexivity; try discriminate; auto.
  - pose proof (quiet_listing_page r Hr) as Hq. unfold quiet in Hq.
    destruct (data <- http_get r ;; _) as [rows | []]; simpl;
      try (contradiction Hq; reflexivity);
      repeat split; try reflexivity; try discriminate;
      intros [H | []]; discriminate H.
Qed.

(** The row of [app7.py], cut down to the fields [app.py] has, is the row
    of [app.py]. *)
Lemma normalize_listing_of_study (s : json) (row : trial_row) :
  normalize_study s = Returned row ->
  normalize_listing s = Returned (listing_of row).
Proof.
  unfold normalize_study, normalize_listing. repeat next_read.
  intros [= <-]. reflexivity.
Qed.

Lemma listing_page_of_page (items : list json) :
  forall (acc rows : list trial_row),
    for_each append_study items acc = Returned rows ->
    for_each append_listing items (map listing_of acc)
    = Returned (map listing_of rows).
Proof.
  induction items as [| s items IH]; intros acc rows; simpl.
  - intros [= <-]. reflexivity.
  - unfold append_study at 1, append_listing at 1.
    destruct (normalize_study s) as [row |] eqn:Hrow; simpl; [| discriminate].
    rewrite (normalize_listing_of_study s row Hrow). simpl. intros H.
    rewrite <- (IH _ _ H), map_app. reflexivity.
Qed.

(** X20. The two versions of the list normalizer agree: whenever that of
    [app7.py] returns a row, that of [app.py] returns the same id, title,
    phases, status and sponsor, for one study and for a whole page; so the
    first page of a paginated run is the listing of [app.py] with the
    products added. *)
Theorem listing_agrees_with_rows (items : list json) (rows : list trial_row) :
  process_page items [] = Returned rows ->
  for_each append_listing items [] = Returned (map listing_of rows)
  /\ Forall2 (fun s row => normalize_listing s = Returned (listing_of row)) items rows.
Proof.
  intros Hpage. split.
  - apply (listing_page_of_page items [] rows). exact Hpage.
  - eapply Forall2_impl; [| apply process_page_rows; exact Hpage].
    intros s row. apply normalize_listing_of_study.
Qed.

Lemma listing_agrees_with_rows_witness :
  exists rows,
    process_page early_phase_studies [] = Returned rows
    /\ for_each append_listing early_phase_studies [] = Returned (map listing_of rows)
    /\ map sPhase (map listing_of rows) = ["EARLY_PHASE1"; "PHASE1"].
Proof.
  eexists. split; [vm_compute; reflexivity |]. split.
  - apply (listing_agrees_with_rows early_phase_studies). vm_compute. reflexivity.
  - reflexivity.
Defined.

(** X21. In [app.py] the listing row and the detail record of one raw trial
    object agree on title, phases, sponsor and status whenever both
    normalizers return: both read the overall status with the same
    fallback. *)
Theorem listing_and_details_agree (s : json) (row : study_row)
    (detail : study_detail) :
  normalize_listing s = Returned row ->
  normalize_trial_details s = Returned detail ->
  sTitle row = sdTitle detail
  /\ sPhase row = sdPhase detail
  /\ sStatus row = sdStatus detail
  /\ sSponsor row = sdSponsor detail.
Proof.
  unfold normalize_listing, normalize_trial_details. repeat next_read.
  intros [= <-] [= <-]. simpl. repeat split.
Qed.

Lemma listing_and_details_agree_witness :
  exists row detail,
    normalize_listing (status_study (JStr "")) = Returned row
    /\ normalize_trial_details (status_study (JStr "")) = Returned detail
    /\ sStatus row = JStr "Unknown"
    /\ sStatus row = sdStatus detail.
Proof.
  do 2 eexists. split; [vm_compute; reflexivity |]. split; [vm_compute; reflexivity |].
  split; [reflexivity |].
  apply (listing_and_details_agree (status_study (JStr ""))); vm_compute; reflexivity.
Defined.

Lemma normalize_trial_details_total (data : json) :
  study_ok data = true -> exists detail, normalize_trial_details data = Returned detail.
Proof.
  intros Hok. unfold normalize_trial_details.
  destruct (proto_of_study data Hok) as (proto & -> & Hproto). simpl.
  unfold proto_ok in Hproto.
  destruct (obj_with_get _ proto "designModule" design_ok (JObj []) Hproto)
    as (design & -> & Hdesign); [in_checks | reflexivity |]. simpl.
  destruct (obj_with_get _ proto "statusModule" is_obj (JObj []) Hproto)
    as (status & -> & Hstatus); [in_checks | reflexivity |]. simpl.
  destruct (obj_with_get _ data "resultsSection" results_ok (JObj []) Hok)
    as (results_section & -> & Hresults); [in_checks | reflexivity |]. simpl.
  destruct (obj_with_get _ design "phases" _ JNull Hdesign (or_introl eq_refl) eq_refl)
    as (phases & -> & Hphases). simpl.
  destruct (extract_outcomes_total results_section Hresults) as [outcomes ->]. simpl.
  destruct (obj_with_get _ proto "identificationModule" is_obj (JObj []) Hproto)
    as (ident & -> & Hident); [in_checks | reflexivity |]. simpl.
  destruct (is_obj_get ident "briefTitle" JNull Hident) as [brief ->]. simpl.
  destruct (is_obj_get ident "officialTitle" JNull Hident) as [official ->]. simpl.
  destruct (obj_with_get _ proto "sponsorCollaboratorsModule" sponsor_ok (JObj []) Hproto)
    as (sponsor & -> & Hsponsor); [in_checks | reflexivity |]. simpl.
  destruct (obj_with_get _ sponsor "leadSponsor" is_obj (JObj []) Hsponsor)
    as (lead & -> & Hlead); [in_checks | reflexivity |]. simpl.
  destruct (is_obj_get lead "name" (JStr "Unknown") Hlead) as [name ->]. simpl.
  destruct (is_obj_get status "overallStatus" JNull Hstatus) as [overall ->]. simpl.
  destruct (join_phases_total phases Hphases) as [text ->]. simpl.
  eexists. reflexivity.
Qed.

(** X22. The detail fetcher of [app.py] returns [None] on a failed request
    and on nothing else, never lets [RequestException] through, and returns
    a record for every body of the expected shape. *)
Theorem fetch_trial_details_sentinel (lookup : json -> response) (nct_id : json) :
  (failed (lookup nct_id) = true -> fetch_trial_details lookup nct_id = Returned None)
  /\ fetch_trial_details lookup nct_id <> Raised RequestException
  /\ (fetch_trial_details lookup nct_id = Returned None -> failed (lookup nct_id) = true)
  /\ (forall data,
        lookup nct_id = Ok data ->
        study_ok data = true ->
        exists detail,
          normalize_trial_details data = Returned detail
          /\ fetch_trial_details lookup nct_id = Returned (Some detail)).
Proof.
  unfold fetch_trial_details. repeat split.
  - intros Hfail. destruct (lookup nct_id); [reflexivity | reflexivity | discriminate Hfail].
  - unfold try_except.
    destruct (data <- http_get (lookup nct_id) ;; _) as [d | []]; discriminate.
  - destruct (lookup nct_id) as [| code | data]; try reflexivity. simpl.
    pose proof (quiet_normalize_trial_details data) as Hq. unfold quiet in Hq.
    destruct (normalize_trial_details data) as [detail | []]; simpl; try discriminate.
    contradiction Hq. reflexivity.
  - intros data -> Hok. destruct (normalize_trial_details_total data Hok) as [detail Hd].
    exists detail. split; [exact Hd |]. simpl. rewrite Hd. reflexivity.
Qed.

(* ================================================================= *)
(** ** Identifier and sponsor *)

(** X23. The id and the sponsor of a row are the raw values of [nctId] and
    of the lead sponsor's [name]: the id is null when the field is absent,
    the sponsor is ["Unknown"] when the field is absent, and a sponsor name
    that is present goes through as it is, null and empty included, unlike
    title and status. *)
Theorem id_and_sponsor_pass_through (s : json) (row : trial_row) :
  normalize_study s = Returned row ->
  NCT_ID row = at_path nct_id_path s
  /\ Sponsor row = at_path_or (JStr "Unknown") sponsor_name_path s
  /\ (forall name, json_path sponsor_name_path s = Some name -> Sponsor row = name).
Proof.
  intros Hrow.
  destruct (normalize_study_reads s row Hrow)
    as (proto & ident & design & status & sponsor & lead & phases & overall
        & Hproto & Hident & Hid & _ & _ & _ & _ & _ & _ & Hsponsor & Hlead & Hname).
  assert (Hsp : Sponsor row = at_path_or (JStr "Unknown") sponsor_name_path s).
  { unfold sponsor_name_path.
    rewrite (at_path_or_step _ _ _ _ _ _ Hproto), (at_path_or_step _ _ _ _ _ _ Hsponsor),
      (at_path_or_step _ _ _ _ _ _ Hlead).
    symmetry. apply at_path_or_last. exact Hname. }
  split; [| split].
  - unfold nct_id_path.
    rewrite (at_path_step _ _ _ _ _ Hproto), (at_path_step _ _ _ _ _ Hident).
    symmetry. apply at_path_last. exact Hid.
  - exact Hsp.
  - intros name Hpath. rewrite Hsp. unfold at_path_or. rewrite Hpath. reflexivity.
Qed.

Lemma id_and_sponsor_pass_through_witness :
  exists row,
    normalize_study
      (JObj [("protocolSection",
              JObj [("sponsorCollaboratorsModule",
                     JObj [("leadSponsor", JObj [("name", JNull)])])])])
    = Returned row
    /\ NCT_ID row = JNull
    /\ Sponsor row = JNull.
Proof.
  eexists. split; [vm_compute; reflexivity |].
  destruct (id_and_sponsor_pass_through
              (JObj [("protocolSection",
                      JObj [("sponsorCollaboratorsModule",
                             JObj [("leadSponsor", JObj [("name", JNull)])])])])
              _ eq_refl) as (Hid & _ & Hsp).
  split; [exact Hid | exact (Hsp JNull eq_refl)].
Defined.
